(** * The per-URL check engine of the link checker

    A shallow embedding of [linkcheck/checker/urlbase.py] (class [UrlBase])
    and the properties of it that the design document states.

    Conventions of the embedding.
    - A method of [UrlBase] is a computation in the monad [M]: it reads and
      writes the world (the record [self], the shared configuration
      [aggregate.config], the log, the download counter, the clock) and it
      either returns a value or raises a Python exception.  A raise keeps
      every write made before it, as in Python.
    - Python [int] is [Z]; [str] is [string], a character being its code
      point (the type holds the code points below 256); [bytes] is
      [list byte]; [None] is [None] of an option type; a tuple is a
      product.
    - A compiled regular expression is known by its [search] method only.
    - The translation function [_] is the identity on messages.
    - What the module imports from files that are not part of the sources
      at hand ([.const], [..strformat], [..url], ...) is gathered in the
      record [Imports] and passed as a section variable. *)

From Stdlib Require Import ZArith String Ascii List Bool Lia DecimalString.
From stdpp Require Import base strings list gmap.
Open Scope Z_scope.

Definition bytes : Type := list Byte.byte.

(** ** Python objects the module handles *)

Module Py.

(** Exception classes with single inheritance: a class is its name and
    its base.  [mro] is the method resolution order, [__mro__]. *)
Inductive Class : Type :=
| BaseException
| Derived (name : string) (base : Class).

#[global] Instance Class_eq_dec : EqDecision Class.
Proof. solve_decision. Defined.

Definition name_of (c : Class) : string :=
  match c with
  | BaseException => "BaseException"
  | Derived n _ => n
  end.

Fixpoint mro (c : Class) : list Class :=
  match c with
  | BaseException => [BaseException]
  | Derived _ b => c :: mro b
  end.

Definition issubclass (c d : Class) : bool := bool_decide (d ∈ mro c).

Definition Exception : Class := Derived "Exception" BaseException.
Definition KeyboardInterrupt : Class := Derived "KeyboardInterrupt" BaseException.
Definition OSError : Class := Derived "OSError" Exception.
Definition InterruptedError : Class := Derived "InterruptedError" OSError.
Definition TimeoutError : Class := Derived "TimeoutError" OSError.
Definition ValueError : Class := Derived "ValueError" Exception.
Definition UnicodeError : Class := Derived "UnicodeError" ValueError.
Definition TypeError : Class := Derived "TypeError" Exception.
Definition AttributeError : Class := Derived "AttributeError" Exception.
Definition AssertionError : Class := Derived "AssertionError" Exception.
Definition LookupError : Class := Derived "LookupError" Exception.
Definition IndexError : Class := Derived "IndexError" LookupError.

(** [socket.error] is an alias of [OSError] and [socket.timeout] one of
    [TimeoutError]. *)
Definition socket_error : Class := OSError.
Definition socket_timeout : Class := TimeoutError.

(** [linkcheck.LinkCheckerError]. *)
Definition LinkCheckerError : Class := Derived "LinkCheckerError" Exception.

(** The values found in the [args] of an exception. *)
Inductive Value : Type :=
| VNone
| VInt (z : Z)
| VStr (s : string)
| VClass (c : Class)
| VExc (c : Class) (text : string).

(** An exception instance: its class, its [args], what [str] gives for
    it (the text after the class name in a traceback), and its truth
    value. *)
Record Instance : Type := mkInstance {
  etype : Class;
  args : list Value;
  str : string;
  truth : bool
}.

(** An instance of a class that defines neither [__bool__] nor
    [__len__] is true whatever its [args]: so are the instances of
    [BaseException] and of the classes named above. *)
Definition plain (c : Class) (args_ : list Value) (text : string) : Instance :=
  mkInstance c args_ text true.

Definition as_value (e : Instance) : Value := VExc (etype e) (str e).

(** [v == n] for an integer constant [n].  Only an [int] equals an
    [int]: a class, a string, [None] or an exception object does not. *)
Definition eq_int (v : Value) (n : Z) : bool :=
  match v with
  | VInt z => z =? n
  | _ => false
  end.

(** Truth value of a string: non-empty. *)
Definition truth_str (s : string) : bool :=
  match s with
  | EmptyString => false
  | String _ _ => true
  end.

(** [errno] constants (Linux). *)
Definition EINTR : Z := 4.
Definition EBADF : Z := 9.

End Py.

(** ** Strings *)

(** [c.isspace()], the white space that [str.strip] removes.  Among the
    code points below 256 these are the space, the controls 9 to 13, the
    separators 28 to 31, the next-line control U+0085 and the no-break
    space U+00A0. *)
Definition is_space (c : ascii) : bool :=
  let n := nat_of_ascii c in
  ((n =? 32) || ((9 <=? n) && (n <=? 13)) || ((28 <=? n) && (n <=? 31)) ||
   (n =? 133) || (n =? 160))%nat.

Fixpoint lstrip (s : string) : string :=
  match s with
  | EmptyString => EmptyString
  | String c s' => if is_space c then lstrip s' else s
  end.

Fixpoint rstrip (s : string) : string :=
  match s with
  | EmptyString => EmptyString
  | String c s' =>
      match rstrip s' with
      | EmptyString => if is_space c then EmptyString else String c EmptyString
      | t => String c t
      end
  end.

(** [s.strip()]. *)
Definition strip (s : string) : string := rstrip (lstrip s).

(** [c.lower()].  Among the code points below 256 the upper-case
    letters are [A] to [Z] and U+00C0 to U+00DE without the
    multiplication sign U+00D7; each has its lower-case letter 32 places
    further. *)
Definition lower_char (c : ascii) : ascii :=
  let n := nat_of_ascii c in
  if (((65 <=? n) && (n <=? 90)) ||
      ((192 <=? n) && (n <=? 222) && negb (n =? 215)))%nat
  then ascii_of_nat (n + 32) else c.

(** [s.lower()]. *)

Fixpoint lower (s : string) : string :=
  match s with
  | EmptyString => EmptyString
  | String c s' => String (lower_char c) (lower s')
  end.

(** [s.split(":", 1)[0]]: what stands before the first colon. *)
Fixpoint before_colon (s : string) : string :=
  match s with
  | EmptyString => EmptyString
  | String c s' => if Ascii.eqb c ":" then EmptyString else String c (before_colon s')
  end.

(** [":" in s]. *)
Fixpoint has_colon (s : string) : bool :=
  match s with
  | EmptyString => false
  | String c s' => Ascii.eqb c ":" || has_colon s'
  end.

(** [len(s)]. *)
Definition len_str (s : string) : Z := Z.of_nat (String.length s).

(** Truth value of a string or [None]. *)
Definition truth_opt (o : option string) : bool :=
  match o with
  | Some s => Py.truth_str s
  | None => false
  end.

(** ** Regular expressions, link patterns and the configuration *)

(** [re.Pattern]: [search p s] is the truth value of [p.search(s)]. *)
Record Regex : Type := mkRegex { search : string -> bool }.

(** An entry of [config["externlinks"]] and [config["internlinks"]]: a
    dict with the keys ['pattern'], ['negate'] and ['strict']. *)
Record LinkPat : Type := mkLinkPat {
  pattern : Regex;
  negate : bool;
  strict : bool
}.

(** The options of [aggregate.config] that the class reads. *)
Record Config : Type := mkConfig {
  externlinks : list LinkPat;
  internlinks : list LinkPat;
  checkextern : bool;
  recursionlevel : Z;
  maxfilesizedownload : Z;
  maxfilesizeparse : Z;
  ignorewarnings : list string;
  ignoreerrors : list (Regex * Regex);
  enabledplugins : list string;
  trace : bool
}.

(** ** The connection *)

(** What one call of [url_connection.read(n)] does: it delivers a chunk
    (empty at the end of the stream) or raises. *)
Inductive ReadEvent : Type :=
| Chunk (data : bytes)
| Fault (e : Py.Instance).

(** An open connection is the sequence of reads still to come; past its
    end every read gives the empty chunk. *)
Definition Connection : Type := list ReadEvent.

(** ** The record *)

(** The five parts of a split URL, [list(urllib.parse.urlsplit(url))].
    [build_url_parts] may store [None] as the network location. *)
Record UrlParts : Type := mkUrlParts {
  p_scheme : string;
  p_netloc : option string;
  p_path : string;
  p_query : string;
  p_fragment : string
}.

Definition with_netloc (v : option string) (p : UrlParts) : UrlParts :=
  mkUrlParts (p_scheme p) v (p_path p) (p_query p) (p_fragment p).
Definition with_path (v : string) (p : UrlParts) : UrlParts :=
  mkUrlParts (p_scheme p) (p_netloc p) v (p_query p) (p_fragment p).
Definition with_fragment (v : string) (p : UrlParts) : UrlParts :=
  mkUrlParts (p_scheme p) (p_netloc p) (p_path p) (p_query p) v.

Record UrlBase : Type := mkUrlBase {
  base_url : option string;
  parent_url : option string;
  base_ref : option string;
  recursion_level : Z;
  encoding : option string;
  url : option string;
  urlparts : option UrlParts;
  scheme : option string;
  userinfo : string;
  host : option string;
  port : option Z;
  anchor : option string;
  result : string;
  has_result : bool;
  valid : bool;
  warnings : list (option string * string);
  info : list string;
  size : Z;
  dltime : Z;
  url_connection : option Connection;
  data : option bytes;
  cache_url : option string;
  extern : option (bool * bool);
  caching : bool;
  do_check_content : bool;
  content_type : string;
  ignore_errors : list (Regex * Regex)
}.

Definition with_base_url (v : option string) (r : UrlBase) : UrlBase :=
  mkUrlBase v (parent_url r) (base_ref r) (recursion_level r) (encoding r)
  (url r) (urlparts r) (scheme r) (userinfo r) (host r) (port r) (anchor r)
  (result r) (has_result r) (valid r) (warnings r) (info r) (size r) (dltime
  r) (url_connection r) (data r) (cache_url r) (extern r) (caching r)
  (do_check_content r) (content_type r) (ignore_errors r).
Definition with_parent_url (v : option string) (r : UrlBase) : UrlBase :=
  mkUrlBase (base_url r) v (base_ref r) (recursion_level r) (encoding r) (url
  r) (urlparts r) (scheme r) (userinfo r) (host r) (port r) (anchor r) (result
  r) (has_result r) (valid r) (warnings r) (info r) (size r) (dltime r)
  (url_connection r) (data r) (cache_url r) (extern r) (caching r)
  (do_check_content r) (content_type r) (ignore_errors r).
Definition with_base_ref (v : option string) (r : UrlBase) : UrlBase :=
  mkUrlBase (base_url r) (parent_url r) v (recursion_level r) (encoding r)
  (url r) (urlparts r) (scheme r) (userinfo r) (host r) (port r) (anchor r)
  (result r) (has_result r) (valid r) (warnings r) (info r) (size r) (dltime
  r) (url_connection r) (data r) (cache_url r) (extern r) (caching r)
  (do_check_content r) (content_type r) (ignore_errors r).
Definition with_recursion_level (v : Z) (r : UrlBase) : UrlBase :=
  mkUrlBase (base_url r) (parent_url r) (base_ref r) v (encoding r) (url r)
  (urlparts r) (scheme r) (userinfo r) (host r) (port r) (anchor r) (result r)
  (has_result r) (valid r) (warnings r) (info r) (size r) (dltime r)
  (url_connection r) (data r) (cache_url r) (extern r) (caching r)
  (do_check_content r) (content_type r) (ignore_errors r).
Definition with_encoding (v : option string) (r : UrlBase) : UrlBase :=
  mkUrlBase (base_url r) (parent_url r) (base_ref r) (recursion_level r) v
  (url r) (urlparts r) (scheme r) (userinfo r) (host r) (port r) (anchor r)
  (result r) (has_result r) (valid r) (warnings r) (info r) (size r) (dltime
  r) (url_connection r) (data r) (cache_url r) (extern r) (caching r)
  (do_check_content r) (content_type r) (ignore_errors r).
Definition with_url (v : option string) (r : UrlBase) : UrlBase :=
  mkUrlBase (base_url r) (parent_url r) (base_ref r) (recursion_level r)
  (encoding r) v (urlparts r) (scheme r) (userinfo r) (host r) (port r)
  (anchor r) (result r) (has_result r) (valid r) (warnings r) (info r) (size
  r) (dltime r) (url_connection r) (data r) (cache_url r) (extern r) (caching
  r) (do_check_content r) (content_type r) (ignore_errors r).
Definition with_urlparts (v : option UrlParts) (r : UrlBase) : UrlBase :=
  mkUrlBase (base_url r) (parent_url r) (base_ref r) (recursion_level r)
  (encoding r) (url r) v (scheme r) (userinfo r) (host r) (port r) (anchor r)
  (result r) (has_result r) (valid r) (warnings r) (info r) (size r) (dltime
  r) (url_connection r) (data r) (cache_url r) (extern r) (caching r)
  (do_check_content r) (content_type r) (ignore_errors r).
Definition with_scheme (v : option string) (r : UrlBase) : UrlBase :=
  mkUrlBase (base_url r) (parent_url r) (base_ref r) (recursion_level r)
  (encoding r) (url r) (urlparts r) v (userinfo r) (host r) (port r) (anchor
  r) (result r) (has_result r) (valid r) (warnings r) (info r) (size r)
  (dltime r) (url_connection r) (data r) (cache_url r) (extern r) (caching r)
  (do_check_content r) (content_type r) (ignore_errors r).
Definition with_userinfo (v : string) (r : UrlBase) : UrlBase :=
  mkUrlBase (base_url r) (parent_url r) (base_ref r) (recursion_level r)
  (encoding r) (url r) (urlparts r) (scheme r) v (host r) (port r) (anchor r)
  (result r) (has_result r) (valid r) (warnings r) (info r) (size r) (dltime
  r) (url_connection r) (data r) (cache_url r) (extern r) (caching r)
  (do_check_content r) (content_type r) (ignore_errors r).
Definition with_host (v : option string) (r : UrlBase) : UrlBase :=
  mkUrlBase (base_url r) (parent_url r) (base_ref r) (recursion_level r)
  (encoding r) (url r) (urlparts r) (scheme r) (userinfo r) v (port r) (anchor
  r) (result r) (has_result r) (valid r) (warnings r) (info r) (size r)
  (dltime r) (url_connection r) (data r) (cache_url r) (extern r) (caching r)
  (do_check_content r) (content_type r) (ignore_errors r).
Definition with_port (v : option Z) (r : UrlBase) : UrlBase :=
  mkUrlBase (base_url r) (parent_url r) (base_ref r) (recursion_level r)
  (encoding r) (url r) (urlparts r) (scheme r) (userinfo r) (host r) v (anchor
  r) (result r) (has_result r) (valid r) (warnings r) (info r) (size r)
  (dltime r) (url_connection r) (data r) (cache_url r) (extern r) (caching r)
  (do_check_content r) (content_type r) (ignore_errors r).
Definition with_anchor (v : option string) (r : UrlBase) : UrlBase :=
  mkUrlBase (base_url r) (parent_url r) (base_ref r) (recursion_level r)
  (encoding r) (url r) (urlparts r) (scheme r) (userinfo r) (host r) (port r)
  v (result r) (has_result r) (valid r) (warnings r) (info r) (size r) (dltime
  r) (url_connection r) (data r) (cache_url r) (extern r) (caching r)
  (do_check_content r) (content_type r) (ignore_errors r).
Definition with_result (v : string) (r : UrlBase) : UrlBase :=
  mkUrlBase (base_url r) (parent_url r) (base_ref r) (recursion_level r)
  (encoding r) (url r) (urlparts r) (scheme r) (userinfo r) (host r) (port r)
  (anchor r) v (has_result r) (valid r) (warnings r) (info r) (size r) (dltime
  r) (url_connection r) (data r) (cache_url r) (extern r) (caching r)
  (do_check_content r) (content_type r) (ignore_errors r).
Definition with_has_result (v : bool) (r : UrlBase) : UrlBase :=
  mkUrlBase (base_url r) (parent_url r) (base_ref r) (recursion_level r)
  (encoding r) (url r) (urlparts r) (scheme r) (userinfo r) (host r) (port r)
  (anchor r) (result r) v (valid r) (warnings r) (info r) (size r) (dltime r)
  (url_connection r) (data r) (cache_url r) (extern r) (caching r)
  (do_check_content r) (content_type r) (ignore_errors r).
Definition with_valid (v : bool) (r : UrlBase) : UrlBase :=
  mkUrlBase (base_url r) (parent_url r) (base_ref r) (recursion_level r)
  (encoding r) (url r) (urlparts r) (scheme r) (userinfo r) (host r) (port r)
  (anchor r) (result r) (has_result r) v (warnings r) (info r) (size r)
  (dltime r) (url_connection r) (data r) (cache_url r) (extern r) (caching r)
  (do_check_content r) (content_type r) (ignore_errors r).
Definition with_warnings (v : list (option string * string)) (r : UrlBase) : UrlBase :=
  mkUrlBase (base_url r) (parent_url r) (base_ref r) (recursion_level r)
  (encoding r) (url r) (urlparts r) (scheme r) (userinfo r) (host r) (port r)
  (anchor r) (result r) (has_result r) (valid r) v (info r) (size r) (dltime
  r) (url_connection r) (data r) (cache_url r) (extern r) (caching r)
  (do_check_content r) (content_type r) (ignore_errors r).
Definition with_info (v : list string) (r : UrlBase) : UrlBase :=
  mkUrlBase (base_url r) (parent_url r) (base_ref r) (recursion_level r)
  (encoding r) (url r) (urlparts r) (scheme r) (userinfo r) (host r) (port r)
  (anchor r) (result r) (has_result r) (valid r) (warnings r) v (size r)
  (dltime r) (url_connection r) (data r) (cache_url r) (extern r) (caching r)
  (do_check_content r) (content_type r) (ignore_errors r).
Definition with_size (v : Z) (r : UrlBase) : UrlBase :=
  mkUrlBase (base_url r) (parent_url r) (base_ref r) (recursion_level r)
  (encoding r) (url r) (urlparts r) (scheme r) (userinfo r) (host r) (port r)
  (anchor r) (result r) (has_result r) (valid r) (warnings r) (info r) v
  (dltime r) (url_connection r) (data r) (cache_url r) (extern r) (caching r)
  (do_check_content r) (content_type r) (ignore_errors r).
Definition with_dltime (v : Z) (r : UrlBase) : UrlBase :=
  mkUrlBase (base_url r) (parent_url r) (base_ref r) (recursion_level r)
  (encoding r) (url r) (urlparts r) (scheme r) (userinfo r) (host r) (port r)
  (anchor r) (result r) (has_result r) (valid r) (warnings r) (info r) (size
  r) v (url_connection r) (data r) (cache_url r) (extern r) (caching r)
  (do_check_content r) (content_type r) (ignore_errors r).
Definition with_url_connection (v : option Connection) (r : UrlBase) : UrlBase :=
  mkUrlBase (base_url r) (parent_url r) (base_ref r) (recursion_level r)
  (encoding r) (url r) (urlparts r) (scheme r) (userinfo r) (host r) (port r)
  (anchor r) (result r) (has_result r) (valid r) (warnings r) (info r) (size
  r) (dltime r) v (data r) (cache_url r) (extern r) (caching r)
  (do_check_content r) (content_type r) (ignore_errors r).
Definition with_data (v : option bytes) (r : UrlBase) : UrlBase :=
  mkUrlBase (base_url r) (parent_url r) (base_ref r) (recursion_level r)
  (encoding r) (url r) (urlparts r) (scheme r) (userinfo r) (host r) (port r)
  (anchor r) (result r) (has_result r) (valid r) (warnings r) (info r) (size
  r) (dltime r) (url_connection r) v (cache_url r) (extern r) (caching r)
  (do_check_content r) (content_type r) (ignore_errors r).
Definition with_cache_url (v : option string) (r : UrlBase) : UrlBase :=
  mkUrlBase (base_url r) (parent_url r) (base_ref r) (recursion_level r)
  (encoding r) (url r) (urlparts r) (scheme r) (userinfo r) (host r) (port r)
  (anchor r) (result r) (has_result r) (valid r) (warnings r) (info r) (size
  r) (dltime r) (url_connection r) (data r) v (extern r) (caching r)
  (do_check_content r) (content_type r) (ignore_errors r).
Definition with_extern (v : option (bool * bool)) (r : UrlBase) : UrlBase :=
  mkUrlBase (base_url r) (parent_url r) (base_ref r) (recursion_level r)
  (encoding r) (url r) (urlparts r) (scheme r) (userinfo r) (host r) (port r)
  (anchor r) (result r) (has_result r) (valid r) (warnings r) (info r) (size
  r) (dltime r) (url_connection r) (data r) (cache_url r) v (caching r)
  (do_check_content r) (content_type r) (ignore_errors r).
Definition with_caching (v : bool) (r : UrlBase) : UrlBase :=
  mkUrlBase (base_url r) (parent_url r) (base_ref r) (recursion_level r)
  (encoding r) (url r) (urlparts r) (scheme r) (userinfo r) (host r) (port r)
  (anchor r) (result r) (has_result r) (valid r) (warnings r) (info r) (size
  r) (dltime r) (url_connection r) (data r) (cache_url r) (extern r) v
  (do_check_content r) (content_type r) (ignore_errors r).
Definition with_do_check_content (v : bool) (r : UrlBase) : UrlBase :=
  mkUrlBase (base_url r) (parent_url r) (base_ref r) (recursion_level r)
  (encoding r) (url r) (urlparts r) (scheme r) (userinfo r) (host r) (port r)
  (anchor r) (result r) (has_result r) (valid r) (warnings r) (info r) (size
  r) (dltime r) (url_connection r) (data r) (cache_url r) (extern r) (caching
  r) v (content_type r) (ignore_errors r).
Definition with_content_type (v : string) (r : UrlBase) : UrlBase :=
  mkUrlBase (base_url r) (parent_url r) (base_ref r) (recursion_level r)
  (encoding r) (url r) (urlparts r) (scheme r) (userinfo r) (host r) (port r)
  (anchor r) (result r) (has_result r) (valid r) (warnings r) (info r) (size
  r) (dltime r) (url_connection r) (data r) (cache_url r) (extern r) (caching
  r) (do_check_content r) v (ignore_errors r).
Definition with_ignore_errors (v : list (Regex * Regex)) (r : UrlBase) : UrlBase :=
  mkUrlBase (base_url r) (parent_url r) (base_ref r) (recursion_level r)
  (encoding r) (url r) (urlparts r) (scheme r) (userinfo r) (host r) (port r)
  (anchor r) (result r) (has_result r) (valid r) (warnings r) (info r) (size
  r) (dltime r) (url_connection r) (data r) (cache_url r) (extern r) (caching
  r) (do_check_content r) (content_type r) v.

(** [UrlBase.reset]: the values a record starts with; the fields that
    [init] stores are its arguments here. *)
Definition reset_record : UrlBase :=
  {| base_url := None; parent_url := None; base_ref := None;
     recursion_level := 0; encoding := None;
     url := None; urlparts := None;
     scheme := None; userinfo := ""; host := None; port := None; anchor := None;
     result := ""; has_result := false; valid := true;
     warnings := []; info := [];
     size := -1; dltime := -1; url_connection := None; data := None;
     cache_url := None; extern := None; caching := true;
     do_check_content := true; content_type := ""; ignore_errors := [] |}.

(** ** The world and the monad of methods *)

Inductive Level : Type := DEBUG | WARN.

(** A call of [log.debug] or [log.warn]: the format and its string
    arguments (a record passed for [%s] is not rendered). *)
Record LogRecord : Type := mkLog {
  level : Level;
  format : string;
  format_args : list string
}.

Record World : Type := mkWorld {
  self : UrlBase;
  config : Config;
  log : list LogRecord;
  downloaded_bytes : Z;
  (** [time.time()]: the readings of the clock, and how many were taken. *)
  clock : nat -> Z;
  ticks : nat
}.

Inductive Outcome (A : Type) : Type :=
| Return (a : A)
| Raise (e : Py.Instance).
Arguments Return {A} a.
Arguments Raise {A} e.

Definition M (A : Type) : Type := World -> Outcome A * World.

Definition ret {A} (a : A) : M A := fun w => (Return a, w).

Definition bind {A B} (c : M A) (k : A -> M B) : M B :=
  fun w =>
    match c w with
    | (Return a, w') => k a w'
    | (Raise e, w') => (Raise e, w')
    end.

Definition raise {A} (e : Py.Instance) : M A := fun w => (Raise e, w).

(** [try: c  except: h]: the handler sees the exception and the world as
    the body left it; it re-raises what it does not handle. *)
Definition try_except {A} (c : M A) (h : Py.Instance -> M A) : M A :=
  fun w =>
    match c w with
    | (Return a, w') => (Return a, w')
    | (Raise e, w') => h e w'
    end.

#[global] Instance M_ret : MRet M := @ret.
#[global] Instance M_bind : MBind M := fun A B k c => bind c k.

Definition with_self (r : UrlBase) (w : World) : World :=
  mkWorld r (config w) (log w) (downloaded_bytes w) (clock w) (ticks w).

Definition with_config (c : Config) (w : World) : World :=
  mkWorld (self w) c (log w) (downloaded_bytes w) (clock w) (ticks w).

Definition with_log (l : list LogRecord) (w : World) : World :=
  mkWorld (self w) (config w) l (downloaded_bytes w) (clock w) (ticks w).

Definition get_self : M UrlBase := fun w => (Return (self w), w).
Definition get_config : M Config := fun w => (Return (config w), w).

Definition modify_self (f : UrlBase -> UrlBase) : M unit :=
  fun w => (Return tt, with_self (f (self w)) w).

Definition modify_config (f : Config -> Config) : M unit :=
  fun w => (Return tt, with_config (f (config w)) w).

Definition emit (l : Level) (fmt : string) (fmt_args : list string) : M unit :=
  fun w => (Return tt, with_log (log w ++ [mkLog l fmt fmt_args]) w).

Definition log_debug := emit DEBUG.
Definition log_warn := emit WARN.

(** [aggregate.add_downloaded_bytes(n)]: the crawl-wide counter. *)
Definition add_downloaded_bytes (n : Z) : M unit :=
  fun w => (Return tt,
            mkWorld (self w) (config w) (log w) (downloaded_bytes w + n)
                    (clock w) (ticks w)).

(** [time.time()]. *)
Definition time_time : M Z :=
  fun w => (Return (clock w (ticks w)),
            mkWorld (self w) (config w) (log w) (downloaded_bytes w)
                    (clock w) (S (ticks w))).

(** [try: c  except: h  else: k]: the [else] suite runs after a body that
    did not raise, outside the reach of the handler. *)
Definition try_except_else {A} (c : M unit) (h : Py.Instance -> M A) (k : M A) : M A :=
  fun w =>
    match c w with
    | (Return _, w') => k w'
    | (Raise e, w') => h e w'
    end.

(** A [for] loop over a list whose body neither breaks nor returns. *)
Fixpoint for_each {A} (l : list A) (body : A -> M unit) : M unit :=
  match l with
  | [] => ret tt
  | x :: l' => body x;; for_each l' body
  end.

Definition when (b : bool) (c : M unit) : M unit := if b then c else ret tt.

(** The value and the world a computation ends with. *)
Definition outcome {A} (c : M A) (w : World) : Outcome A := fst (c w).
Definition exec {A} (c : M A) (w : World) : World := snd (c w).

(** [p.search(s)]: a [TypeError] when [s] is [None]. *)
Definition re_search (p : Regex) (s : option string) : M bool :=
  match s with
  | Some s => ret (search p s)
  | None =>
      raise (Py.plain Py.TypeError
               [Py.VStr "expected string or bytes-like object"]
               "expected string or bytes-like object")
  end.

(** ** Diagnostics recorder: [add_info], [add_warning], [set_result] *)

(** [UrlBase.add_info]. *)
Definition add_info (s : string) : M unit :=
  r ← get_self;
  if bool_decide (s ∈ info r) then ret tt
  else modify_self (with_info (info r ++ [s])).

(** [tag in config["ignorewarnings"]]: the option holds tag names, so
    the tag [None] is never in it. *)
Definition tag_in (tag : option string) (tags : list string) : bool :=
  match tag with
  | Some t => bool_decide (t ∈ tags)
  | None => false
  end.

(** [UrlBase.add_warning]. *)
Definition add_warning (s : string) (tag : option string) : M unit :=
  let item := (tag, s) in
  r ← get_self;
  if bool_decide (item ∈ warnings r) then ret tt
  else
    cfg ← get_config;
    if tag_in tag (ignorewarnings cfg) then add_info s
    else modify_self (with_warnings (warnings r ++ [item])).

(** The body of the loop over [self.ignore_errors] in [set_result]. *)
Definition ignore_rule (rule : Regex * Regex) : M unit :=
  let '(url_regex, msg_regex) := rule in
  r ← get_self;
  found ← re_search url_regex (url r);
  if negb found then ret tt (* continue *)
  else
    found ← re_search msg_regex (Some (result r));
    if negb found then ret tt (* continue *)
    else
      modify_self (with_valid true);;
      r ← get_self;
      modify_self (with_result ("Ignored: " +:+ result r)).

(** [UrlBase.set_result]; the defaults are [valid=True], [overwrite=False]. *)
Definition set_result (msg : string) (valid_ : bool) (overwrite : bool) : M unit :=
  r ← get_self;
  (if has_result r && negb overwrite
   then log_warn "Double result %r (previous %r) for %s" [msg; result r]
   else modify_self (with_has_result true));;
  when (negb (Py.truth_str msg)) (log_warn "Empty result for %s" []);;
  modify_self (with_result msg);;
  modify_self (with_valid valid_);;
  r ← get_self;
  when (negb (valid r)) (for_each (ignore_errors r) ignore_rule);;
  (* free content data *)
  modify_self (with_data None).

(** ** Scope classifier: [set_extern] *)

(** The test of one entry:
    [(entry['negate'] and not match) or (match and not entry['negate'])]. *)
Definition entry_applies (u : string) (entry : LinkPat) : bool :=
  let match_ := search (pattern entry) u in
  (negate entry && negb match_) || (match_ && negb (negate entry)).

(** [UrlBase.set_extern].  Each [for] loop returns at the first entry
    that applies, which is [find]. *)
Definition set_extern (u : option string) : M unit :=
  r ← get_self;
  match extern r with
  | Some _ => ret tt
  | None =>
      match u with
      | None | Some EmptyString => modify_self (with_extern (Some (true, true)))
      | Some u =>
          cfg ← get_config;
          match find (entry_applies u) (externlinks cfg) with
          | Some entry =>
              log_debug "Extern URL %r" [u];;
              modify_self (with_extern (Some (true, strict entry)))
          | None =>
              match find (entry_applies u) (internlinks cfg) with
              | Some entry =>
                  log_debug "Intern URL %r" [u];;
                  modify_self (with_extern (Some (false, false)))
              | None =>
                  if checkextern cfg
                  then modify_self (with_extern (Some (true, false)))
                  else modify_self (with_extern (Some (true, true)))
              end
          end
      end
  end.

(** ** Connection and content manager *)

(** [UrlBase.ReadChunkBytes]: read in 16kb chunks. *)
Definition ReadChunkBytes : Z := 1024 * 16.

Definition attribute_error (text : string) : Py.Instance :=
  Py.plain Py.AttributeError [Py.VStr text] text.

Definition type_error (text : string) : Py.Instance :=
  Py.plain Py.TypeError [Py.VStr text] text.

(** [self.url_connection], for a method call on it: [None] has no methods. *)
Definition the_connection : M Connection :=
  r ← get_self;
  match url_connection r with
  | Some conn => ret conn
  | None => raise (attribute_error "'NoneType' object has no attribute 'read'")
  end.

(** [url_connection.read(n)]: the next read of the connection.  A chunk
    has at most [n] bytes; the properties below do not depend on it. *)
Definition connection_read (n : Z) : M bytes :=
  conn ← the_connection;
  match conn with
  | [] => ret []
  | Chunk d :: rest => modify_self (with_url_connection (Some rest));; ret d
  | Fault e :: rest => modify_self (with_url_connection (Some rest));; raise e
  end.

(** [UrlBase.read_content_chunk]. *)
Definition read_content_chunk : M bytes := connection_read ReadChunkBytes.

(** Truth value of a bytes object: non-empty. *)
Definition truth_bytes (b : bytes) : bool :=
  match b with
  | [] => false
  | _ :: _ => true
  end.

Definition len {A} (l : list A) : Z := Z.of_nat (length l).

Definition file_size_too_large : Py.Instance :=
  Py.plain Py.LinkCheckerError [Py.VStr "File size too large"]
                "File size too large".

(** The loop [while data: ...] of [read_content], entered with the
    buffer [buf] and the chunk [data] just read.  [conn] is the
    connection as the last read left it: the recursion is on the reads
    still to come, and past the last of them the read gives the empty
    chunk, which ends the loop.  [read_while_step] below states the loop
    in the words of the source, with [read_content_chunk]. *)
Fixpoint read_while (conn : Connection) (buf data : bytes) : M bytes :=
  if truth_bytes data then
    cfg ← get_config;
    if len buf + len data >? maxfilesizedownload cfg
    then raise file_size_too_large
    else
      let buf := buf ++ data in
      match conn with
      | [] => ret buf
      | Chunk d :: rest =>
          modify_self (with_url_connection (Some rest));;
          read_while rest buf d
      | Fault e :: rest =>
          modify_self (with_url_connection (Some rest));;
          raise e
      end
  else ret buf.

(** [UrlBase.read_content]. *)
Definition read_content : M bytes :=
  data ← read_content_chunk;
  conn ← the_connection;
  read_while conn [] data.

(** [UrlBase.can_get_content]. *)
Definition can_get_content : M bool :=
  r ← get_self;
  cfg ← get_config;
  ret (size r <=? maxfilesizedownload cfg).

(** ** What the module imports *)

(** [str] of an integer. *)
Definition str_int (z : Z) : string := NilZero.string_of_int (Z.to_int z).

(** [None] printed with [%s] or [%r]. *)
Definition or_None (o : option string) : string := default "None" o.

(** A pure library function that may raise. *)
Definition Result (A : Type) : Type := Py.Instance + A.

Definition lift {A} (x : Result A) : M A :=
  match x with
  | inl e => raise e
  | inr a => ret a
  end.

Record Imports : Type := mkImports {
  (** [.const] *)
  WARN_URL_EFFECTIVE_URL : string;
  WARN_URL_ERROR_GETTING_CONTENT : string;
  WARN_URL_OBFUSCATED_IP : string;
  WARN_URL_CONTENT_SIZE_ZERO : string;
  WARN_URL_CONTENT_SIZE_TOO_LARGE : string;
  WARN_URL_CONTENT_TYPE_UNPARSEABLE : string;
  WARN_URL_WHITESPACE : string;
  WARN_URL_TOO_LONG : string;
  URL_MAX_LENGTH : Z;
  ExcList : list Py.Class;
  ExcSyntaxList : list Py.Class;
  ExcNoCacheList : list Py.Class;
  (** [..strformat] *)
  strformat_limit : string -> Z -> string;
  strformat_strsize : Z -> string;
  (** [..url], imported as [urlutil] *)
  url_is_absolute : string -> bool;
  urlutil_url_norm : option string -> option string -> Result (string * bool);
  url_needs_quoting : string -> bool;
  (** [.absolute_url], from the package of the module *)
  absolute_url : option string -> option string -> option string -> string;
  urlutil_urlunsplit : UrlParts -> string;
  collapse_segments : string -> string;
  url_fix_wayback_query : string -> string;
  split_netloc : string -> string * string;
  default_ports : gmap string (option Z);
  (** [..network.iputil] *)
  is_obfuscated_ip : string -> bool;
  resolve_host : string -> list string;
  (** [..trace] and [aggregate.plugin_manager] *)
  trace_on : M unit;
  run_connection_plugins : M unit;
  run_content_plugins : M unit;
  (** [urllib]: [urljoin], [urlsplit], the [port] and the [hostname] of
      a split result (both read off its [netloc]), [urlopen] *)
  urllib_urljoin : option string -> string -> Result string;
  urllib_urlsplit : string -> Result UrlParts;
  split_port : UrlParts -> Result (option Z);
  split_hostname : UrlParts -> option string;
  urlopen : option string -> M Connection;
  (** built-in: [repr] of a string *)
  repr : string -> string
}.

(** [UrlBase.ContentMimetypes]: file types that can be parsed recursively. *)
Definition ContentMimetypes : gmap string string :=
  list_to_map
    [ ("text/html", "html");
      ("application/xhtml+xml", "html");
      ("application/x-httpd-php", "html");
      ("text/css", "css");
      ("application/vnd.adobe.flash.movie", "swf");
      ("application/x-shockwave-flash", "swf");
      ("application/msword", "word");
      ("text/plain+linkchecker", "text");
      ("text/plain+opera", "opera");
      ("text/plain+chromium", "chromium");
      ("application/x-plist+safari", "safari");
      ("text/vnd.wap.wml", "wml");
      ("application/xml+sitemap", "sitemap");
      ("application/xml+sitemapindex", "sitemapindex");
      ("application/pdf", "pdf");
      ("application/x-pdf", "pdf") ].

(** The methods that the per-scheme subclasses override and the base
    class calls through [self]. *)
Record Variant : Type := mkVariant {
  do_check_connection : M unit;
  do_set_content_type : M unit;
  do_add_size_info : M unit;
  do_can_get_content : M bool;
  do_is_parseable : M bool;
  do_content_allows_robots : M bool
}.

Section UrlBase.

Variable I : Imports.

(** *** Content *)

(** [UrlBase.download_content]. *)
Definition download_content : M bytes :=
  r ← get_self;
  log_debug "Get content of %r" [or_None (url r)];;
  t ← time_time;
  content ← read_content;
  modify_self (with_size (len content));;
  t' ← time_time;
  modify_self (with_dltime (t' - t));;
  r ← get_self;
  (if size r =? 0
   then add_warning "Content size is zero." (Some (WARN_URL_CONTENT_SIZE_ZERO I))
   else add_downloaded_bytes (size r));;
  ret content.

(** [UrlBase.get_raw_content]. *)
Definition get_raw_content : M bytes :=
  r ← get_self;
  match data r with
  | Some d => ret d
  | None =>
      d ← download_content;
      modify_self (with_data (Some d));;
      ret d
  end.

(** [UrlBase.check_connection]. *)
Definition check_connection : M unit :=
  r ← get_self;
  conn ← urlopen I (url r);
  modify_self (with_url_connection (Some conn)).

(** [UrlBase.set_content_type]: should be overridden in subclasses. *)
Definition set_content_type : M unit := ret tt.

(** [UrlBase.add_size_info]. *)
Definition add_size_info : M unit :=
  cfg ← get_config;
  let maxbytes := maxfilesizedownload cfg in
  r ← get_self;
  when (size r >? maxbytes)
    (add_warning
       ("Content size " +:+ strformat_strsize I (size r) +:+
        " is larger than " +:+ strformat_strsize I maxbytes +:+ ".")
       (Some (WARN_URL_CONTENT_SIZE_TOO_LARGE I))).

(** *** Recursion gate *)

(** [UrlBase.is_content_type_parseable]. *)
Definition is_content_type_parseable : M bool :=
  r ← get_self;
  if bool_decide (is_Some (ContentMimetypes !! content_type r)) then ret true
  else
    log_debug "URL with content type %r is not parseable" [content_type r];;
    when (recursion_level r =? 0)
      (add_warning
         ("The URL with content type " +:+ repr I (content_type r) +:+
          " is not parseable.")
         (Some (WARN_URL_CONTENT_TYPE_UNPARSEABLE I)));;
    ret false.

(** [UrlBase.is_parseable]. *)
Definition is_parseable : M bool := ret false.

(** [UrlBase.content_allows_robots]: only check robots.txt on HTTP links. *)
Definition content_allows_robots : M bool := ret true.

(** [self.extern[i]]: [None] is not subscriptable. *)
Definition the_extern : M (bool * bool) :=
  r ← get_self;
  match extern r with
  | Some e => ret e
  | None => raise (type_error "'NoneType' object is not subscriptable")
  end.

(** [UrlBase.allows_simple_recursion]. *)
Definition allows_simple_recursion : M bool :=
  cfg ← get_config;
  let rec_level := recursionlevel cfg in
  r ← get_self;
  if (rec_level >=? 0) && (recursion_level r >=? rec_level) then
    log_debug "... no, maximum recursion level reached." [];;
    ret false
  else
    '(is_extern, _) ← the_extern;
    if (is_extern : bool) then
      log_debug "... no, extern." [];;
      ret false
    else ret true.

(** The base class as a variant. *)
Definition base_variant : Variant :=
  {| do_check_connection := check_connection;
     do_set_content_type := set_content_type;
     do_add_size_info := add_size_info;
     do_can_get_content := can_get_content;
     do_is_parseable := is_parseable;
     do_content_allows_robots := content_allows_robots |}.

(** [UrlBase.allows_recursion], for the variant [V] of [self]. *)
Definition allows_recursion (V : Variant) : M bool :=
  r ← get_self;
  log_debug "checking recursion of %r ..." [or_None (url r)];;
  if negb (valid r) then
    log_debug "... no, invalid." [];;
    ret false
  else
    b ← do_can_get_content V;
    if negb b then
      log_debug "... no, cannot get content." [];;
      ret false
    else
      b ← allows_simple_recursion;
      if negb b then ret false
      else
        r ← get_self;
        cfg ← get_config;
        if size r >? maxfilesizeparse cfg then
          log_debug "... no, maximum parse size." [];;
          ret false
        else
          b ← do_is_parseable V;
          if negb b then
            log_debug "... no, not parseable." [];;
            ret false
          else
            b ← do_content_allows_robots V;
            if negb b then
              log_debug "... no, robots." [];;
              ret false
            else
              log_debug "... yes, recursion." [];;
              ret true.

(** *** Fault translator *)

Definition tuple_index_error : Py.Instance :=
  Py.plain Py.IndexError [Py.VStr "tuple index out of range"]
                "tuple index out of range".

(** [evalue.args[0]]. *)
Definition arg0 (e : Py.Instance) : M Py.Value :=
  match Py.args e with
  | a :: _ => ret a
  | [] => raise tuple_index_error
  end.

(** [UrlBase.handle_exception]; [exc] is the exception being handled,
    which the method reads from [sys.exc_info()]. *)
Definition handle_exception (exc : Py.Instance) : M string :=
  let etype := Py.etype exc in
  let evalue := exc in
  r ← get_self;
  log_debug "Error in %s: %s %s"
    [or_None (url r); Py.name_of etype; Py.str evalue];;
  (* note: etype must be the exact class, not a subclass *)
  nocache ←
    (if bool_decide (etype ∈ ExcNoCacheList I) then ret true
     else
       ebadf ←
         (if bool_decide (etype = Py.socket_error)
          then a ← arg0 evalue; ret (Py.eq_int a Py.EBADF)
          else ret false);
       if (ebadf : bool) then ret true
       else ret (negb (Py.truth evalue)));
  when nocache (modify_self (with_caching false));;
  (* format message "<exception name>: <error message>" *)
  let errmsg := Py.name_of etype in
  let errmsg :=
    if Py.truth evalue then errmsg +:+ ": " +:+ Py.str evalue else errmsg in
  (* limit length to 240 *)
  ret (strformat_limit I errmsg 240).

(** [except tuple(classes)]: an instance of one of the classes or of a
    subclass of one. *)
Definition caught_by (classes : list Py.Class) (e : Py.Instance) : bool :=
  existsb (Py.issubclass (Py.etype e)) classes.



(** [UrlBase.check]; [local_check_] is the [local_check] of [self],
    which subclasses override. *)
Definition check (local_check_ : M unit) : M unit :=
  cfg ← get_config;
  when (trace cfg) (trace_on I);;
  try_except local_check_
    (fun exc =>
       if Py.issubclass (Py.etype exc) Py.OSError then
         (* on Unix, ctrl-c can raise
            error: (4, 'Interrupted system call') *)
         let etype := Py.etype exc in
         let value := exc in
         if Py.eq_int (Py.VClass etype) Py.EINTR
         then raise (Py.plain Py.KeyboardInterrupt
                       [Py.as_value value] (Py.str value))
         else raise exc
       else raise exc).

(** *** URL builder *)

(** schemes that are invalid with an empty hostname *)
Definition scheme_requires_host : list string := ["ftp"; "http"].

Definition link_checker_error (text : string) : Py.Instance :=
  Py.plain Py.LinkCheckerError [Py.VStr text] text.

Definition assertion_error (text : string) : Py.Instance :=
  Py.plain Py.AssertionError [Py.VStr text] text.

(** The module's [urljoin]: if [u] is relative, join parent and [u];
    else leave [u] as-is. *)
Definition urljoin (parent : option string) (u : string) : M string :=
  if url_is_absolute I u then ret u
  else lift (urllib_urljoin I parent u).

(** The module's [url_norm]: [urlutil.url_norm] with a [UnicodeError]
    turned into a [LinkCheckerError]. *)
Definition url_norm (u : option string) (enc : option string) : M (string * bool) :=
  match urlutil_url_norm I u enc with
  | inr x => ret x
  | inl e =>
      if Py.issubclass (Py.etype e) Py.UnicodeError
      then raise (link_checker_error
                    ("URL has unparsable domain name: " +:+ Py.str e))
      else raise e
  end.

(** [default_ports.get(scheme, default)] *)
Definition default_port (sch : option string) (default_ : option Z) : option Z :=
  match sch ≫= (fun k => default_ports I !! k) with
  | Some v => v
  | None => default_
  end.

(** The network location that [build_url_parts] stores in the parts:
    the host, with the port unless it is absent or the default of the
    scheme, behind the user info if there is one. *)
Definition authority (sch : option string) (userinfo_ : string)
    (host_ : option string) (port_ : Z) : option string :=
  let host_ :=
    if (port_ =? 0) || bool_decide (Some port_ = default_port sch None)
    then host_
    else Some (or_None host_ +:+ ":" +:+ str_int port_) in
  if Py.truth_str userinfo_
  then Some (userinfo_ +:+ "@" +:+ or_None host_)
  else host_.

(** The path of the joined URL normed again in [build_url]: segments
    collapsed, and outside the feed schemes the second slash of
    [http[s]://] restored in a wayback path. *)
Definition renorm_path (urlparts : UrlParts) : UrlParts :=
  if Py.truth_str (p_path urlparts) then
    let urlparts := with_path (collapse_segments I (p_path urlparts)) urlparts in
    if negb (String.prefix "feed" (p_scheme urlparts)) then
      (* restore second / in http[s]:// in wayback path *)
      with_path (url_fix_wayback_query I (p_path urlparts)) urlparts
    else urlparts
  else urlparts.

(** [UrlBase.check_obfuscated_ip]. *)
Definition check_obfuscated_ip : M unit :=
  r ← get_self;
  let h := default "" (host r) in
  if is_obfuscated_ip I h then
    match resolve_host I h with
    | ip :: _ =>
        modify_self (with_host (Some ip));;
        add_warning
          ("URL " +:+ or_None (base_url r) +:+
           " has obfuscated IP address " +:+ ip)
          (Some (WARN_URL_OBFUSCATED_IP I))
    | [] => ret tt
    end
  else ret tt.

(** [UrlBase.build_url_parts]. *)
Definition build_url_parts (u : string) : M UrlParts :=
  split ← lift (urllib_urlsplit I u);
  let urlparts := (split : UrlParts) in
  (* check userinfo@host:port syntax *)
  let '(userinfo_, host_) := split_netloc I (default "" (p_netloc split)) in
  modify_self (with_userinfo userinfo_);;
  port_ ←
    match split_port I split with
    | inr p => ret p
    | inl e =>
        if Py.issubclass (Py.etype e) Py.ValueError
        then raise (link_checker_error
                      ("URL host " +:+ repr I host_ +:+ " has invalid port"))
        else raise e
    end;
  r ← get_self;
  let port_ :=
    match (port_ : option Z) with
    | Some p => Some p
    | None => default_port (scheme r) (Some 0)
    end in
  match port_ with
  | None =>
      raise (link_checker_error
               ("URL host " +:+ repr I host_ +:+ " has invalid port"))
  | Some port_ =>
      modify_self (with_port (Some port_));;
      (* urllib.parse.SplitResult.hostname is lowercase *)
      modify_self (with_host (split_hostname I split));;
      r ← get_self;
      (if bool_decide (scheme r ∈ map Some scheme_requires_host) then
         if negb (truth_opt (host r))
         then raise (link_checker_error "URL has empty hostname")
         else check_obfuscated_ip
       else ret tt);;
      r ← get_self;
      let urlparts :=
        with_netloc (authority (scheme r) (userinfo r) (host r) port_) urlparts in
      (* save anchor for later checking *)
      modify_self (with_anchor (Some (p_fragment split)));;
      ret urlparts
  end.

(** [UrlBase.build_url]. *)
Definition build_url : M unit :=
  r ← get_self;
  (* norm base url - can raise UnicodeError from url.idna_encode() *)
  '(base_url_, is_idn) ← url_norm (base_url r) (encoding r);
  (* make url absolute *)
  u ←
    (if truth_opt (base_ref r) then
       (* use base reference as parent url *)
       (if negb (has_colon (default "" (base_ref r))) then
          (* some websites have a relative base reference *)
          j ← urljoin (parent_url r) (default "" (base_ref r));
          modify_self (with_base_ref (Some j))
        else ret tt);;
       r ← get_self;
       urljoin (base_ref r) base_url_
     else if truth_opt (parent_url r) then
       (* strip the parent url anchor *)
       urlparts ← lift (urllib_urlsplit I (default "" (parent_url r)));
       let urlparts := with_fragment "" urlparts in
       let parent_url_ := urlutil_urlunsplit I urlparts in
       urljoin (Some parent_url_) base_url_
     else ret base_url_);
  modify_self (with_url (Some u));;
  (* urljoin can unnorm the url path, so norm it again *)
  urlparts ← lift (urllib_urlsplit I u);
  let urlparts := renorm_path urlparts in
  let u := urlutil_urlunsplit I urlparts in
  modify_self (with_url (Some u));;
  urlparts ← build_url_parts u;
  modify_self (with_urlparts (Some urlparts));;
  (* and unsplit again *)
  modify_self (with_url (Some (urlutil_urlunsplit I urlparts))).

(** [self.urlparts] where the parts are needed: [None] is neither
    iterable nor subscriptable. *)
Definition the_urlparts : M UrlParts :=
  r ← get_self;
  match urlparts r with
  | Some p => ret p
  | None => raise (type_error "'NoneType' object is not subscriptable")
  end.

(** [UrlBase.check_url_warnings]. *)
Definition check_url_warnings : M unit :=
  parts ← the_urlparts;
  let effectiveurl := urlutil_urlunsplit I parts in
  r ← get_self;
  (if bool_decide (url r = Some effectiveurl) then ret tt
   else
     add_warning ("Effective URL " +:+ repr I effectiveurl +:+ ".")
       (Some (WARN_URL_EFFECTIVE_URL I));;
     modify_self (with_url (Some effectiveurl)));;
  let n := len_str effectiveurl in
  r ← get_self;
  when ((n >? URL_MAX_LENGTH I) && negb (bool_decide (scheme r = Some "data")))
    (add_warning
       ("URL length " +:+ str_int n +:+ " is longer than " +:+
        str_int (URL_MAX_LENGTH I) +:+ ".")
       (Some (WARN_URL_TOO_LONG I))).

(** [UrlBase.set_cache_url]. *)
Definition set_cache_url : M unit :=
  cfg ← get_config;
  r ← get_self;
  (if bool_decide ("AnchorCheck" ∈ enabledplugins cfg) then
     modify_self (with_cache_url (url r))
   else
     (* remove anchor from cached target url since we assume
        URLs with different anchors to have the same content *)
     parts ← the_urlparts;
     modify_self
       (with_cache_url (Some (urlutil_urlunsplit I (with_fragment "" parts)))));;
  r ← get_self;
  log_debug "cache_url '%s'" [or_None (cache_url r)].

(** [UrlBase.check_syntax]. *)
Definition check_syntax : M unit :=
  log_debug "checking syntax" [];;
  r ← get_self;
  when (negb (bool_decide (is_Some (base_url r))))
    (modify_self (with_base_url (Some "")));;
  r ← get_self;
  if negb (truth_opt (base_url r) || truth_opt (parent_url r)) then
    set_result "URL is empty" false false
  else
    try_except_else
      (build_url;; check_url_warnings)
      (fun msg =>
         if caught_by (ExcSyntaxList I) msg
         then set_result (Py.str msg) false false
         else raise msg)
      set_cache_url.

(** [UrlBase.get_intern_pattern]. *)
Definition get_intern_pattern : M (option LinkPat) := ret None.

(** [UrlBase.add_intern_pattern]; [get_link_pat] has been applied to
    the pattern that [get_intern_pattern] gives. *)
Definition add_intern_pattern : M unit :=
  try_except
    (pat ← get_intern_pattern;
     match (pat : option LinkPat) with
     | Some pat =>
         log_debug "Add intern pattern %r" [];;
         modify_config
           (fun c =>
              mkConfig (externlinks c) (internlinks c ++ [pat]) (checkextern c)
                (recursionlevel c) (maxfilesizedownload c) (maxfilesizeparse c)
                (ignorewarnings c) (ignoreerrors c) (enabledplugins c) (trace c))
     | None => ret tt
     end)
    (fun msg =>
       if Py.issubclass (Py.etype msg) Py.UnicodeError
       then set_result ("URL has unparsable domain name: " +:+ Py.str msg)
              false false
       else raise msg).

(** [url.split(":", 1)[0].lower() or "file"]: assume file link if no
    scheme is found. *)
Definition scheme_of (u : string) : string :=
  let sch := lower (before_colon u) in
  if Py.truth_str sch then sch else "file".

(** [UrlBase.init], after [reset]. *)
Definition init (base_ref_ base_url_ parent_url_ : option string)
    (recursion_level_ : Z) (url_encoding : option string)
    (extern_ : option (bool * bool)) : M unit :=
  modify_self (with_base_ref base_ref_);;
  modify_self
    (with_base_url (if truth_opt base_url_ then strip <$> base_url_ else base_url_));;
  modify_self (with_parent_url parent_url_);;
  modify_self (with_recursion_level recursion_level_);;
  modify_self (with_encoding url_encoding);;
  modify_self (with_extern extern_);;
  r ← get_self;
  (if truth_opt (base_ref r) && url_needs_quoting I (default "" (base_ref r))
   then raise (assertion_error
                 ("unquoted base reference URL " +:+ repr I (default "" (base_ref r))))
   else ret tt);;
  (if truth_opt (parent_url r) && url_needs_quoting I (default "" (parent_url r))
   then raise (assertion_error
                 ("unquoted parent URL " +:+ repr I (default "" (parent_url r))))
   else ret tt);;
  let u := absolute_url I (base_url r) base_ref_ parent_url_ in
  modify_self (with_scheme (Some (scheme_of u)));;
  (if bool_decide (base_url r = base_url_) then ret tt
   else
     add_warning
       ("Leading or trailing whitespace in URL `" +:+ or_None base_url_ +:+ "'.")
       (Some (WARN_URL_WHITESPACE I)));;
  cfg ← get_config;
  modify_self (with_ignore_errors (ignoreerrors cfg)).

(** [UrlBase.__init__]. *)
Definition new (base_url_ : option string) (recursion_level_ : Z)
    (parent_url_ base_ref_ url_encoding : option string)
    (extern_ : option (bool * bool)) : M unit :=
  modify_self (fun _ => reset_record);;
  init base_ref_ base_url_ parent_url_ recursion_level_ url_encoding extern_;;
  check_syntax;;
  when (recursion_level_ =? 0) add_intern_pattern;;
  r ← get_self;
  set_extern (url r);;
  '(is_extern, is_strict) ← the_extern;
  if (is_extern : bool) && (is_strict : bool) then
    add_info "The URL is outside of the domain filter, checked only syntax.";;
    r ← get_self;
    when (negb (has_result r)) (set_result "filtered" true false)
  else ret tt.

End UrlBase.

(** ** The functions of [urllib.parse] that the class calls

    Models of the library functions on URLs without control characters
    and without a bracketed host.  The class is verified for any
    [Imports]; these serve where a statement needs an instance. *)

Module Urllib.

(** [s.partition(c)]: what stands before the first [c], whether [c]
    was found, and what stands after it. *)
Fixpoint partition (c : ascii) (s : string) : string * bool * string :=
  match s with
  | EmptyString => (EmptyString, false, EmptyString)
  | String a s' =>
      if Ascii.eqb a c then (EmptyString, true, s')
      else let '(x, found, y) := partition c s' in (String a x, found, y)
  end.

(** The characters of a scheme name. *)
Definition is_scheme_char (c : ascii) : bool :=
  let n := nat_of_ascii c in
  (((97 <=? n) && (n <=? 122)) || ((65 <=? n) && (n <=? 90)) ||
   ((48 <=? n) && (n <=? 57)) || (n =? 43) || (n =? 45) || (n =? 46))%nat.

Fixpoint all_chars (p : ascii -> bool) (s : string) : bool :=
  match s with
  | EmptyString => true
  | String a s' => p a && all_chars p s'
  end.

(** [_splitnetloc(url, 0)]: up to the first of [/], [?] and [#]. *)
Fixpoint splitnetloc (s : string) : string * string :=
  match s with
  | EmptyString => (EmptyString, EmptyString)
  | String a s' =>
      if Ascii.eqb a "/" || Ascii.eqb a "?" || Ascii.eqb a "#" then (EmptyString, s)
      else let '(x, y) := splitnetloc s' in (String a x, y)
  end.

(** [urllib.parse.urlsplit], without the stripping of control
    characters and the check of brackets. *)
Definition urlsplit (u : string) : UrlParts :=
  let '(sch, rest) :=
    match partition ":" u with
    | (String a x, true, y) =>
        if all_chars is_scheme_char (String a x) then (lower (String a x), y)
        else (EmptyString, u)
    | _ => (EmptyString, u)
    end in
  let '(netloc, rest) :=
    match rest with
    | String "/" (String "/" r) => splitnetloc r
    | _ => (EmptyString, rest)
    end in
  let '(rest, _, fragment) := partition "#" rest in
  let '(path, _, query) := partition "?" rest in
  mkUrlParts sch (Some netloc) path query fragment.

Definition uses_netloc : list string :=
  [""; "ftp"; "http"; "gopher"; "nntp"; "telnet"; "imap"; "wais"; "file";
   "mms"; "https"; "shttp"; "snews"; "prospero"; "rtsp"; "rtspu"; "rsync";
   "svn"; "svn+ssh"; "sftp"; "nfs"; "git"; "git+ssh"; "ws"; "wss"].

(** [urllib.parse.urlunsplit]. *)
Definition urlunsplit (p : UrlParts) : string :=
  let netloc := default "" (p_netloc p) in
  let u := p_path p in
  let u :=
    if Py.truth_str netloc ||
       (Py.truth_str (p_scheme p) && bool_decide (p_scheme p ∈ uses_netloc) &&
        negb (String.prefix "//" u))
    then
      let u := if Py.truth_str u && negb (String.prefix "/" u) then "/" +:+ u else u in
      "//" +:+ netloc +:+ u
    else u in
  let u := if Py.truth_str (p_scheme p) then p_scheme p +:+ ":" +:+ u else u in
  let u := if Py.truth_str (p_query p) then u +:+ "?" +:+ p_query p else u in
  let u := if Py.truth_str (p_fragment p) then u +:+ "#" +:+ p_fragment p else u in
  u.


(** [s.rpartition(c)[2]]: what stands after the last [c]; all of [s]
    when there is none. *)
Fixpoint after_last (c : ascii) (s : string) : string :=
  match s with
  | EmptyString => EmptyString
  | String a s' =>
      let '(_, found, _) := partition c s' in
      if (found : bool) then after_last c s'
      else if Ascii.eqb a c then s' else s
  end.

(** [s.rpartition(c)[0]]: what stands before the last [c]; empty when
    there is none. *)
Fixpoint before_last (c : ascii) (s : string) : string :=
  match s with
  | EmptyString => EmptyString
  | String a s' =>
      let '(_, found, _) := partition c s' in
      if (found : bool) then String a (before_last c s')
      else EmptyString
  end.

Definition is_digit (c : ascii) : bool :=
  let n := nat_of_ascii c in ((48 <=? n) && (n <=? 57))%nat.

Fixpoint int_of_digits (acc : Z) (s : string) : Z :=
  match s with
  | EmptyString => acc
  | String a s' => int_of_digits (10 * acc + (Z.of_nat (nat_of_ascii a) - 48)) s'
  end.

Definition value_error (text : string) : Py.Instance :=
  Py.plain Py.ValueError [Py.VStr text] text.

(** [SplitResult._hostinfo], without bracketed hosts. *)
Definition hostinfo (p : UrlParts) : string * option string :=
  let '(hostname, _, port_) := partition ":" (after_last "@" (default "" (p_netloc p))) in
  (hostname, if Py.truth_str port_ then Some port_ else None).

(** [SplitResult.hostname]. *)
Definition hostname (p : UrlParts) : option string :=
  let h := fst (hostinfo p) in
  if Py.truth_str h then Some (lower h) else None.

(** [SplitResult.port]. *)
Definition port (p : UrlParts) : Result (option Z) :=
  match snd (hostinfo p) with
  | None => inr None
  | Some d =>
      if all_chars is_digit d then
        let n := int_of_digits 0 d in
        if n <=? 65535 then inr (Some n)
        else inl (value_error "Port out of range 0-65535")
      else inl (value_error ("Port could not be cast to integer value as " +:+ d))
  end.

End Urllib.

(** ** An instance of the imports

    Stand-ins for the modules that are not among the sources, used for
    closed examples only: every property below is proved for an
    arbitrary [Imports]. *)

Module Sample.

(** A pattern without special characters: it is found where it occurs. *)
Definition literal (needle : string) : Regex :=
  mkRegex (fun s => bool_decide (is_Some (String.index 0 needle s))).

Definition limit (s : string) (n : Z) : string :=
  if negb (Py.truth_str s) || (len_str s <=? n) then s
  else if n =? 0 then ""
  else String.substring 0 (Z.to_nat n) s +:+ "...".

Definition is_absolute (u : string) : bool :=
  Py.truth_str (p_scheme (Urllib.urlsplit u)).

Definition norm (u enc : option string) : Result (string * bool) :=
  match u with
  | Some u => inr (Urllib.urlunsplit (Urllib.urlsplit u), false)
  | None => inl (type_error "expected string or bytes-like object")
  end.

Fixpoint has_space (s : string) : bool :=
  match s with
  | EmptyString => false
  | String a s' => is_space a || has_space s'
  end.

Definition absolute (base_url_ base_ref_ parent_url_ : option string) : string :=
  if truth_opt base_url_ && is_absolute (default "" base_url_)
  then default "" base_url_
  else if truth_opt base_ref_ && is_absolute (default "" base_ref_)
  then default "" base_ref_
  else if truth_opt parent_url_ && is_absolute (default "" parent_url_)
  then default "" parent_url_
  else "".

Definition userinfo_host (netloc : string) : string * string :=
  (Urllib.before_last "@" netloc, Urllib.after_last "@" netloc).

Definition ports : gmap string (option Z) :=
  list_to_map
    [ ("http", Some 80); ("https", Some 443); ("ftp", Some 21);
      ("telnet", Some 23); ("nntp", Some 119) ].

Definition join (base : option string) (u : string) : Result string :=
  match base with
  | Some b => inr (Urllib.before_last "/" b +:+ "/" +:+ u)
  | None => inr u
  end.

Fixpoint split_slash (s : string) : list string :=
  match s with
  | EmptyString => [EmptyString]
  | String a s' =>
      match split_slash s' with
      | seg :: segs =>
          if Ascii.eqb a "/" then EmptyString :: seg :: segs
          else String a seg :: segs
      | [] => [String a EmptyString]
      end
  end.

Definition collapse_step (done : list string) (seg : string) : list string :=
  if String.eqb seg "." then done
  else if String.eqb seg ".." then
    match done with
    | [] | [_] => done
    | _ => removelast done
    end
  else done ++ [seg].

(** Dot segments of a path removed. *)
Definition collapse (path : string) : string :=
  String.concat "/" (fold_left collapse_step (split_slash path) []).

Definition imports : Imports :=
  {| WARN_URL_EFFECTIVE_URL := "url-effective-url";
     WARN_URL_ERROR_GETTING_CONTENT := "url-error-getting-content";
     WARN_URL_OBFUSCATED_IP := "url-obfuscated-ip";
     WARN_URL_CONTENT_SIZE_ZERO := "url-content-size-zero";
     WARN_URL_CONTENT_SIZE_TOO_LARGE := "url-content-too-large";
     WARN_URL_CONTENT_TYPE_UNPARSEABLE := "url-content-type-unparseable";
     WARN_URL_WHITESPACE := "url-whitespace";
     WARN_URL_TOO_LONG := "url-too-long";
     URL_MAX_LENGTH := 2000;
     ExcList := [Py.IndexError; Py.LinkCheckerError; Py.socket_error;
                 Py.socket_timeout];
     ExcSyntaxList := [Py.LinkCheckerError; Py.ValueError];
     ExcNoCacheList := [Py.socket_timeout];
     strformat_limit := limit;
     strformat_strsize := fun n => str_int n +:+ "B";
     url_is_absolute := is_absolute;
     urlutil_url_norm := norm;
     url_needs_quoting := has_space;
     absolute_url := absolute;
     urlutil_urlunsplit := Urllib.urlunsplit;
     collapse_segments := collapse;
     url_fix_wayback_query := fun p => p;
     split_netloc := userinfo_host;
     default_ports := ports;
     is_obfuscated_ip := fun _ => false;
     resolve_host := fun _ => [];
     trace_on := ret tt;
     run_connection_plugins := ret tt;
     run_content_plugins := ret tt;
     urllib_urljoin := join;
     urllib_urlsplit := fun u => inr (Urllib.urlsplit u);
     split_port := Urllib.port;
     split_hostname := Urllib.hostname;
     urlopen := fun _ => ret [];
     repr := fun s => "'" +:+ s +:+ "'" |}.

Definition config0 : Config :=
  {| externlinks := []; internlinks := []; checkextern := false;
     recursionlevel := -1;
     maxfilesizedownload := 5 * 1024 * 1024;
     maxfilesizeparse := 1 * 1024 * 1024;
     ignorewarnings := []; ignoreerrors := []; enabledplugins := [];
     trace := false |}.

(** A world with a record as [reset] leaves it. *)
Definition world (cfg : Config) : World :=
  {| self := reset_record; config := cfg; log := [];
     downloaded_bytes := 0; clock := fun n => Z.of_nat n; ticks := 0%nat |}.

End Sample.

(** ** Reference definitions

    The statements of the design document, in its words, to be compared
    with the methods above. *)

(** Scope classifier: an entry matches if (pattern found) XOR negate-flag;
    the first match wins. *)
Fixpoint first_applying (u : string) (entries : list LinkPat) : option LinkPat :=
  match entries with
  | [] => None
  | e :: es =>
      if xorb (search (pattern e) u) (negate e) then Some e
      else first_applying u es
  end.

(** Empty URL: extern and strict.  Otherwise the first match of the
    extern list, with its strict flag; else the first match of the intern
    list; else by the check-extern toggle. *)
Definition scope_decision (cfg : Config) (u : option string) : bool * bool :=
  match u with
  | None | Some EmptyString => (true, true)
  | Some u =>
      match first_applying u (externlinks cfg) with
      | Some e => (true, strict e)
      | None =>
          match first_applying u (internlinks cfg) with
          | Some _ => (false, false)
          | None => if checkextern cfg then (true, false) else (true, true)
          end
      end
  end.

(** An ignore rule fires when its URL pattern is found in the URL and its
    message pattern in the result. *)
Definition fires (u : string) (res : string) (rule : Regex * Regex) : bool :=
  search (fst rule) u && search (snd rule) res.

(** What the loop over the ignore rules of [set_result] computes from the
    result and the validity it starts with. *)
Fixpoint ignore_scan (u : string) (rules : list (Regex * Regex))
    (res : string) (v : bool) : string * bool :=
  match rules with
  | [] => (res, v)
  | rule :: rules' =>
      if fires u res rule then ignore_scan u rules' ("Ignored: " +:+ res) true
      else ignore_scan u rules' res v
  end.

(** The result and the validity a call of [set_result] leaves, for the URL
    and the ignore rules of the record. *)
Definition final_result (u : option string) (rules : list (Regex * Regex))
    (msg : string) (v : bool) : string * bool :=
  if v then (msg, true)
  else
    match u with
    | Some u => ignore_scan u rules msg false
    | None => (msg, false)
    end.

Definition store (res : string) (v : bool) (r : UrlBase) : UrlBase :=
  with_result res (with_valid v r).

(** The log records of [set_result]. *)
Definition double_result (msg previous : string) : LogRecord :=
  mkLog WARN "Double result %r (previous %r) for %s" [msg; previous].

Definition empty_result (msg : string) : list LogRecord :=
  if Py.truth_str msg then [] else [mkLog WARN "Empty result for %s" []].

(** No warning of the record carries a tag that the configuration
    ignores. *)
Definition respects_ignore (w : World) : Prop :=
  forall t m, (Some t, m) ∈ warnings (self w) -> t ∉ ignorewarnings (config w).

(** The world as [set_result] leaves it before it turns to the ignore
    rules: the conflict and the empty message logged, the flag, the
    message and the validity stored. *)
Definition stored (msg : string) (v o : bool) (w : World) : World :=
  let conflict := has_result (self w) && negb o in
  with_self (store msg v (with_has_result true (self w)))
    (with_log
       (log w ++ (if conflict then [double_result msg (result (self w))] else [])
          ++ empty_result msg) w).

(** [self.data = None]. *)
Definition freed (w : World) : World := with_self (with_data None (self w)) w.

(** One more turn of the loop of [read_content], after [buf.write(data)]:
    [data = self.read_content_chunk()] and the loop test. *)
Definition next_turn (buf : bytes) : M bytes :=
  data ← read_content_chunk;
  conn ← the_connection;
  read_while conn buf data.

(** The configured [maxfilesizedownload]. *)
Definition cap (w : World) : Z := maxfilesizedownload (config w).

(** The world with the connection advanced to [rest]. *)
Definition unread (rest : Connection) (w : World) : World :=
  with_self (with_url_connection (Some rest) (self w)) w.

(** The world in which [download_content] calls [read_content]: the call
    logged and the clock read. *)
Definition started (w : World) : World :=
  mkWorld (self w) (config w)
    (log w ++ [mkLog DEBUG "Get content of %r" [or_None (url (self w))]])
    (downloaded_bytes w) (clock w) (S (ticks w)).

(** The world with one more debug line. *)
Definition logged (fmt : string) (fmt_args : list string) (w : World) : World :=
  with_log (log w ++ [mkLog DEBUG fmt fmt_args]) w.

(** The world in which [allows_recursion] starts its checks. *)
Definition entered (w : World) : World :=
  logged "checking recursion of %r ..." [or_None (url (self w))] w.

(** Modelled from the spec: the [is_parseable] of the subclasses that
    parse content, which are not among the sources.  The design document
    has "content type is in the recognized parseable set", which is the
    method [is_content_type_parseable] of the base class; the other
    methods are the base's. *)
Definition parsing_variant (I : Imports) : Variant :=
  {| do_check_connection := check_connection I;
     do_set_content_type := set_content_type;
     do_add_size_info := add_size_info I;
     do_can_get_content := can_get_content;
     do_is_parseable := is_content_type_parseable I;
     do_content_allows_robots := content_allows_robots |}.

(** The conditions of the recursion gate as the design document lists
    them, on the record and the configuration. *)
Definition gate_conditions (w : World) : bool :=
  let r := self w in
  let cfg := config w in
  (* (1) the record is valid *)
  valid r
  (* (2) canGetContent() *)
  && (size r <=? maxfilesizedownload cfg)
  (* (3) the recursion-level cap is not reached (cap<0 means unbounded)
         and the record is not extern *)
  && ((recursionlevel cfg <? 0) || (recursion_level r <? recursionlevel cfg))
  && match extern r with Some (false, _) => true | _ => false end
  (* (4) known size <= configured max-parse size *)
  && (size r <=? maxfilesizeparse cfg)
  (* (5) the content type is in the recognized parseable set *)
  && bool_decide (is_Some (ContentMimetypes !! content_type r))
  (* (6) the robots policy permits it: true by default *)
  && true.

(** The world in which [check_syntax] builds the URL: the call logged, an
    absent [base_url] made the empty string. *)
Definition syntax_entered (w : World) : World :=
  let w := logged "checking syntax" [] w in
  if bool_decide (is_Some (base_url (self w))) then w
  else with_self (with_base_url (Some ""%string) (self w)) w.

(** The URL is the serialization of the stored parts, as [build_url]
    leaves the record. *)
Definition built (I : Imports) (w : World) (parts : UrlParts) : Prop :=
  urlparts (self w) = Some parts /\
  url (self w) = Some (urlutil_urlunsplit I parts).

(** [urlunsplit] puts the fragment last, behind a [#], and nothing for an
    empty fragment: what [urllib.parse.urlunsplit] does. *)
Definition fragment_last (I : Imports) : Prop :=
  forall p : UrlParts,
    urlutil_urlunsplit I p =
      urlutil_urlunsplit I (with_fragment "" p) +:+
      (if Py.truth_str (p_fragment p) then "#" +:+ p_fragment p else "").

(** A computation that leaves the shared configuration as it is. *)
Definition keeps_config {A} (c : M A) : Prop :=
  forall w, config (exec c w) = config w.








(** The message of the warning for a URL that is too long. *)
Definition too_long_message (I : Imports) (u : string) : string :=
  "URL length " +:+ str_int (len_str u) +:+ " is longer than " +:+
  str_int (URL_MAX_LENGTH I) +:+ ".".


Definition outside_filter : string :=
  "The URL is outside of the domain filter, checked only syntax.".

(** The message that [handle_exception] formats, and the worlds it
    passes through. *)
Definition fault_message (I : Imports) (exc : Py.Instance) : string :=
  strformat_limit I
    (if Py.truth exc
     then Py.name_of (Py.etype exc) +:+ ": " +:+ Py.str exc
     else Py.name_of (Py.etype exc))
    240.

Definition fault_logged (exc : Py.Instance) (w : World) : World :=
  logged "Error in %s: %s %s"
    [or_None (url (self w)); Py.name_of (Py.etype exc); Py.str exc] w.

Definition uncached (w : World) : World :=
  with_self (with_caching false (self w)) w.

(** ** Closed examples *)

Module Examples.

(** Extern patterns [A; B], intern pattern [C]. *)
Definition pat_A : LinkPat := mkLinkPat (Sample.literal "ftp:") false true.
Definition pat_B : LinkPat := mkLinkPat (Sample.literal "example.org") false false.
Definition pat_C : LinkPat := mkLinkPat (Sample.literal "example") false false.

Definition w_scope : World :=
  Sample.world
    {| externlinks := [pat_A; pat_B]; internlinks := [pat_C];
       checkextern := false; recursionlevel := -1;
       maxfilesizedownload := 1000; maxfilesizeparse := 1000;
       ignorewarnings := []; ignoreerrors := []; enabledplugins := [];
       trace := false |}.

(** Two warning tags that the configuration ignores. *)
Definition w_ignoring : World :=
  Sample.world
    {| externlinks := []; internlinks := []; checkextern := false;
       recursionlevel := -1;
       maxfilesizedownload := 1000; maxfilesizeparse := 1000;
       ignorewarnings := ["url-whitespace"; "url-too-long"];
       ignoreerrors := []; enabledplugins := []; trace := false |}.

(** A record with a URL and two ignore rules that both fire on the
    message [Error 404]. *)
Definition two_rules : list (Regex * Regex) :=
  [ (Sample.literal "example", Sample.literal "404");
    (Sample.literal "http", Sample.literal "Error") ].

Definition w_two_rules : World :=
  with_self
    (with_ignore_errors two_rules
       (with_url (Some "http://example.com/"%string) reset_record))
    (Sample.world Sample.config0).

(** A connection that delivers 3, 3 and 1 bytes, under a cap of 5. *)
Definition three : bytes := [Byte.x61; Byte.x62; Byte.x63].

Definition w_stream : World :=
  with_self
    (with_url_connection (Some [Chunk three; Chunk three; Chunk [Byte.x64]])
       reset_record)
    (Sample.world
       {| externlinks := []; internlinks := []; checkextern := false;
          recursionlevel := -1;
          maxfilesizedownload := 5; maxfilesizeparse := 5;
          ignorewarnings := []; ignoreerrors := []; enabledplugins := [];
          trace := false |}).

(** A valid intern HTML page of 10 bytes at depth 0. *)
Definition w_page : World :=
  with_self
    (with_content_type "text/html"
       (with_size 10 (with_extern (Some (false, false)) reset_record)))
    (Sample.world Sample.config0).

(** The same page with 1001 bytes under [maxfilesizeparse = 1000]. *)
Definition w_large_page : World :=
  with_self
    (with_content_type "text/html"
       (with_size 1001 (with_extern (Some (false, false)) reset_record)))
    (Sample.world
       {| externlinks := []; internlinks := []; checkextern := false;
          recursionlevel := -1;
          maxfilesizedownload := 5000; maxfilesizeparse := 1000;
          ignorewarnings := []; ignoreerrors := []; enabledplugins := [];
          trace := false |}).

(** [LinkCheckerError()], raised without arguments. *)
Definition no_detail : Py.Instance := Py.plain Py.LinkCheckerError [] "".

(** [InterruptedError(4, 'Interrupted system call')], which is the
    [OSError] that a blocking read raises on EINTR. *)
Definition interrupted : Py.Instance :=
  Py.plain Py.InterruptedError
    [Py.VInt Py.EINTR; Py.VStr "Interrupted system call"]
    "[Errno 4] Interrupted system call".

(** A record for a URL with a fragment, as [init] leaves it. *)
Definition w_fragment : World :=
  with_self
    (with_scheme (Some "http"%string)
       (with_base_url (Some "http://example.com/b#frag"%string) reset_record))
    (Sample.world Sample.config0).

Definition w_fragment_built : World :=
  exec (build_url Sample.imports;; check_url_warnings Sample.imports)
    (syntax_entered w_fragment).

End Examples.


(** ** The tests on content type and scheme *)

(** [UrlBase._is_ctype]: true iff content is valid and of the given type. *)
Definition _is_ctype (ctype : string) : M bool :=
  r ← get_self;
  if negb (valid r) then ret false
  else
    let mime := content_type r in
    ret (bool_decide (ContentMimetypes !! mime = Some ctype)).

(** [UrlBase.is_html]. *)
Definition is_html : M bool := _is_ctype "html".

(** [UrlBase.is_css]. *)
Definition is_css : M bool := _is_ctype "css".

(** [UrlBase.is_http]: true for http:// or https:// URLs. *)
Definition is_http : M bool :=
  r ← get_self;
  ret (bool_decide (scheme r ∈ [Some "http"; Some "https"])).

(** [UrlBase.is_file]: true for file:// URLs. *)
Definition is_file : M bool :=
  r ← get_self;
  ret (bool_decide (scheme r = Some "file")).

(** [UrlBase.is_directory]. *)
Definition is_directory : M bool := ret false.

(** [UrlBase.is_local]. *)
Definition is_local : M bool := is_file.

(** The content types that [ContentMimetypes] maps to ["html"]. *)
Definition html_types : list string :=
  ["text/html"; "application/xhtml+xml"; "application/x-httpd-php"].

(** ** Content check and connection close *)

(** The body of the [try] of [check_content]. *)
Definition content_steps (I : Imports) (V : Variant) : M bool :=
  b ← do_can_get_content V;
  when b (run_content_plugins I);;
  b ← allows_recursion V;
  if (b : bool) then ret true else ret false.

(** The message of the warning for content that could not be read. *)
Definition could_not_get_content (value : string) : string :=
  "could not get content: " +:+ value.

(** [UrlBase.check_content], for the variant [V] of [self]. *)
Definition check_content (I : Imports) (V : Variant) : M bool :=
  r ← get_self;
  if do_check_content r && valid r then
    (* check content and recursion *)
    try_except (content_steps I V)
      (fun exc =>
         if caught_by (ExcList I) exc then
           value ← handle_exception I exc;
           add_warning (could_not_get_content value)
             (Some (WARN_URL_ERROR_GETTING_CONTENT I));;
           ret false
         else raise exc)
  else ret false.

(** [UrlBase.close_connection]; [close_] is the [close] method of the
    connection object, which returns or raises. *)
Definition close_connection (close_ : Connection -> Result unit) : M unit :=
  r ← get_self;
  match url_connection r with
  | None =>
      (* no connection is open *)
      ret tt
  | Some conn =>
      try_except (lift (close_ conn))
        (fun e =>
           if Py.issubclass (Py.etype e) Py.Exception
           then ret tt (* ignore close errors *)
           else raise e);;
      modify_self (with_url_connection None)
  end.

(** The world with the connection attribute cleared. *)
Definition closed (w : World) : World :=
  with_self (with_url_connection None (self w)) w.





(** The world that [handle_exception] leaves when it returns. *)
Definition handled (I : Imports) (exc : Py.Instance) (w : World) : World :=
  let w1 := fault_logged exc w in
  if bool_decide (Py.etype exc ∈ ExcNoCacheList I)
     || (bool_decide (Py.etype exc = Py.socket_error)
         && match Py.args exc with
            | a :: _ => Py.eq_int a Py.EBADF
            | [] => false
            end)
     || negb (Py.truth exc)
  then uncached w1 else w1.

(** ** Invariants of the record *)

(** A computation keeps a property of the record, whether it returns or
    raises. *)
Definition preserves (P : UrlBase -> Prop) {A} (c : M A) : Prop :=
  forall w, P (self w) -> P (self (exec c w)).

(** A field update keeps a property of the record. *)
Definition stable (P : UrlBase -> Prop) (f : UrlBase -> UrlBase) : Prop :=
  forall r, P r -> P (f r).

(** The lists of warnings and of infos hold no duplicates. *)
Definition no_duplicates (r : UrlBase) : Prop :=
  NoDup (warnings r) /\ NoDup (info r).

(** Nothing has been fetched: no connection, no content, no size and no
    download time. *)
Definition unfetched (r : UrlBase) : Prop :=
  url_connection r = None /\ data r = None /\ size r = -1 /\ dltime r = -1.

(** ** More closed examples *)

Module Cases.

(** A record with an open connection that delivers three bytes. *)
Definition w_small : World :=
  with_self (with_url_connection (Some [Chunk Examples.three]) reset_record)
    (Sample.world Sample.config0).


End Cases.

(** ** The attributes that the methods above leave alone

    [line], [column], [page] and [name] are stored by [init]; the others
    start as [reset] sets them. *)

(** A soup of [htmlsoup.make_soup] is known by the encoding it detected. *)
Record Soup : Type := mkSoup { original_encoding : option string }.

Record Attrs : Type := mkAttrs {
  line : Z;
  column : Z;
  page : Z;
  name : string;
  title : option string;
  checktime : Z;
  modified : option string;
  content_encoding : option string;
  text : option string;
  soup : option Soup;
  aliases : list string
}.

Definition with_title (v : option string) (a : Attrs) : Attrs :=
  mkAttrs (line a) (column a) (page a) (name a) v (checktime a) (modified a)
    (content_encoding a) (text a) (soup a) (aliases a).

Definition with_content_encoding (v : option string) (a : Attrs) : Attrs :=
  mkAttrs (line a) (column a) (page a) (name a) (title a) (checktime a)
    (modified a) v (text a) (soup a) (aliases a).

Definition with_text (v : option string) (a : Attrs) : Attrs :=
  mkAttrs (line a) (column a) (page a) (name a) (title a) (checktime a)
    (modified a) (content_encoding a) v (soup a) (aliases a).

Definition with_soup (v : option Soup) (a : Attrs) : Attrs :=
  mkAttrs (line a) (column a) (page a) (name a) (title a) (checktime a)
    (modified a) (content_encoding a) (text a) v (aliases a).

(** The object: the attributes above beside the world of the record. *)
Record Object : Type := mkObject {
  attrs : Attrs;
  world : World
}.

(** The monad of the methods that use these attributes. *)
Definition O (A : Type) : Type := Object -> Outcome A * Object.

Definition O_return {A} (a : A) : O A := fun o => (Return a, o).

Definition O_then {A B} (c : O A) (k : A -> O B) : O B :=
  fun o =>
    match c o with
    | (Return a, o') => k a o'
    | (Raise e, o') => (Raise e, o')
    end.

Definition O_raise {A} (e : Py.Instance) : O A := fun o => (Raise e, o).

Definition O_lift {A} (x : Result A) : O A :=
  match x with
  | inl e => O_raise e
  | inr a => O_return a
  end.

#[global] Instance O_ret : MRet O := @O_return.
#[global] Instance O_bind : MBind O := fun A B k c => O_then c k.

(** A method of the record run on the object. *)
Definition on_record {A} (c : M A) : O A :=
  fun o =>
    let '(r, w') := c (world o) in
    (r, mkObject (attrs o) w').

Definition get_attrs : O Attrs := fun o => (Return (attrs o), o).

Definition modify_attrs (f : Attrs -> Attrs) : O unit :=
  fun o => (Return tt, mkObject (f (attrs o)) (world o)).

(** ["/" in s]. *)
Definition has_slash (s : string) : bool :=
  let '(_, found, _) := Urllib.partition "/" s in found.

(** [UrlBase.get_title]: the title of the page the URL refers to, per
    default the filename or the URL. *)
Definition get_title : O (option string) :=
  a ← get_attrs;
  (if bool_decide (title a = None) then
     r ← on_record get_self;
     let url_ :=
       if truth_opt (base_url r) then default "" (base_url r)
       else if truth_opt (url r) then default "" (url r)
       else "" in
     modify_attrs (with_title (Some url_));;
     if has_slash url_ then
       let title_ := Urllib.after_last "/" url_ in   (* url.rsplit("/", 1)[1] *)
       if Py.truth_str title_ then modify_attrs (with_title (Some title_))
       else mret tt
     else mret tt
   else mret tt);;
  a ← get_attrs;
  mret (title a).

(** ** The transport object *)

(** The values of the transport dict. *)
Inductive WireValue : Type :=
| WNone
| WBool (b : bool)
| WInt (z : Z)
| WStr (s : string)
| WWarnings (l : list (option string * string))
| WInfo (l : list string).

Definition of_opt (o : option string) : WireValue :=
  match o with
  | Some s => WStr s
  | None => WNone
  end.

(** [x or ""] for a string or [None]. *)
Definition or_empty (o : option string) : string :=
  if truth_opt o then default "" o else "".

(** [UrlBase.to_wire_dict].  The keyword arguments of [dict] are
    evaluated in their order: [self.extern[0]] before [self.get_title()]. *)
Definition to_wire_dict : O (gmap string WireValue) :=
  r ← on_record get_self;
  a ← get_attrs;
  '(is_extern, _) ← on_record the_extern;
  title_ ← get_title;
  mret
    (list_to_map
       [ ("valid", WBool (valid r));
         ("extern", WBool is_extern);
         ("result", WStr (result r));
         ("warnings", WWarnings (warnings r));
         ("name", WStr (or_empty (Some (name a))));
         ("title", of_opt title_);
         ("parent_url", WStr (or_empty (parent_url r)));
         ("base_ref", WStr (or_empty (base_ref r)));
         ("base_url", WStr (or_empty (base_url r)));
         ("url", WStr (or_empty (url r)));
         ("domain",
          match urlparts r with
          | Some parts => of_opt (p_netloc parts)
          | None => WStr ""
          end);
         ("checktime", WInt (checktime a));
         ("dltime", WInt (dltime r));
         ("size", WInt (size r));
         ("info", WInfo (info r));
         ("line", WInt (line a));
         ("column", WInt (column a));
         ("page", WInt (page a));
         ("cache_url", of_opt (cache_url r));
         ("content_type", WStr (content_type r));
         ("level", WInt (recursion_level r));
         ("modified", of_opt (modified a)) ]).

Definition urlDataAttr : list string :=
  [ "valid"; "extern"; "result"; "warnings"; "name"; "title"; "parent_url";
    "base_ref"; "base_url"; "url"; "domain"; "checktime"; "dltime"; "size";
    "info"; "modified"; "line"; "column"; "page"; "cache_url";
    "content_type"; "level" ].

Definition KeyError : Py.Class := Py.Derived "KeyError" Py.LookupError.

(** [wired_url_data[attr]] for a missing key. *)
Definition key_error (k : string) : Py.Instance :=
  Py.plain KeyError [Py.VStr k] ("'" +:+ k +:+ "'").

(** The loop of [CompactUrlData.__init__] over the attribute names:
    [setattr(self, attr, wired_url_data[attr])]. *)
Fixpoint set_slots (names : list string) (wired slots : gmap string WireValue)
    : Result (gmap string WireValue) :=
  match names with
  | [] => inr slots
  | attr :: names' =>
      match wired !! attr with
      | Some v => set_slots names' wired (<[attr := v]> slots)
      | None => inl (key_error attr)
      end
  end.

(** [CompactUrlData(wired_url_data)]: the object is its slots. *)
Definition CompactUrlData (wired_url_data : gmap string WireValue)
    : Result (gmap string WireValue) :=
  set_slots urlDataAttr wired_url_data ∅.

(** [UrlBase.to_wire]. *)
Definition to_wire : O (gmap string WireValue) :=
  d ← to_wire_dict;
  O_lift (CompactUrlData d).


(** ** Decoded content *)

(** [htmlsoup.make_soup] and [bytes.decode], which return or raise. *)
Record Html : Type := mkHtml {
  make_soup : option bytes -> option string -> Result Soup;
  decode : bytes -> string -> Result string
}.

(** [log.debug] from a method of the object. *)
Definition O_debug (fmt : string) (fmt_args : list string) : O unit :=
  on_record (log_debug fmt fmt_args).

(** [soup.original_encoding or 'ISO-8859-1']. *)
Definition encoding_of (s : Soup) : string :=
  if truth_opt (original_encoding s) then default "" (original_encoding s)
  else "ISO-8859-1".

(** [self.data.decode(enc)]: [None] has no methods. *)
Definition decode_data (H : Html) (d : option bytes) (enc : string) : O string :=
  match d with
  | Some d => O_lift (decode H d enc)
  | None => O_raise (attribute_error "'NoneType' object has no attribute 'decode'")
  end.

(** [UrlBase.get_content]. *)
Definition get_content (H : Html) (I : Imports) (encoding_ : option string)
    : O (option string) :=
  a ← get_attrs;
  (if bool_decide (text a = None) then
     on_record (get_raw_content I);;
     r ← on_record get_self;
     s ← O_lift (make_soup H (data r) encoding_);
     modify_attrs (with_soup (Some s));;
     (* Sometimes soup.original_encoding is None!  ISO-8859-1 is a safe
        fallback in the sense that any binary blob can be decoded. *)
     O_debug "Beautiful Soup detected %s" [or_None (original_encoding s)];;
     modify_attrs (with_content_encoding (Some (encoding_of s)));;
     O_debug "Content encoding %s" [encoding_of s];;
     r ← on_record get_self;
     t ← decode_data H (data r) (encoding_of s);
     modify_attrs (with_text (Some t))
   else mret tt);;
  a ← get_attrs;
  mret (text a).

(** [UrlBase.get_soup]. *)
Definition get_soup (H : Html) (I : Imports) : O (option Soup) :=
  a ← get_attrs;
  (if bool_decide (soup a = None) then
     get_content H I None;; mret tt
   else mret tt);;
  a ← get_attrs;
  mret (soup a).

(** The world with the two debug lines of [get_content]. *)
Definition decoded_log (s : Soup) (w : World) : World :=
  logged "Content encoding %s" [encoding_of s]
    (logged "Beautiful Soup detected %s" [or_None (original_encoding s)] w).

(** Sample decoders: the soup detects no encoding; every byte decodes
    to a question mark. *)
Definition sample_html : Html :=
  {| make_soup := fun _ _ => inr (mkSoup None);
     decode := fun d _ => inr (String.concat "" (map (fun _ => "?"%string) d)) |}.

(** The attributes as [reset] and the defaults of the constructor leave
    them. *)
Definition reset_attrs : Attrs :=
  {| line := -1; column := -1; page := -1; name := "";
     title := None; checktime := 0; modified := None;
     content_encoding := None; text := None; soup := None; aliases := [] |}.

(** * Properties *)

(** ** Running a computation *)

(** Unfolds the monad and the elementary steps, then computes. *)
Ltac run :=
  unfold mbind, M_bind, bind, mret, M_ret, ret, get_self, get_config,
    modify_self, when, log_debug, log_warn, emit; cbn.

#[local] Arguments truth_bytes : simpl never.
#[local] Arguments len : simpl never.
#[local] Arguments Z.gtb : simpl never.

Lemma bind_returns {A B} (c : M A) (k : A -> M B) (w w' : World) (b : B) :
  (c ≫= k) w = (Return b, w') ->
  exists a w1, c w = (Return a, w1) /\ k a w1 = (Return b, w').
Proof.
  unfold mbind, M_bind, bind. destruct (c w) as [[a|e] w1]; [|discriminate].
  intros Hk. now exists a, w1.
Qed.

Lemma store_self (r : UrlBase) : store (result r) (valid r) r = r.
Proof. destruct r; reflexivity. Qed.

Lemma with_self_self (w : World) : with_self (self w) w = w.
Proof. destruct w; reflexivity. Qed.

Lemma unread_unread (rest rest' : Connection) (w : World) :
  unread rest (unread rest' w) = unread rest w.
Proof. reflexivity. Qed.

Lemma with_netloc_self (p : UrlParts) : with_netloc (p_netloc p) p = p.
Proof. destruct p; reflexivity. Qed.

(** ** Diagnostics recorder *)

Lemma add_info_run (s : string) (w : World) :
  add_info s w =
    (Return tt,
     if bool_decide (s ∈ info (self w)) then w
     else with_self (with_info (info (self w) ++ [s]) (self w)) w).
Proof. unfold add_info. run. destruct (bool_decide _); reflexivity. Qed.

Lemma add_warning_run (s : string) (tag : option string) (w : World) :
  add_warning s tag w =
    if bool_decide ((tag, s) ∈ warnings (self w)) then (Return tt, w)
    else if tag_in tag (ignorewarnings (config w)) then add_info s w
    else (Return tt,
          with_self (with_warnings (warnings (self w) ++ [(tag, s)]) (self w)) w).
Proof.
  unfold add_warning. run. destruct (bool_decide _); [reflexivity|].
  destruct (tag_in _ _); reflexivity.
Qed.

(** [add_warning] returns, and touches the warnings and the infos only. *)
Lemma add_warning_frame (s : string) (tag : option string) (w : World) :
  exists ws is_,
    add_warning s tag w =
      (Return tt, with_self (with_warnings ws (with_info is_ (self w))) w) /\
    (forall x, x ∈ ws -> x ∈ warnings (self w) \/ x = (tag, s)) /\
    (forall x, x ∈ is_ -> x ∈ info (self w) \/ x = s).
Proof.
  rewrite add_warning_run.
  assert (w = with_self (with_warnings (warnings (self w))
                           (with_info (info (self w)) (self w))) w) as Hid.
  { destruct w as [r ? ? ? ? ?]; destruct r; reflexivity. }
  destruct (bool_decide _).
  - exists (warnings (self w)), (info (self w)). rewrite <- Hid. auto.
  - destruct (tag_in _ _).
    + rewrite add_info_run. destruct (bool_decide _).
      * exists (warnings (self w)), (info (self w)). rewrite <- Hid. auto.
      * exists (warnings (self w)), (info (self w) ++ [s]).
        split; [destruct w as [r ? ? ? ? ?]; destruct r; reflexivity|].
        split; [auto|]. intros x Hx. apply elem_of_app in Hx as [Hx|Hx]; [auto|].
        apply list_elem_of_singleton in Hx. auto.
    + exists (warnings (self w) ++ [(tag, s)]), (info (self w)).
      split; [destruct w as [r ? ? ? ? ?]; destruct r; reflexivity|].
      split; [|auto]. intros x Hx. apply elem_of_app in Hx as [Hx|Hx]; [auto|].
      apply list_elem_of_singleton in Hx. auto.
Qed.

Lemma info_add_info (s : string) (w : World) :
  info (self (exec (add_info s) w)) =
    if bool_decide (s ∈ info (self w)) then info (self w) else info (self w) ++ [s].
Proof.
  unfold exec. rewrite add_info_run. cbn. destruct (bool_decide _); reflexivity.
Qed.

Lemma warnings_add_info (s : string) (w : World) :
  warnings (self (exec (add_info s) w)) = warnings (self w).
Proof.
  unfold exec. rewrite add_info_run. cbn. destruct (bool_decide _); reflexivity.
Qed.

Lemma config_add_info (s : string) (w : World) :
  config (exec (add_info s) w) = config w.
Proof.
  unfold exec. rewrite add_info_run. cbn. destruct (bool_decide _); reflexivity.
Qed.

Lemma add_info_NoDup (s : string) (w : World) :
  NoDup (info (self w)) -> NoDup (info (self (exec (add_info s) w))).
Proof.
  intros Hnd. rewrite info_add_info. case_bool_decide as Hin; [assumption|].
  apply NoDup_app. split; [assumption|]. split.
  - intros x Hx Hs. apply list_elem_of_singleton in Hs. now subst.
  - apply NoDup_singleton.
Qed.

Lemma add_warning_ignored (s t : string) (w : World) :
  t ∈ ignorewarnings (config w) ->
  (Some t, s) ∉ warnings (self w) ->
  add_warning s (Some t) w = add_info s w.
Proof.
  intros Ht Hn. rewrite add_warning_run.
  rewrite bool_decide_eq_false_2 by assumption.
  cbn. now rewrite bool_decide_eq_true_2.
Qed.

Lemma count_occ_NoDup_in (l : list string) (s : string) :
  NoDup l -> s ∈ l -> count_occ string_dec l s = 1%nat.
Proof.
  intros Hnd Hin. apply NoDup_ListNoDup in Hnd.
  apply list_elem_of_In in Hin.
  pose proof (proj1 (NoDup_count_occ string_dec l) Hnd s) as Hle.
  pose proof (proj1 (count_occ_In string_dec l s) Hin). lia.
Qed.

(** C10.  The info list is deduplicated by the message: [add_info]
    appends a message only when it is not yet in the list, so a list
    without duplicates stays so.  A warning whose tag is in the configured
    ignore-set is not added to the warnings: its message goes to the info
    list and the tag is dropped.  Hence two warnings with different
    ignored tags and the same message leave one info entry and no
    warning. *)
Theorem info_dedup_and_ignored_warnings (w : World) (s : string) :
  (info (self (exec (add_info s) w)) =
     if bool_decide (s ∈ info (self w)) then info (self w)
     else info (self w) ++ [s]) /\
  (NoDup (info (self w)) -> NoDup (info (self (exec (add_info s) w)))) /\
  (forall t,
     t ∈ ignorewarnings (config w) ->
     outcome (add_warning s (Some t)) w = Return tt /\
     warnings (self (exec (add_warning s (Some t)) w)) = warnings (self w) /\
     ((Some t, s) ∉ warnings (self w) ->
      exec (add_warning s (Some t)) w = exec (add_info s) w)) /\
  (forall tag, respects_ignore w -> respects_ignore (exec (add_warning s tag) w)) /\
  (forall t1 t2,
     t1 ∈ ignorewarnings (config w) ->
     t2 ∈ ignorewarnings (config w) ->
     respects_ignore w ->
     NoDup (info (self w)) ->
     let w' := exec (add_warning s (Some t1);; add_warning s (Some t2)) w in
     warnings (self w') = warnings (self w) /\
     info (self w') = info (self (exec (add_info s) w)) /\
     count_occ string_dec (info (self w')) s = 1%nat).
Proof.
  split; [apply info_add_info|].
  split; [apply add_info_NoDup|].
  split.
  { intros t Ht. unfold outcome, exec. rewrite add_warning_run.
    case_bool_decide as Hin; cbn.
    - split; [reflexivity|]. split; [reflexivity|]. intros Hn. contradiction.
    - rewrite bool_decide_eq_true_2 by assumption.
      rewrite add_info_run. cbn.
      split; [reflexivity|]. split; [|reflexivity].
      destruct (bool_decide _); reflexivity. }
  split.
  { intros tag Hr. unfold exec. rewrite add_warning_run.
    case_bool_decide as Hin; cbn; [assumption|].
    destruct (tag_in tag _) eqn:Htag.
    - rewrite add_info_run. cbn. destruct (bool_decide _); cbn; assumption.
    - cbn. intros t m Hm. cbn in Hm |- *.
      apply elem_of_app in Hm as [Hm|Hm]; [exact (Hr t m Hm)|].
      apply list_elem_of_singleton in Hm. injection Hm as <- <-.
      cbn in Htag. now apply bool_decide_eq_false_1 in Htag. }
  intros t1 t2 Ht1 Ht2 Hr Hnd w'.
  assert (forall t, t ∈ ignorewarnings (config w) ->
                    (Some t, s) ∉ warnings (self w)) as Hout.
  { intros t Ht Hin. exact (Hr t s Hin Ht). }
  assert (w' = exec (add_info s) (exec (add_info s) w)) as ->.
  { subst w'. unfold exec at 1. unfold mbind, M_bind, bind.
    rewrite (add_warning_ignored s t1 w Ht1 (Hout t1 Ht1)).
    rewrite add_info_run. cbn [fst snd].
    set (w1 := if bool_decide (s ∈ info (self w)) then w else _).
    assert (w1 = exec (add_info s) w) as ->.
    { unfold exec. now rewrite add_info_run. }
    rewrite add_warning_ignored; [reflexivity| |].
    - now rewrite config_add_info.
    - rewrite warnings_add_info. now apply Hout. }
  rewrite !warnings_add_info. split; [reflexivity|].
  assert (s ∈ info (self (exec (add_info s) w))) as Hin.
  { rewrite info_add_info. case_bool_decide; [assumption|].
    apply elem_of_app. right. now apply list_elem_of_singleton. }
  split.
  - rewrite (info_add_info s (exec (add_info s) w)).
    now rewrite bool_decide_eq_true_2.
  - apply count_occ_NoDup_in.
    + now do 2 apply add_info_NoDup.
    + rewrite (info_add_info s (exec (add_info s) w)).
      now rewrite bool_decide_eq_true_2.
Qed.

(** The same message under the tags [url-whitespace] and [url-too-long],
    both ignored: the record ends with the one info entry and an empty
    list of warnings. *)
Lemma info_dedup_and_ignored_warnings_witness :
  let w' :=
    exec (add_warning "same message" (Some "url-whitespace"%string);;
          add_warning "same message" (Some "url-too-long"%string))
      Examples.w_ignoring in
  warnings (self w') = [] /\
  info (self w') = ["same message"%string] /\
  count_occ string_dec (info (self w')) "same message" = 1%nat.
Proof.
  apply (proj2 (proj2 (proj2 (proj2
           (info_dedup_and_ignored_warnings Examples.w_ignoring "same message"))))).
  - vm_compute. apply list_elem_of_here.
  - vm_compute. apply list_elem_of_further, list_elem_of_here.
  - intros t m Hm. vm_compute in Hm. now apply elem_of_nil in Hm.
  - vm_compute. apply NoDup_nil_2.
Defined.

(** *** [set_result] *)

Lemma ignore_rule_Some (rule : Regex * Regex) (w : World) (u : string) :
  url (self w) = Some u ->
  ignore_rule rule w =
    (Return tt,
     if fires u (result (self w)) rule
     then with_self (store ("Ignored: " +:+ result (self w)) true (self w)) w
     else w).
Proof.
  intros Hu. destruct rule as [ur mr]. unfold ignore_rule, fires, re_search. run.
  rewrite Hu. cbn. destruct (search ur u); cbn; [|reflexivity].
  destruct (search mr _); cbn; [|reflexivity].
  destruct w as [r ? ? ? ? ?]; destruct r; reflexivity.
Qed.

(** The loop over the ignore rules computes [ignore_scan]. *)
Lemma for_each_ignore_rule_Some (rules : list (Regex * Regex)) (w : World)
    (u : string) :
  url (self w) = Some u ->
  for_each rules ignore_rule w =
    (Return tt,
     with_self
       (store (fst (ignore_scan u rules (result (self w)) (valid (self w))))
              (snd (ignore_scan u rules (result (self w)) (valid (self w))))
              (self w)) w).
Proof.
  revert w. induction rules as [|rule rules IH]; intros w Hu.
  - cbn. unfold ret. now rewrite store_self, with_self_self.
  - cbn [for_each]. unfold mbind, M_bind, bind.
    rewrite (ignore_rule_Some _ _ _ Hu). cbn [ignore_scan].
    destruct (fires u (result (self w)) rule).
    + rewrite IH by (destruct w as [r ? ? ? ? ?]; destruct r; exact Hu).
      reflexivity.
    + now rewrite IH.
Qed.

(** Without a URL the first rule raises: [search] is given [None]. *)
Lemma for_each_ignore_rule_None (rule : Regex * Regex)
    (rules : list (Regex * Regex)) (w : World) :
  url (self w) = None ->
  for_each (rule :: rules) ignore_rule w =
    (Raise (type_error "expected string or bytes-like object"), w).
Proof.
  intros Hu. destruct rule as [ur mr]. cbn [for_each].
  unfold ignore_rule, re_search. run. rewrite Hu. reflexivity.
Qed.

Lemma set_result_run (msg : string) (v o : bool) (w : World) :
  set_result msg v o w =
    if v then (Return tt, freed (stored msg v o w))
    else
      match for_each (ignore_errors (self w)) ignore_rule (stored msg v o w) with
      | (Return _, w') => (Return tt, freed w')
      | (Raise e, w') => (Raise e, w')
      end.
Proof.
  unfold set_result, stored, freed, empty_result, double_result, store. run.
  destruct w as [r c l d k t]. cbn.
  destruct (has_result r) eqn:Hh, o, (Py.truth_str msg), v; cbn;
    rewrite ?app_nil_r, <- ?app_assoc; cbn;
    try reflexivity;
    try (destruct r; cbn in *; subst; reflexivity).
Qed.

Lemma ignore_scan_prefixes (u : string) (rules : list (Regex * Regex))
    (res : string) (v : bool) :
  exists k : nat,
    fst (ignore_scan u rules res v) = Nat.iter k (String.append "Ignored: ") res /\
    snd (ignore_scan u rules res v) = (v || negb (Nat.eqb k 0)).
Proof.
  revert res v. induction rules as [|rule rules IH]; intros res v; cbn.
  - exists 0%nat. cbn. now rewrite orb_false_r.
  - destruct (fires u res rule).
    + destruct (IH ("Ignored: " +:+ res) true) as (k & Hk1 & Hk2).
      exists (S k). split.
      * rewrite Hk1. symmetry. apply Nat.iter_succ_r.
      * rewrite Hk2. cbn. now rewrite orb_true_r.
    + apply IH.
Qed.

(** What a call of [set_result] leaves, whether it returns or the ignore
    rules raise on a record without URL. *)
Lemma set_result_leaves (msg : string) (v o : bool) (w : World) :
  let w' := exec (set_result msg v o) w in
  has_result (self w') = true /\
  log w' =
    log w ++ (if has_result (self w) && negb o
              then [double_result msg (result (self w))] else [])
          ++ empty_result msg /\
  (result (self w'), valid (self w')) =
    final_result (url (self w)) (ignore_errors (self w)) msg v /\
  url (self w') = url (self w) /\
  ignore_errors (self w') = ignore_errors (self w) /\
  config w' = config w.
Proof.
  unfold exec. rewrite set_result_run. unfold final_result.
  destruct v; [cbn; repeat split; reflexivity|].
  destruct (url (self w)) as [u|] eqn:Hu.
  - rewrite (for_each_ignore_rule_Some _ _ u) by (cbn; exact Hu).
    cbn. rewrite <- surjective_pairing. repeat split; reflexivity || assumption.
  - destruct (ignore_errors (self w)) as [|rule rules] eqn:Hr.
    + cbn. rewrite Hu. repeat split; reflexivity || assumption.
    + rewrite for_each_ignore_rule_None by (cbn; exact Hu).
      cbn. rewrite Hu, Hr. repeat split; reflexivity.
Qed.

(** C3.  The first call of [set_result] sets [has_result].  A second call
    with [overwrite=False] logs the conflict ("Double result", with the
    new and the previous message) and keeps [has_result]; with
    [overwrite=True] no conflict is logged.  Either way the message and
    the validity of the second call are stored, not those of the first:
    what the record holds afterwards is computed from the second call's
    arguments alone (the ignore rules applied to them), and it is exactly
    the new message and validity when the new validity is true or the
    record has no ignore rule. *)
Theorem set_result_twice (w : World) (msg1 msg2 : string) (v1 v2 o1 : bool) :
  let w1 := exec (set_result msg1 v1 o1) w in
  let w2 := exec (set_result msg2 v2 false) w1 in
  let w2' := exec (set_result msg2 v2 true) w1 in
  has_result (self w1) = true /\
  has_result (self w2) = true /\
  log w2 = log w1 ++ double_result msg2 (result (self w1)) :: empty_result msg2 /\
  log w2' = log w1 ++ empty_result msg2 /\
  (result (self w2), valid (self w2)) =
    final_result (url (self w)) (ignore_errors (self w)) msg2 v2 /\
  (result (self w2'), valid (self w2')) =
    final_result (url (self w)) (ignore_errors (self w)) msg2 v2 /\
  (exists k : nat,
     result (self w2) = Nat.iter k (String.append "Ignored: ") msg2) /\
  (v2 = true \/ ignore_errors (self w) = [] ->
   result (self w2) = msg2 /\ valid (self w2) = v2).
Proof.
  intros w1 w2 w2'.
  destruct (set_result_leaves msg1 v1 o1 w) as (Hh1 & _ & _ & Hu1 & Hi1 & _).
  destruct (set_result_leaves msg2 v2 false w1) as (Hh2 & Hl2 & Hr2 & _).
  destruct (set_result_leaves msg2 v2 true w1) as (_ & Hl3 & Hr3 & _).
  fold w1 in Hh1, Hu1, Hi1, Hh2, Hl2, Hr2, Hl3, Hr3.
  fold w2 in Hh2, Hl2, Hr2. fold w2' in Hl3, Hr3.
  rewrite Hh1 in Hl2, Hl3. cbn in Hl2, Hl3.
  rewrite Hu1, Hi1 in Hr2, Hr3.
  assert (result (self w2) =
          fst (final_result (url (self w)) (ignore_errors (self w)) msg2 v2)) as Hres.
  { now rewrite <- Hr2. }
  assert (valid (self w2) =
          snd (final_result (url (self w)) (ignore_errors (self w)) msg2 v2)) as Hval.
  { now rewrite <- Hr2. }
  split; [exact Hh1|]. split; [exact Hh2|]. split; [exact Hl2|].
  split; [exact Hl3|]. split; [exact Hr2|]. split; [exact Hr3|]. split.
  - rewrite Hres. unfold final_result.
    destruct v2; [now exists 0%nat|].
    destruct (url (self w)) as [u|]; [|now exists 0%nat].
    destruct (ignore_scan_prefixes u (ignore_errors (self w)) msg2 false)
      as (k & Hk & _).
    now exists k.
  - intros Hplain. rewrite Hres, Hval. unfold final_result.
    destruct Hplain as [-> | ->]; [split; reflexivity|].
    destruct v2; [split; reflexivity|].
    destruct (url (self w)); split; reflexivity.
Qed.

(** On a fresh record: [first], valid, then [second], invalid, without
    overwrite.  The record ends with [second], invalid, and the log with
    the conflict. *)
Lemma set_result_twice_witness :
  let w1 := exec (set_result "first" true false) (Sample.world Sample.config0) in
  let w2 := exec (set_result "second" false false) w1 in
  result (self w2) = "second"%string /\ valid (self w2) = false.
Proof.
  apply (proj2 (proj2 (proj2 (proj2 (proj2 (proj2 (proj2
           (set_result_twice (Sample.world Sample.config0)
              "first" "second" true false false)))))))).
  right. reflexivity.
Defined.

(** C4.  The loop over the ignore rules has no [break]: every rule that
    fires adds the prefix, so with two rules that fire the message is
    prefixed twice.  Here the record has the URL [http://example.com/]
    and the rules ([example], [404]) and ([http], [Error]); the result
    [Error 404] is stored as invalid. *)
Theorem set_result_prefixes_per_rule :
  let w' := exec (set_result "Error 404" false false) Examples.w_two_rules in
  fires "http://example.com/" "Error 404" (Sample.literal "example", Sample.literal "404") = true /\
  result (self w') = "Ignored: Ignored: Error 404"%string /\
  valid (self w') = true.
Proof. vm_compute. repeat split; reflexivity. Qed.

(** ** Scope classifier *)

Lemma entry_applies_xor (u : string) (e : LinkPat) :
  entry_applies u e = xorb (search (pattern e) u) (negate e).
Proof. unfold entry_applies. destruct (search _ _), (negate e); reflexivity. Qed.

Lemma find_first_applying (u : string) (es : list LinkPat) :
  find (entry_applies u) es = first_applying u es.
Proof.
  induction es as [|e es IH]; simpl; [reflexivity|].
  rewrite entry_applies_xor. destruct (xorb _ _); auto.
Qed.

(** C1.  On a record whose scope is not yet decided, [set_extern]
    returns and leaves the decision of the design document: an empty URL
    is (extern, strict); otherwise the extern list is scanned in order,
    an entry matching iff (pattern found) XOR negate, and the first match
    gives (extern, its strict flag); failing that the intern list is
    scanned the same way and a match gives (intern, not strict); failing
    both the check-extern toggle gives (extern, not strict) when on and
    (extern, strict) when off.  In particular with the extern list [A; B]
    and the intern list [C], a URL matched by [B] and [C] and not by [A]
    is extern with the strict flag of [B]. *)
Theorem set_extern_classifies (w : World) (u : option string)
    (Hfresh : extern (self w) = None) :
  let w' := exec (set_extern u) w in
  outcome (set_extern u) w = Return tt /\
  extern (self w') = Some (scope_decision (config w) u) /\
  (u = None \/ u = Some ""%string -> extern (self w') = Some (true, true)) /\
  (forall (s : string) (A B C : LinkPat),
     u = Some s -> s <> ""%string ->
     externlinks (config w) = [A; B] ->
     internlinks (config w) = [C] ->
     xorb (search (pattern A) s) (negate A) = false ->
     xorb (search (pattern B) s) (negate B) = true ->
     xorb (search (pattern C) s) (negate C) = true ->
     extern (self w') = Some (true, strict B)).
Proof.
  intros w'.
  assert (outcome (set_extern u) w = Return tt /\
          extern (self w') = Some (scope_decision (config w) u)) as [Hout Hdec].
  { subst w'. unfold outcome, exec, set_extern. run. rewrite Hfresh.
    destruct u as [[|c s]|]; cbn; auto.
    rewrite !find_first_applying.
    destruct (first_applying _ (externlinks _)); cbn; auto.
    destruct (first_applying _ (internlinks _)); cbn; auto.
    destruct (checkextern _); cbn; auto. }
  split; [exact Hout|]. split; [exact Hdec|]. split.
  - intros [-> | ->]; exact Hdec.
  - intros s A B C -> Hs HE HI HA HB HC. rewrite Hdec.
    destruct s as [|c s]; [congruence|].
    cbn. rewrite HE. cbn. rewrite HA, HB. reflexivity.
Qed.

(** [http://example.org/a] under the extern patterns [ftp:] (strict) and
    [example.org] (not strict) and the intern pattern [example]: extern,
    not strict. *)
Lemma set_extern_classifies_witness :
  extern (self (exec (set_extern (Some "http://example.org/a"%string))
                  Examples.w_scope))
  = Some (true, strict Examples.pat_B).
Proof.
  apply (proj2 (proj2 (proj2
           (set_extern_classifies Examples.w_scope
              (Some "http://example.org/a"%string) eq_refl)))
           "http://example.org/a"%string Examples.pat_A Examples.pat_B Examples.pat_C);
    try reflexivity.
  discriminate.
Defined.

(** ** Connection and content manager *)

Lemma read_content_next_turn : read_content = next_turn [].
Proof. reflexivity. Qed.

(** The loop of [read_content] in the words of the source: while [data]
    is true, check the size, write the chunk, read the next one. *)
Lemma read_while_step (conn : Connection) (buf data : bytes) (w : World) :
  url_connection (self w) = Some conn ->
  read_while conn buf data w =
    (if truth_bytes data then
       cfg ← get_config;
       if len buf + len data >? maxfilesizedownload cfg
       then raise file_size_too_large
       else next_turn (buf ++ data)
     else ret buf) w.
Proof.
  intros Hc. destruct conn as [|[d|e] rest]; cbn [read_while];
    destruct (truth_bytes data); try reflexivity;
    unfold next_turn, read_content_chunk, connection_read, the_connection; run;
    destruct (_ >? _); try reflexivity; repeat (rewrite Hc; cbn); reflexivity.
Qed.

Lemma len_app {A} (l1 l2 : list A) : len (l1 ++ l2) = len l1 + len l2.
Proof. unfold len. rewrite length_app. lia. Qed.

Lemma len_nonneg {A} (l : list A) : 0 <= len l.
Proof. unfold len. lia. Qed.

Lemma truth_bytes_true (d : bytes) : d <> [] -> truth_bytes d = true.
Proof. destruct d; [congruence|reflexivity]. Qed.

Lemma read_while_overflow (pre : list bytes) (c : bytes) (rest : Connection)
    (buf data : bytes) (w : World) :
  Forall (fun d => d <> []) pre -> data <> [] -> c <> [] ->
  len buf + len data + len (concat pre) <= cap w ->
  cap w < len buf + len data + len (concat pre) + len c ->
  read_while (map Chunk pre ++ Chunk c :: rest) buf data w =
    (Raise file_size_too_large, unread rest w).
Proof.
  revert buf data w.
  induction pre as [|p pre IH]; intros buf data w Hpre Hd Hc Hle Hgt.
  - cbn [concat] in Hle, Hgt. change (len (A:=Byte.byte) []) with 0 in Hle, Hgt.
    cbn [map app read_while]. rewrite (truth_bytes_true data Hd). run. fold (cap w).
    destruct (Z.gtb_spec (len buf + len data) (cap w)) as [?|_]; [lia|].
    destruct rest as [|ev rest]; cbn; rewrite (truth_bytes_true c Hc); run;
      fold (cap w); rewrite len_app;
      (destruct (Z.gtb_spec (len buf + len data + len c) (cap w)) as [_|?]; [|lia]);
      reflexivity.
  - cbn [map app read_while]. rewrite (truth_bytes_true data Hd). run. fold (cap w).
    cbn [concat] in Hle, Hgt. rewrite len_app in Hle, Hgt.
    pose proof (len_nonneg (concat pre)). pose proof (len_nonneg p).
    destruct (Z.gtb_spec (len buf + len data) (cap w)) as [?|_]; [lia|].
    inversion Hpre as [|? ? Hp Hpre']; subst.
    change (with_self
              (with_url_connection (Some (map Chunk pre ++ Chunk c :: rest)) (self w)) w)
      with (unread (map Chunk pre ++ Chunk c :: rest) w).
    rewrite IH; try assumption.
    + now rewrite unread_unread.
    + rewrite len_app. change (cap (unread _ w)) with (cap w). lia.
    + rewrite len_app. change (cap (unread _ w)) with (cap w). lia.
Qed.

(** The read that would take the buffer over the cap raises at once:
    what the connection has after that chunk is not read. *)
Lemma read_content_overflow (pre : list bytes) (c : bytes) (rest : Connection)
    (w : World) :
  url_connection (self w) = Some (map Chunk pre ++ Chunk c :: rest) ->
  Forall (fun d => d <> []) pre -> c <> [] ->
  len (concat pre) <= cap w ->
  cap w < len (concat pre) + len c ->
  read_content w = (Raise file_size_too_large, unread rest w).
Proof.
  intros Hconn Hpre Hc Hle Hgt.
  unfold read_content, read_content_chunk, connection_read, the_connection. run.
  rewrite Hconn.
  destruct pre as [|p pre]; cbn [map app concat] in *.
  - change (len (A:=Byte.byte) []) with 0 in Hle, Hgt.
    destruct rest as [|ev rest]; cbn; rewrite (truth_bytes_true c Hc); run;
      fold (cap w); change (len (A:=Byte.byte) []) with 0;
      (destruct (Z.gtb_spec (0 + len c) (cap w)) as [_|?]; [|lia]);
      reflexivity.
  - inversion Hpre as [|? ? Hp Hpre']; subst. cbn.
    change (with_self
              (with_url_connection (Some (map Chunk pre ++ Chunk c :: rest)) (self w)) w)
      with (unread (map Chunk pre ++ Chunk c :: rest) w).
    rewrite len_app in Hle, Hgt.
    rewrite (read_while_overflow pre c rest [] p); try assumption.
    all: try (change (cap (unread _ w)) with (cap w);
              change (len (A:=Byte.byte) []) with 0; lia).
    now rewrite unread_unread.
Qed.

Lemma read_while_bound (conn : Connection) (buf data content : bytes)
    (w w' : World) :
  read_while conn buf data w = (Return content, w') ->
  (content = buf \/ len content <= cap w) /\ config w' = config w.
Proof.
  revert buf data w. induction conn as [|ev conn IH]; intros buf data w Hrun.
  - cbn in Hrun. destruct (truth_bytes data).
    + revert Hrun. run. fold (cap w).
      destruct (Z.gtb_spec (len buf + len data) (cap w)) as [?|Hle]; cbn;
        [discriminate|].
      intros [= <- <-]. split; [right; now rewrite len_app|reflexivity].
    + injection Hrun as <- <-. split; [now left|reflexivity].
  - cbn [read_while] in Hrun. destruct (truth_bytes data).
    + revert Hrun. run. fold (cap w).
      destruct (Z.gtb_spec (len buf + len data) (cap w)) as [?|Hle]; cbn;
        [discriminate|].
      destruct ev as [d|e]; cbn; [|discriminate].
      intros Hrun. apply IH in Hrun as [[-> | Hb] Hc].
      * split; [right; now rewrite len_app|exact Hc].
      * split; [right; exact Hb|exact Hc].
    + injection Hrun as <- <-. split; [now left|reflexivity].
Qed.

Lemma read_content_bound (content : bytes) (w w' : World) :
  read_content w = (Return content, w') ->
  (content = [] \/ len content <= cap w) /\ config w' = config w.
Proof.
  unfold read_content, read_content_chunk, connection_read, the_connection. run.
  destruct (url_connection (self w)) as [[|[d|e] rest]|] eqn:Hconn; cbn;
    rewrite ?Hconn; cbn; try discriminate.
  - intros Hrun. apply (read_while_bound [] [] []) in Hrun as [Hb Hc].
    split; assumption.
  - intros Hrun. apply (read_while_bound rest [] d) in Hrun as [Hb Hc].
    split; assumption.
Qed.

Section Download.

Variable I : Imports.

Lemma download_content_raises (w w' : World) (e : Py.Instance) :
  read_content (started w) = (Raise e, w') ->
  download_content I w = (Raise e, w').
Proof.
  intros Hr. unfold download_content, time_time. run.
  change (read_content _) with (read_content (started w)). now rewrite Hr.
Qed.

Lemma download_content_returns (w w' : World) (content : bytes) :
  download_content I w = (Return content, w') ->
  exists w1, read_content (started w) = (Return content, w1) /\
             size (self w') = len content.
Proof.
  unfold download_content, time_time. run.
  change (read_content _) with (read_content (started w)).
  destruct (read_content (started w)) as [[c|e] w1]; cbn; [|discriminate].
  destruct (len c =? 0).
  - match goal with |- context [add_warning ?s ?t ?w0] =>
      destruct (add_warning_frame s t w0) as (ws & is_ & -> & _) end.
    cbn. intros [= <- <-]. exists w1. split; reflexivity.
  - unfold add_downloaded_bytes. cbn. intros [= <- <-]. exists w1.
    split; reflexivity.
Qed.

(** C2.  Let the connection deliver the non-empty chunks [pre], whose
    sizes add up to at most [maxfilesizedownload], and then a chunk [c]
    that would take the buffer over it.  Then [read_content] raises the
    "File size too large" fault on [c]: the reads after [c] are not made,
    nothing is returned and the record keeps nothing of what was read
    (it is as before but for the position of the connection);
    [download_content] raises the same fault and records no size.  And
    when [read_content] returns, the content has at most
    [maxfilesizedownload] bytes (the cap being a size, not negative), and
    that length is the size [download_content] records. *)
Theorem download_size_limit (w : World) :
  (forall (pre : list bytes) (c : bytes) (rest : Connection),
     url_connection (self w) = Some (map Chunk pre ++ Chunk c :: rest) ->
     Forall (fun d => d <> []) pre -> c <> [] ->
     len (concat pre) <= cap w ->
     cap w < len (concat pre) + len c ->
     read_content w = (Raise file_size_too_large, unread rest w) /\
     download_content I w = (Raise file_size_too_large, unread rest (started w))) /\
  (forall (content : bytes) (w' : World),
     0 <= cap w ->
     read_content w = (Return content, w') ->
     len content <= cap w) /\
  (forall (content : bytes) (w' : World),
     0 <= cap w ->
     download_content I w = (Return content, w') ->
     size (self w') = len content /\ size (self w') <= cap w).
Proof.
  split; [|split].
  - intros pre c rest Hconn Hpre Hc Hle Hgt. split.
    + now apply (read_content_overflow pre c rest w).
    + apply download_content_raises.
      now apply (read_content_overflow pre c rest (started w)).
  - intros content w' Hcap Hrun.
    apply read_content_bound in Hrun as [[-> | Hb] _]; [exact Hcap|exact Hb].
  - intros content w' Hcap Hrun.
    apply download_content_returns in Hrun as (w1 & Hread & Hsize).
    split; [exact Hsize|]. rewrite Hsize.
    apply read_content_bound in Hread as [[-> | Hb] _]; [exact Hcap|exact Hb].
Qed.

End Download.

(** Chunks of 3, 3 and 1 bytes under a cap of 5: the second read raises
    and the third chunk stays unread. *)
Lemma download_size_limit_witness :
  read_content Examples.w_stream =
    (Raise file_size_too_large, unread [Chunk [Byte.x64]] Examples.w_stream) /\
  download_content Sample.imports Examples.w_stream =
    (Raise file_size_too_large,
     unread [Chunk [Byte.x64]] (started Examples.w_stream)).
Proof.
  apply (proj1 (download_size_limit Sample.imports Examples.w_stream)
           [Examples.three] Examples.three [Chunk [Byte.x64]]).
  - reflexivity.
  - repeat constructor; discriminate.
  - discriminate.
  - vm_compute. discriminate.
  - vm_compute. reflexivity.
Defined.

(** ** Recursion gate *)

Section Gate.

Variable I : Imports.

Lemma allows_simple_recursion_run (w : World) :
  allows_simple_recursion w =
    if (recursionlevel (config w) >=? 0)
       && (recursion_level (self w) >=? recursionlevel (config w))
    then (Return false, logged "... no, maximum recursion level reached." [] w)
    else
      match extern (self w) with
      | None => (Raise (type_error "'NoneType' object is not subscriptable"), w)
      | Some (true, _) => (Return false, logged "... no, extern." [] w)
      | Some (false, _) => (Return true, w)
      end.
Proof.
  unfold allows_simple_recursion, the_extern. run.
  destruct (_ && _); [reflexivity|].
  destruct (extern (self w)) as [[[] ?]|]; reflexivity.
Qed.

Lemma allows_recursion_run (V : Variant) (w : World) :
  allows_recursion V w =
    if negb (valid (self w))
    then (Return false, logged "... no, invalid." [] (entered w))
    else
      match do_can_get_content V (entered w) with
      | (Raise e, w1) => (Raise e, w1)
      | (Return false, w1) =>
          (Return false, logged "... no, cannot get content." [] w1)
      | (Return true, w1) =>
          match allows_simple_recursion w1 with
          | (Raise e, w2) => (Raise e, w2)
          | (Return false, w2) => (Return false, w2)
          | (Return true, w2) =>
              if size (self w2) >? maxfilesizeparse (config w2)
              then (Return false, logged "... no, maximum parse size." [] w2)
              else
                match do_is_parseable V w2 with
                | (Raise e, w3) => (Raise e, w3)
                | (Return false, w3) =>
                    (Return false, logged "... no, not parseable." [] w3)
                | (Return true, w3) =>
                    match do_content_allows_robots V w3 with
                    | (Raise e, w4) => (Raise e, w4)
                    | (Return false, w4) =>
                        (Return false, logged "... no, robots." [] w4)
                    | (Return true, w4) =>
                        (Return true, logged "... yes, recursion." [] w4)
                    end
                end
          end
      end.
Proof.
  unfold allows_recursion. run.
  destruct (valid (self w)); cbn; [|reflexivity].
  change (with_log _ w) with (entered w).
  destruct (do_can_get_content V (entered w)) as [[[]|e] w1]; cbn; try reflexivity.
  destruct (allows_simple_recursion w1) as [[[]|e] w2]; cbn; try reflexivity.
  destruct (_ >? _); cbn; [reflexivity|].
  destruct (do_is_parseable V w2) as [[[]|e] w3]; cbn; try reflexivity.
  destruct (do_content_allows_robots V w3) as [[[]|e] w4]; cbn; reflexivity.
Qed.

Lemma allows_simple_recursion_true (w w' : World) :
  allows_simple_recursion w = (Return true, w') <->
  w' = w /\
  (recursionlevel (config w) < 0 \/
   recursion_level (self w) < recursionlevel (config w)) /\
  exists s, extern (self w) = Some (false, s).
Proof.
  rewrite allows_simple_recursion_run.
  destruct (Z.geb_spec (recursionlevel (config w)) 0) as [H0|H0];
    destruct (Z.geb_spec (recursion_level (self w)) (recursionlevel (config w))) as [H1|H1];
    cbn; (destruct (extern (self w)) as [[[] s]|]);
    split; try (intros [= <-]); try discriminate;
    try (intros (-> & [?|?] & (s' & [= E])); try lia; subst; try discriminate; reflexivity);
    try (split; [reflexivity|split; [lia|now exists s]]);
    try (intros (_ & [?|?] & _); lia).
Qed.

Lemma allows_recursion_true_iff (V : Variant) (w : World) :
  outcome (allows_recursion V) w = Return true <->
  valid (self w) = true /\
  exists w1 w3 w4,
    do_can_get_content V (entered w) = (Return true, w1) /\
    (recursionlevel (config w1) < 0 \/
     recursion_level (self w1) < recursionlevel (config w1)) /\
    (exists s, extern (self w1) = Some (false, s)) /\
    size (self w1) <= maxfilesizeparse (config w1) /\
    do_is_parseable V w1 = (Return true, w3) /\
    do_content_allows_robots V w3 = (Return true, w4).
Proof.
  unfold outcome. rewrite allows_recursion_run. split.
  - destruct (valid (self w)); cbn; [|discriminate]. intros Hrun.
    split; [reflexivity|].
    destruct (do_can_get_content V (entered w)) as [[[]|e] w1] eqn:H2; cbn in Hrun; try discriminate.
    destruct (allows_simple_recursion w1) as [[[]|e] w2] eqn:Hs; cbn in Hrun; try discriminate.
    apply allows_simple_recursion_true in Hs as (-> & Hcap & Hext).
    destruct (Z.gtb_spec (size (self w1)) (maxfilesizeparse (config w1))) as [?|Hsz];
      cbn in Hrun; [discriminate|].
    destruct (do_is_parseable V w1) as [[[]|e] w3] eqn:H5; cbn in Hrun; try discriminate.
    destruct (do_content_allows_robots V w3) as [[[]|e] w4] eqn:H6; cbn in Hrun; try discriminate.
    exists w1, w3, w4. repeat split; assumption || reflexivity.
  - intros (Hv & w1 & w3 & w4 & H2 & Hcap & Hext & Hsz & H5 & H6).
    rewrite Hv, H2. cbn.
    rewrite (proj2 (allows_simple_recursion_true w1 w1)) by (repeat split; assumption).
    destruct (Z.gtb_spec (size (self w1)) (maxfilesizeparse (config w1))) as [?|_]; [lia|].
    now rewrite H5, H6.
Qed.


Lemma can_get_content_run (w : World) :
  can_get_content w = (Return (size (self w) <=? maxfilesizedownload (config w)), w).
Proof. reflexivity. Qed.

Lemma is_content_type_parseable_true (w w' : World) :
  is_content_type_parseable I w = (Return true, w') <->
  w' = w /\ is_Some (ContentMimetypes !! content_type (self w)).
Proof.
  unfold is_content_type_parseable. run. case_bool_decide as Hin.
  - split; [intros [= <-]; now split|intros [-> _]; reflexivity].
  - split; [|intros [_ ?]; contradiction].
    destruct (recursion_level (self w) =? 0); cbn; [|discriminate].
    match goal with |- context [add_warning ?s ?t ?w0] =>
      destruct (add_warning s t w0) as [[[]|e] w1] end; discriminate.
Qed.

Lemma gate_conditions_spec (w : World) :
  gate_conditions w = true <->
  valid (self w) = true /\
  size (self w) <= maxfilesizedownload (config w) /\
  (recursionlevel (config w) < 0 \/
   recursion_level (self w) < recursionlevel (config w)) /\
  (exists s, extern (self w) = Some (false, s)) /\
  size (self w) <= maxfilesizeparse (config w) /\
  is_Some (ContentMimetypes !! content_type (self w)).
Proof.
  unfold gate_conditions.
  rewrite !andb_true_iff, orb_true_iff, !Z.leb_le, !Z.ltb_lt, bool_decide_eq_true.
  split.
  - intros ((((((Hv & Hd) & Hc) & He) & Hp) & Ht) & _).
    repeat split; try assumption.
    destruct (extern (self w)) as [[[] s]|]; try discriminate. now exists s.
  - intros (Hv & Hd & Hc & (s & He) & Hp & Ht). rewrite He.
    repeat split; assumption.
Qed.

Lemma parsing_variant_true_iff (w : World) :
  outcome (allows_recursion (parsing_variant I)) w = Return true <->
  gate_conditions w = true.
Proof.
  rewrite allows_recursion_true_iff, gate_conditions_spec. cbn [parsing_variant
    do_can_get_content do_is_parseable do_content_allows_robots]. split.
  - intros (Hv & w1 & w3 & w4 & H2 & Hcap & Hext & Hsz & H5 & H6).
    rewrite can_get_content_run in H2. injection H2 as H2 <-.
    apply is_content_type_parseable_true in H5 as [-> H5].
    apply Z.leb_le in H2. cbn in *. repeat split; assumption.
  - intros (Hv & Hd & Hc & He & Hp & Ht). split; [assumption|].
    exists (entered w), (entered w), (entered w). rewrite can_get_content_run.
    cbn. repeat split; try assumption.
    + f_equal. f_equal. now apply Z.leb_le.
    + now apply is_content_type_parseable_true.
Qed.

Lemma base_variant_never (w : World) :
  outcome (allows_recursion (base_variant I)) w <> Return true.
Proof.
  rewrite allows_recursion_true_iff.
  intros (_ & w1 & w3 & w4 & _ & _ & _ & _ & H5 & _). discriminate H5.
Qed.

(** When one of the first four checks fails the record is left as it
    was: the content type is not looked at, so no warning is added. *)
Lemma parsing_variant_short_circuit (w : World) :
  valid (self w) = false \/
  size (self w) > maxfilesizedownload (config w) \/
  (0 <= recursionlevel (config w) <= recursion_level (self w)) \/
  (exists s, extern (self w) = Some (true, s)) \/
  size (self w) > maxfilesizeparse (config w) ->
  extern (self w) <> None ->
  outcome (allows_recursion (parsing_variant I)) w = Return false /\
  self (exec (allows_recursion (parsing_variant I)) w) = self w.
Proof.
  intros Hfail Hext. unfold outcome, exec. rewrite allows_recursion_run.
  cbn [parsing_variant do_can_get_content do_is_parseable do_content_allows_robots].
  destruct (valid (self w)) eqn:Hv; cbn; [|split; reflexivity].
  rewrite can_get_content_run. cbn.
  destruct (Z.leb_spec (size (self w)) (maxfilesizedownload (config w))) as [Hd|Hd];
    cbn; [|split; reflexivity].
  rewrite allows_simple_recursion_run. cbn.
  destruct (Z.geb_spec (recursionlevel (config w)) 0) as [H0|H0];
    destruct (Z.geb_spec (recursion_level (self w)) (recursionlevel (config w))) as [H1|H1];
    cbn; try (split; reflexivity);
    (destruct (extern (self w)) as [[[] s]|] eqn:He; [split; reflexivity| |congruence]);
    cbn;
    (destruct (Z.gtb_spec (size (self w)) (maxfilesizeparse (config w))) as [Hp|Hp];
     cbn; [split; reflexivity|]);
    exfalso;
    (destruct Hfail as [?|[?|[?|[[s' ?]|?]]]]; try discriminate; try congruence; lia).
Qed.


(** C5, as the code has it.  [allows_recursion] returns true iff, in this
    order and stopping at the first failure: the record is valid; the
    variant's [can_get_content] returns true; the recursion-level cap is
    not reached (a negative cap is no cap) and the record is not extern;
    the size is at most [maxfilesizeparse]; the variant's [is_parseable]
    returns true; the variant's [content_allows_robots] returns true.  An
    invalid record is refused before any method of the variant is called.
    The fifth check is [is_parseable], not a test of the content type: the
    base class has [is_parseable] false, so a plain [UrlBase] never allows
    recursion; for the variant whose [is_parseable] is the content-type
    test [is_content_type_parseable] the six conditions are those of the
    design document, a failure of one of the first four leaves the record
    untouched (the content type is not looked at), and with
    [maxfilesizeparse=1000], size 1001 and content type [text/html] the
    gate returns false. *)
Theorem recursion_gate (V : Variant) (w : World) :
  (outcome (allows_recursion V) w = Return true <->
   valid (self w) = true /\
   exists w1 w3 w4,
     do_can_get_content V (entered w) = (Return true, w1) /\
     (recursionlevel (config w1) < 0 \/
      recursion_level (self w1) < recursionlevel (config w1)) /\
     (exists s, extern (self w1) = Some (false, s)) /\
     size (self w1) <= maxfilesizeparse (config w1) /\
     do_is_parseable V w1 = (Return true, w3) /\
     do_content_allows_robots V w3 = (Return true, w4)) /\
  (valid (self w) = false ->
   allows_recursion V w = (Return false, logged "... no, invalid." [] (entered w))) /\
  outcome (allows_recursion (base_variant I)) w <> Return true /\
  (outcome (allows_recursion (parsing_variant I)) w = Return true <->
   gate_conditions w = true) /\
  (valid (self w) = false \/
   size (self w) > maxfilesizedownload (config w) \/
   (0 <= recursionlevel (config w) <= recursion_level (self w)) \/
   (exists s, extern (self w) = Some (true, s)) \/
   size (self w) > maxfilesizeparse (config w) ->
   extern (self w) <> None ->
   outcome (allows_recursion (parsing_variant I)) w = Return false /\
   self (exec (allows_recursion (parsing_variant I)) w) = self w) /\
  (maxfilesizeparse (config w) = 1000 ->
   size (self w) = 1001 ->
   content_type (self w) = "text/html"%string ->
   extern (self w) <> None ->
   outcome (allows_recursion (parsing_variant I)) w = Return false).
Proof.
  split; [apply allows_recursion_true_iff|].
  split.
  { intros Hv. rewrite allows_recursion_run, Hv. reflexivity. }
  split; [apply base_variant_never|].
  split; [apply parsing_variant_true_iff|].
  split; [apply parsing_variant_short_circuit|].
  intros Hmax Hsize _ Hext.
  apply parsing_variant_short_circuit; [|exact Hext].
  do 4 right. rewrite Hmax, Hsize. reflexivity.
Qed.

End Gate.

(** The claim of C5 as stated fails on the base class: for a valid intern
    HTML page of 10 bytes at depth 0, with no cap on the recursion level,
    every listed condition holds and [allows_recursion] returns false. *)
Lemma recursion_gate_counterexample :
  gate_conditions Examples.w_page = true /\
  outcome (allows_recursion (base_variant Sample.imports)) Examples.w_page
  = Return false.
Proof. split; reflexivity. Qed.

(** The scenario of the design document: [maxfilesizeparse=1000], size
    1001, content type [text/html]. *)
Lemma recursion_gate_witness :
  outcome (allows_recursion (parsing_variant Sample.imports)) Examples.w_large_page
  = Return false.
Proof.
  apply (proj2 (proj2 (proj2 (proj2 (proj2
           (recursion_gate Sample.imports (parsing_variant Sample.imports)
              Examples.w_large_page)))))); try reflexivity.
  discriminate.
Defined.

(** ** Fault translator *)

Section Faults.

Variable I : Imports.

(** [handle_exception], case by case. *)
Lemma handle_exception_run (exc : Py.Instance) (w : World) :
  handle_exception I exc w =
    let w1 := fault_logged exc w in
    if bool_decide (Py.etype exc ∈ ExcNoCacheList I)
    then (Return (fault_message I exc), uncached w1)
    else if bool_decide (Py.etype exc = Py.socket_error) then
      match Py.args exc with
      | [] => (Raise tuple_index_error, w1)
      | a :: _ =>
          (Return (fault_message I exc),
           if Py.eq_int a Py.EBADF || negb (Py.truth exc)
           then uncached w1 else w1)
      end
    else (Return (fault_message I exc),
          if negb (Py.truth exc) then uncached w1 else w1).
Proof.
  unfold handle_exception, arg0, fault_message, fault_logged, uncached, logged. run.
  destruct (bool_decide (_ ∈ _)); [destruct (Py.truth exc); reflexivity|].
  destruct (bool_decide (_ = _)).
  - destruct (Py.args exc) as [|a ?]; cbn; [reflexivity|].
    destruct (Py.eq_int a Py.EBADF), (Py.truth exc); reflexivity.
  - destruct (Py.truth exc); reflexivity.
Qed.

(** [check] is [local_check] behind the trace switch: what the handler
    catches it raises again as it is, because an exception class never
    equals the number [errno.EINTR]. *)
Lemma check_run (local_check_ : M unit) (w : World) :
  check I local_check_ w =
    (cfg ← get_config; when (trace cfg) (trace_on I);; local_check_) w.
Proof.
  unfold check, try_except. run.
  destruct (trace (config w)); run.
  - destruct (trace_on I w) as [[[]|e] w1]; [|reflexivity].
    destruct (local_check_ w1) as [[[]|e] w2]; [reflexivity|].
    destruct (Py.issubclass _ _); reflexivity.
  - destruct (local_check_ w) as [[[]|e] w2]; [reflexivity|].
    destruct (Py.issubclass _ _); reflexivity.
Qed.

End Faults.

(** C8.  For [LinkCheckerError()], a fault that carries no detail,
    [handle_exception] returns [LinkCheckerError: ], with the colon, and
    leaves the cache flag set: the tests [not evalue] and [if evalue] are
    on the exception object, which is true whatever it carries. *)
Theorem handle_exception_no_detail :
  let w := Sample.world Sample.config0 in
  Py.args Examples.no_detail = [] /\
  Py.str Examples.no_detail = ""%string /\
  outcome (handle_exception Sample.imports Examples.no_detail) w
  = Return "LinkCheckerError: "%string /\
  caching (self (exec (handle_exception Sample.imports Examples.no_detail) w))
  = true.
Proof. repeat split; reflexivity. Qed.

(** C9.  When [local_check] raises [InterruptedError(4, 'Interrupted
    system call')], [check] catches it as an [OSError] and raises the same
    exception again, not [KeyboardInterrupt]: the handler compares the
    exception class with [errno.EINTR]. *)
Theorem check_reraises_interrupted :
  let w := Sample.world Sample.config0 in
  Py.issubclass (Py.etype Examples.interrupted) Py.OSError = true /\
  Py.args Examples.interrupted
  = [Py.VInt Py.EINTR; Py.VStr "Interrupted system call"] /\
  outcome (check Sample.imports (raise Examples.interrupted)) w
  = Raise Examples.interrupted /\
  Py.etype Examples.interrupted <> Py.KeyboardInterrupt.
Proof. repeat split; try reflexivity. discriminate. Qed.

(** ** URL builder and cache key *)

(** *** Computations that leave the configuration alone *)

Lemma keeps_ret {A} (a : A) : keeps_config (ret a).
Proof. intros w. reflexivity. Qed.

Lemma keeps_raise {A} (e : Py.Instance) : keeps_config (raise (A:=A) e).
Proof. intros w. reflexivity. Qed.

Lemma keeps_bind {A B} (c : M A) (k : A -> M B) :
  keeps_config c -> (forall a, keeps_config (k a)) -> keeps_config (c ≫= k).
Proof.
  intros Hc Hk w. unfold exec, mbind, M_bind, bind.
  specialize (Hc w). unfold exec in Hc.
  destruct (c w) as [[a|e] w1]; cbn in *; [|exact Hc].
  rewrite <- Hc. apply Hk.
Qed.

Lemma keeps_get_self : keeps_config get_self.
Proof. intros w. reflexivity. Qed.

Lemma keeps_get_config : keeps_config get_config.
Proof. intros w. reflexivity. Qed.

Lemma keeps_modify_self (f : UrlBase -> UrlBase) : keeps_config (modify_self f).
Proof. intros w. reflexivity. Qed.

Lemma keeps_emit (l : Level) (fmt : string) (fmt_args : list string) :
  keeps_config (emit l fmt fmt_args).
Proof. intros w. reflexivity. Qed.

Lemma keeps_lift {A} (x : Result A) : keeps_config (lift x).
Proof. intros w. destruct x; reflexivity. Qed.

Lemma keeps_add_info (s : string) : keeps_config (add_info s).
Proof.
  intros w. unfold exec. rewrite add_info_run. cbn.
  destruct (bool_decide _); reflexivity.
Qed.

Lemma keeps_add_warning (s : string) (tag : option string) :
  keeps_config (add_warning s tag).
Proof.
  intros w. unfold exec.
  destruct (add_warning_frame s tag w) as (ws & is_ & -> & _). reflexivity.
Qed.

Lemma keeps_when (b : bool) (c : M unit) :
  keeps_config c -> keeps_config (when b c).
Proof. intros Hc. destruct b; [exact Hc|apply keeps_ret]. Qed.

Create HintDb frame.
#[local] Hint Resolve keeps_ret keeps_raise keeps_get_self keeps_get_config
  keeps_modify_self keeps_emit keeps_lift keeps_add_info keeps_add_warning
  keeps_when : frame.

(** Walks through a computation built from the steps above. *)
Ltac frame :=
  repeat first
    [ progress (unfold log_debug, log_warn, mret, M_ret)
    | apply keeps_bind; [|intros ?]
    | solve [auto with frame]
    | match goal with
      | |- keeps_config (if ?b then _ else _) => destruct b
      | |- keeps_config (match ?x with _ => _ end) => destruct x
      | |- keeps_config (let '(_, _) := ?x in _) => destruct x
      end ].

Section Builder.

Variable I : Imports.

Lemma build_url_built (w w' : World) :
  build_url I w = (Return tt, w') ->
  exists parts, built I w' parts.
Proof.
  unfold build_url. intros Hrun.
  apply bind_returns in Hrun as (r & w1 & _ & Hrun).
  apply bind_returns in Hrun as ([b idn] & w2 & _ & Hrun).
  apply bind_returns in Hrun as (u & w3 & _ & Hrun).
  apply bind_returns in Hrun as ([] & w4 & _ & Hrun).
  apply bind_returns in Hrun as (p & w5 & _ & Hrun).
  apply bind_returns in Hrun as ([] & w6 & _ & Hrun).
  apply bind_returns in Hrun as (parts & w7 & _ & Hrun).
  revert Hrun. run. intros [= <-]. exists parts. split; reflexivity.
Qed.

(** On a record as [build_url] leaves it the URL is the effective URL
    already: [check_url_warnings] is left with the check of the length. *)
Lemma check_url_warnings_built (w : World) (parts : UrlParts) :
  built I w parts ->
  check_url_warnings I w =
    let n := len_str (urlutil_urlunsplit I parts) in
    when ((n >? URL_MAX_LENGTH I) && negb (bool_decide (scheme (self w) = Some "data"%string)))
      (add_warning
         ("URL length " +:+ str_int n +:+ " is longer than " +:+
          str_int (URL_MAX_LENGTH I) +:+ ".")
         (Some (WARN_URL_TOO_LONG I))) w.
Proof.
  intros [Hp Hu]. unfold check_url_warnings, the_urlparts. run.
  rewrite Hp. cbn. rewrite Hu. rewrite bool_decide_eq_true_2 by reflexivity.
  reflexivity.
Qed.

Lemma check_url_warnings_keeps (w w' : World) (parts : UrlParts) (o : Outcome unit) :
  built I w parts ->
  check_url_warnings I w = (o, w') ->
  o = Return tt /\ built I w' parts /\ config w' = config w.
Proof.
  intros Hb. rewrite (check_url_warnings_built w parts Hb). cbn zeta. unfold when.
  destruct (_ && _).
  - match goal with |- context [add_warning ?s ?t ?w0] =>
      destruct (add_warning_frame s t w0) as (ws & is_ & -> & _) end.
    intros [= <- <-]. destruct Hb as [Hp Hu]. unfold built. cbn.
    repeat split; assumption || reflexivity.
  - intros [= <- <-]. destruct Hb. repeat split; assumption || reflexivity.
Qed.

Lemma set_cache_url_built (w : World) (parts : UrlParts) :
  built I w parts ->
  outcome (set_cache_url I) w = Return tt /\
  built I (exec (set_cache_url I) w) parts /\
  cache_url (self (exec (set_cache_url I) w)) =
    Some (if bool_decide ("AnchorCheck"%string ∈ enabledplugins (config w))
          then urlutil_urlunsplit I parts
          else urlutil_urlunsplit I (with_fragment "" parts)).
Proof.
  intros [Hp Hu]. unfold outcome, exec, set_cache_url, the_urlparts, built. run.
  destruct (bool_decide _); cbn; rewrite ?Hp; cbn; rewrite ?Hu; repeat split; auto.
Qed.

Lemma check_syntax_run (w w2 : World) :
  truth_opt (base_url (self w)) || truth_opt (parent_url (self w)) = true ->
  (build_url I;; check_url_warnings I) (syntax_entered w) = (Return tt, w2) ->
  check_syntax I w = set_cache_url I w2.
Proof.
  intros Ht Hrun. unfold check_syntax, try_except_else. run.
  unfold syntax_entered, logged in Hrun. cbn in Hrun.
  unfold mbind, M_bind, bind in Hrun.
  destruct (base_url (self w)) as [b|] eqn:Hb; cbn in *.
  - rewrite Hb. cbn. rewrite Ht. cbn. now rewrite Hrun.
  - rewrite Ht. cbn. now rewrite Hrun.
Qed.

Lemma keeps_check_obfuscated_ip : keeps_config (check_obfuscated_ip I).
Proof. unfold check_obfuscated_ip. frame. Qed.

Lemma keeps_build_url_parts (u : string) : keeps_config (build_url_parts I u).
Proof.
  pose proof keeps_check_obfuscated_ip.
  unfold build_url_parts. frame.
Qed.

Lemma keeps_build_url : keeps_config (build_url I).
Proof.
  pose proof keeps_build_url_parts.
  unfold build_url, url_norm, urljoin. frame.
Qed.


Lemma config_syntax_entered (w : World) : config (syntax_entered w) = config w.
Proof. unfold syntax_entered. destruct (bool_decide _); reflexivity. Qed.

(** C6.  Let the URL of the record be built: in [check_syntax] the calls
    of [build_url] and [check_url_warnings] return.  Then [check_syntax]
    returns, the URL is the serialization of the stored parts, and the
    cache key is: with the AnchorCheck plugin enabled, the URL itself,
    fragment included; without it, the serialization of the same parts
    with the fragment made empty, which is the URL without its fragment
    (the URL is that key followed by [#fragment] when there is a
    fragment, and the key itself when there is none, for an [urlunsplit]
    that puts the fragment last as the one of [urllib] does). *)
Theorem cache_key (w w2 : World) :
  truth_opt (base_url (self w)) || truth_opt (parent_url (self w)) = true ->
  (build_url I;; check_url_warnings I) (syntax_entered w) = (Return tt, w2) ->
  let w' := exec (check_syntax I) w in
  outcome (check_syntax I) w = Return tt /\
  exists parts,
    built I w' parts /\
    ("AnchorCheck"%string ∈ enabledplugins (config w) ->
     cache_url (self w') = url (self w')) /\
    ("AnchorCheck"%string ∉ enabledplugins (config w) ->
     cache_url (self w') = Some (urlutil_urlunsplit I (with_fragment "" parts)) /\
     (fragment_last I ->
      url (self w') =
        Some (urlutil_urlunsplit I (with_fragment "" parts) +:+
              (if Py.truth_str (p_fragment parts)
               then "#" +:+ p_fragment parts else "")))).
Proof.
  intros Ht Hrun w'.
  assert (check_syntax I w = set_cache_url I w2) as Hcs
    by now apply check_syntax_run.
  apply bind_returns in Hrun as ([] & w1 & Hbuild & Hwarn).
  pose proof (keeps_build_url (syntax_entered w)) as Hc1.
  unfold exec in Hc1. rewrite Hbuild in Hc1. cbn in Hc1.
  rewrite config_syntax_entered in Hc1.
  apply build_url_built in Hbuild as [parts Hb1].
  apply (check_url_warnings_keeps _ _ parts) in Hwarn as (_ & Hb2 & Hc2);
    [|exact Hb1].
  destruct (set_cache_url_built w2 parts Hb2) as (Hout & Hb3 & Hkey).
  subst w'. unfold outcome, exec in *. rewrite Hcs.
  split; [exact Hout|]. exists parts. split; [exact Hb3|].
  rewrite Hc2, Hc1 in Hkey. destruct Hb3 as [_ Hu3]. split.
  - intros Hon. rewrite Hkey, Hu3. now rewrite bool_decide_eq_true_2.
  - intros Hoff. rewrite bool_decide_eq_false_2 in Hkey by assumption.
    split; [exact Hkey|]. intros Hlast. rewrite Hu3. f_equal. apply Hlast.
Qed.

End Builder.

Lemma append_empty_r (s : string) : s +:+ "" = s.
Proof.
  induction s as [|c s IH]; [reflexivity|].
  change (String c s +:+ "") with (String c (s +:+ "")). now rewrite IH.
Qed.

(** The [urlunsplit] of [urllib] puts the fragment last. *)
Lemma urllib_fragment_last : fragment_last Sample.imports.
Proof.
  intros p. cbn. unfold Urllib.urlunsplit. cbn.
  destruct (Py.truth_str (p_fragment p)).
  - reflexivity.
  - symmetry. apply append_empty_r.
Qed.

(** [http://example.com/b#frag] without the AnchorCheck plugin: the URL
    keeps the fragment and the cache key is [http://example.com/b]. *)
Lemma cache_key_witness :
  let w' := exec (check_syntax Sample.imports) Examples.w_fragment in
  url (self w') = Some "http://example.com/b#frag"%string /\
  cache_url (self w') = Some "http://example.com/b"%string.
Proof.
  assert ((build_url Sample.imports;; check_url_warnings Sample.imports)
            (syntax_entered Examples.w_fragment)
          = (Return tt, Examples.w_fragment_built)) as Hrun
    by (vm_compute; reflexivity).
  destruct (cache_key Sample.imports Examples.w_fragment
              Examples.w_fragment_built eq_refl Hrun)
    as (_ & parts & [Hp _] & _ & Hoff).
  assert (parts = mkUrlParts "http" (Some "example.com"%string) "/b" "" "frag")
    as -> by (vm_compute in Hp; congruence).
  destruct Hoff as [Hkey Hlast].
  - vm_compute. intros Hin. apply elem_of_nil in Hin. exact Hin.
  - split; [exact (Hlast urllib_fragment_last)|exact Hkey].
Defined.

(** *** The builder on a normalized URL *)

Section Fixed.

Variable I : Imports.






Lemma add_intern_pattern_run (w : World) : add_intern_pattern w = (Return tt, w).
Proof. reflexivity. Qed.









End Fixed.

(** ** Further properties of the code *)

(** X1.  The scope is decided once: on a record that has its decision,
    given to the constructor or left by an earlier call, [set_extern]
    returns without a change, whatever the URL and the patterns. *)
Theorem set_extern_decided_once (w : World) (u : option string)
    (e : bool * bool) :
  extern (self w) = Some e ->
  set_extern u w = (Return tt, w).
Proof. intros He. unfold set_extern. run. rewrite He. reflexivity. Qed.

Lemma set_extern_decided_once_witness :
  set_extern (Some "ftp://example.org/"%string) Examples.w_page
  = (Return tt, Examples.w_page).
Proof.
  apply (set_extern_decided_once Examples.w_page
           (Some "ftp://example.org/"%string) (false, false)).
  reflexivity.
Defined.

(** X2.  What [handle_exception] does to the cache flag and what it
    returns.  The flag is cleared exactly when the class of the exception
    is in the no-cache list, or it is [socket.error] itself and the first
    argument is [errno.EBADF], or the exception object is false.  The
    message, when one is returned, is [strformat.limit] at 240 of the
    class name, followed by a colon and the text of the exception unless
    the exception object is false.  For a [socket.error] without
    arguments outside the no-cache list the method itself raises
    [IndexError]. *)
Theorem handle_exception_cache_flag (I : Imports) (exc : Py.Instance) (w : World) :
  let w' := exec (handle_exception I exc) w in
  (forall msg,
     outcome (handle_exception I exc) w = Return msg ->
     msg = strformat_limit I
             (if Py.truth exc
              then Py.name_of (Py.etype exc) +:+ ": " +:+ Py.str exc
              else Py.name_of (Py.etype exc)) 240) /\
  (Py.etype exc ∉ ExcNoCacheList I ->
   Py.etype exc = Py.socket_error ->
   Py.args exc = [] ->
   outcome (handle_exception I exc) w = Raise tuple_index_error /\
   caching (self w') = caching (self w)) /\
  (Py.etype exc ∈ ExcNoCacheList I \/ Py.etype exc <> Py.socket_error \/
   Py.args exc <> [] ->
   (caching (self w') = false <->
    caching (self w) = false \/
    Py.etype exc ∈ ExcNoCacheList I \/
    (Py.etype exc = Py.socket_error /\
     exists a rest, Py.args exc = a :: rest /\ Py.eq_int a Py.EBADF = true) \/
    Py.truth exc = false)).
Proof.
  intros w'. subst w'. unfold outcome, exec. rewrite handle_exception_run. cbn zeta.
  unfold fault_message.
  case_bool_decide as Hno; cbn.
  - split; [intros msg [= <-]; reflexivity|]. split; [contradiction|].
    intros _. split; auto.
  - case_bool_decide as Hsock; cbn.
    + destruct (Py.args exc) as [|a rest] eqn:Hargs; cbn.
      * split; [discriminate|]. split; [split; reflexivity|].
        intros [Hin|[Hne|Hne]]; contradiction.
      * split; [intros msg [= <-]; reflexivity|]. split; [discriminate|].
        intros _.
        destruct (Py.eq_int a Py.EBADF) eqn:Hbad, (Py.truth exc) eqn:Htruth; cbn;
          (split; [intros Hc|]);
          try reflexivity; try tauto;
          try (right; right; left; split; [exact Hsock|]; now exists a, rest);
          try (right; right; right; reflexivity).
        intros [Hc|[Hin|[(_ & a' & rest' & [= <- <-] & Hb)|Hf]]];
          [exact Hc|contradiction|congruence|discriminate].
    + split; [intros msg [= <-]; reflexivity|]. split; [contradiction|].
      intros _. destruct (Py.truth exc) eqn:Htruth; cbn.
      * split; [auto|].
        intros [Hc|[Hin|[(Hs & _)|Hf]]];
          [exact Hc|contradiction|contradiction|discriminate].
      * split; [auto|reflexivity].
Qed.

(** X3.  [check] never turns an exception of [local_check] into another
    one: it is [local_check] behind the trace switch. *)
Theorem check_transparent (I : Imports) (local_check_ : M unit) (w : World) :
  check I local_check_ w =
    (cfg ← get_config; when (trace cfg) (trace_on I);; local_check_) w.
Proof. apply check_run. Qed.

(** X4.  After [build_url] the URL is the serialization of the stored
    parts, so [check_url_warnings] finds the effective URL equal to it:
    the warning for an effective URL is not added and the URL is not
    changed; what is left of the method is the check of the length. *)
Theorem no_effective_url_after_build (I : Imports) (w w1 : World) :
  build_url I w = (Return tt, w1) ->
  exists parts,
    built I w1 parts /\
    check_url_warnings I w1 =
      when ((len_str (urlutil_urlunsplit I parts) >? URL_MAX_LENGTH I)
            && negb (bool_decide (scheme (self w1) = Some "data"%string)))
        (add_warning (too_long_message I (urlutil_urlunsplit I parts))
           (Some (WARN_URL_TOO_LONG I))) w1 /\
    url (self (exec (check_url_warnings I) w1)) = url (self w1).
Proof.
  intros Hrun. apply build_url_built in Hrun as [parts Hb].
  exists parts. split; [exact Hb|]. split.
  - now rewrite (check_url_warnings_built I w1 parts Hb).
  - unfold exec. destruct (check_url_warnings I w1) as [o w2] eqn:Hw.
    apply (check_url_warnings_keeps I w1 w2 parts o Hb) in Hw as (_ & [_ Hu2] & _).
    cbn. destruct Hb as [_ Hu1]. congruence.
Qed.

Lemma no_effective_url_after_build_witness :
  exists parts,
    built Sample.imports (exec (build_url Sample.imports) Examples.w_fragment) parts.
Proof.
  destruct (no_effective_url_after_build Sample.imports Examples.w_fragment
              (exec (build_url Sample.imports) Examples.w_fragment))
    as (parts & Hb & _).
  - vm_compute. reflexivity.
  - exists parts. exact Hb.
Defined.

(** ** Running a computation *)

Lemma outcome_of {A} (c : M A) (w w' : World) (o : Outcome A) :
  c w = (o, w') -> outcome c w = o.
Proof. unfold outcome. intros ->. reflexivity. Qed.

Lemma exec_of {A} (c : M A) (w w' : World) (o : Outcome A) :
  c w = (o, w') -> exec c w = w'.
Proof. unfold exec. intros ->. reflexivity. Qed.

Lemma bind_run {A B} (c : M A) (k : A -> M B) (w w1 : World) (a : A) :
  c w = (Return a, w1) -> (c ≫= k) w = k a w1.
Proof. intros H. unfold mbind, M_bind, bind. rewrite H. reflexivity. Qed.

Lemma bind_raise {A B} (c : M A) (k : A -> M B) (w w1 : World) (e : Py.Instance) :
  c w = (Raise e, w1) -> (c ≫= k) w = (Raise e, w1).
Proof. intros H. unfold mbind, M_bind, bind. rewrite H. reflexivity. Qed.

(** ** Invariants: what a computation keeps *)

Lemma preserves_ret (P : UrlBase -> Prop) {A} (a : A) : preserves P (ret a).
Proof. intros w H. exact H. Qed.

Lemma preserves_raise (P : UrlBase -> Prop) {A} (e : Py.Instance) :
  preserves P (raise (A:=A) e).
Proof. intros w H. exact H. Qed.

Lemma preserves_bind (P : UrlBase -> Prop) {A B} (c : M A) (k : A -> M B) :
  preserves P c -> (forall a, preserves P (k a)) -> preserves P (c ≫= k).
Proof.
  intros Hc Hk w H. specialize (Hc w H). unfold exec in *.
  unfold mbind, M_bind, bind. destruct (c w) as [[a|e] w1]; cbn in *.
  - apply Hk, Hc.
  - exact Hc.
Qed.

Lemma preserves_get_self (P : UrlBase -> Prop) : preserves P get_self.
Proof. intros w H. exact H. Qed.

Lemma preserves_get_config (P : UrlBase -> Prop) : preserves P get_config.
Proof. intros w H. exact H. Qed.

Lemma preserves_modify_self (P : UrlBase -> Prop) (f : UrlBase -> UrlBase) :
  stable P f -> preserves P (modify_self f).
Proof. intros Hf w H. apply Hf, H. Qed.

Lemma preserves_modify_config (P : UrlBase -> Prop) (f : Config -> Config) :
  preserves P (modify_config f).
Proof. intros w H. exact H. Qed.

Lemma preserves_emit (P : UrlBase -> Prop) (l : Level) (fmt : string)
    (fmt_args : list string) :
  preserves P (emit l fmt fmt_args).
Proof. intros w H. exact H. Qed.

Lemma preserves_lift (P : UrlBase -> Prop) {A} (x : Result A) :
  preserves P (lift x).
Proof. intros w H. destruct x; exact H. Qed.

Lemma preserves_when (P : UrlBase -> Prop) (b : bool) (c : M unit) :
  preserves P c -> preserves P (when b c).
Proof. intros Hc. destruct b; [exact Hc|apply preserves_ret]. Qed.

Lemma preserves_try_except (P : UrlBase -> Prop) {A} (c : M A)
    (h : Py.Instance -> M A) :
  preserves P c -> (forall e, preserves P (h e)) -> preserves P (try_except c h).
Proof.
  intros Hc Hh w H. specialize (Hc w H). unfold exec, try_except in *.
  destruct (c w) as [[a|e] w1]; cbn in *.
  - exact Hc.
  - apply Hh, Hc.
Qed.

Lemma preserves_try_except_else (P : UrlBase -> Prop) {A} (c : M unit)
    (h : Py.Instance -> M A) (k : M A) :
  preserves P c -> (forall e, preserves P (h e)) -> preserves P k ->
  preserves P (try_except_else c h k).
Proof.
  intros Hc Hh Hk w H. specialize (Hc w H). unfold exec, try_except_else in *.
  destruct (c w) as [[a|e] w1]; cbn in *.
  - apply Hk, Hc.
  - apply Hh, Hc.
Qed.

Lemma preserves_for_each (P : UrlBase -> Prop) {A} (l : list A)
    (body : A -> M unit) :
  (forall x, preserves P (body x)) -> preserves P (for_each l body).
Proof.
  intros Hb. induction l as [|x l IH]; cbn [for_each].
  - apply preserves_ret.
  - apply preserves_bind; [apply Hb|intros _; exact IH].
Qed.

Create HintDb keep.

#[local] Hint Resolve preserves_ret preserves_raise preserves_get_self
  preserves_get_config preserves_modify_config preserves_emit preserves_lift
  : keep.

(** A field update that leaves the fields of the property alone. *)
Ltac stable_update :=
  let r := fresh "r" in
  let H := fresh "H" in
  intros r H; destruct r; try red in H; try red; cbn in *;
  first [exact H | intuition congruence].

Ltac head_of t :=
  lazymatch t with
  | ?f _ => head_of f
  | _ => t
  end.

Ltac keep :=
  repeat first
    [ progress (unfold log_debug, log_warn, mret, M_ret)
    | solve [auto with keep]
    | apply preserves_bind; [|intros ?]
    | apply preserves_when
    | apply preserves_try_except; [|intros ?]
    | apply preserves_try_except_else; [|intros ?|]
    | apply preserves_for_each; intros ?
    | apply preserves_modify_self; solve [stable_update]
    | match goal with
      | |- preserves _ (if ?b then _ else _) => destruct b
      | |- preserves _ (match ?x with _ => _ end) => destruct x
      | |- preserves _ (let '(_, _) := ?x in _) => destruct x
      | |- preserves _ ?c => let h := head_of c in progress (unfold h)
      end ].

Lemma no_duplicates_add_info (s : string) : preserves no_duplicates (add_info s).
Proof.
  intros w [Hw Hi]. split.
  - rewrite warnings_add_info. exact Hw.
  - apply add_info_NoDup, Hi.
Qed.

Lemma no_duplicates_add_warning (s : string) (tag : option string) :
  preserves no_duplicates (add_warning s tag).
Proof.
  intros w H. unfold exec. rewrite add_warning_run.
  case_bool_decide as Hin; [exact H|].
  destruct (tag_in tag (ignorewarnings (config w))).
  - apply no_duplicates_add_info, H.
  - destruct H as [Hw Hi]. destruct w as [r ? ? ? ? ?]; destruct r; cbn in *.
    split; [|exact Hi].
    apply NoDup_app. split; [exact Hw|]. split; [|apply NoDup_singleton].
    intros x Hx [->|[]%elem_of_nil]%elem_of_cons. contradiction.
Qed.

#[local] Hint Resolve no_duplicates_add_info no_duplicates_add_warning : keep.

Lemma no_duplicates_set_result (msg : string) (v o : bool) :
  preserves no_duplicates (set_result msg v o).
Proof. keep. Qed.

#[local] Hint Resolve no_duplicates_set_result : keep.

Lemma no_duplicates_set_extern (u : option string) :
  preserves no_duplicates (set_extern u).
Proof. keep. Qed.

#[local] Hint Resolve no_duplicates_set_extern : keep.

Section Kept.

Variable I : Imports.

Lemma no_duplicates_init (base_ref_ base_url_ parent_url_ : option string)
    (recursion_level_ : Z) (url_encoding : option string)
    (extern_ : option (bool * bool)) :
  preserves no_duplicates
    (init I base_ref_ base_url_ parent_url_ recursion_level_ url_encoding extern_).
Proof. keep. Qed.

Lemma no_duplicates_build_url_parts (u : string) :
  preserves no_duplicates (build_url_parts I u).
Proof. keep. Qed.

Lemma no_duplicates_build_url : preserves no_duplicates (build_url I).
Proof. keep. Qed.

Lemma no_duplicates_check_url_warnings :
  preserves no_duplicates (check_url_warnings I).
Proof. keep. Qed.

Lemma no_duplicates_set_cache_url : preserves no_duplicates (set_cache_url I).
Proof. keep. Qed.

Lemma no_duplicates_check_syntax : preserves no_duplicates (check_syntax I).
Proof.
  unfold check_syntax.
  pose proof no_duplicates_build_url. pose proof no_duplicates_check_url_warnings.
  pose proof no_duplicates_set_cache_url.
  keep.
Qed.

Lemma no_duplicates_add_intern_pattern :
  preserves no_duplicates add_intern_pattern.
Proof. keep. Qed.

End Kept.

#[local] Hint Resolve no_duplicates_init no_duplicates_check_syntax
  no_duplicates_add_intern_pattern : keep.

(** What holds of a record after [reset] and is kept by what follows
    holds when the constructor is done. *)
Lemma after_reset (P : UrlBase -> Prop) (k : unit -> M unit) (w : World) :
  P reset_record -> preserves P (k tt) ->
  P (self (exec (modify_self (fun _ => reset_record) ≫= k) w)).
Proof. intros H0 Hk. apply (Hk (with_self reset_record w)), H0. Qed.

(** X5.  The constructor leaves no duplicate among the warnings and none
    among the infos of the record, whatever it is given and whether it
    returns or raises. *)
Theorem new_no_duplicates (I : Imports) (w : World)
    (base_url_ : option string) (recursion_level_ : Z)
    (parent_url_ base_ref_ url_encoding : option string)
    (extern_ : option (bool * bool)) :
  no_duplicates
    (self (exec (new I base_url_ recursion_level_ parent_url_ base_ref_
                   url_encoding extern_) w)).
Proof.
  unfold new. apply after_reset.
  - split; constructor.
  - keep.
Qed.

(** X6.  The constructor fetches nothing: when it is done the record
    has no connection, no content data, and the size and the download
    time that [reset] gave it. *)
Theorem new_unfetched (I : Imports) (w : World)
    (base_url_ : option string) (recursion_level_ : Z)
    (parent_url_ base_ref_ url_encoding : option string)
    (extern_ : option (bool * bool)) :
  unfetched
    (self (exec (new I base_url_ recursion_level_ parent_url_ base_ref_
                   url_encoding extern_) w)).
Proof.
  unfold new. apply after_reset.
  - repeat split.
  - keep.
Qed.

(** ** The constructor *)

Lemma the_extern_returns (w w' : World) (e : bool * bool) :
  the_extern w = (Return e, w') -> w' = w /\ extern (self w) = Some e.
Proof.
  unfold the_extern. run. destruct (extern (self w)) as [x|]; cbn.
  - intros [= <- <-]. split; reflexivity.
  - discriminate.
Qed.

(** The end of the constructor for a record that is extern and strict:
    the note is added, and the result [filtered] stored unless the record
    has a result. *)
Lemma filtered_run (w : World) :
  exists w',
    (add_info outside_filter;;
     r ← get_self;
     when (negb (has_result r)) (set_result "filtered" true false)) w
    = (Return tt, w') /\
    extern (self w') = extern (self w) /\
    has_result (self w') = true /\
    outside_filter ∈ info (self w') /\
    url (self w') = url (self w) /\
    urlparts (self w') = urlparts (self w) /\
    cache_url (self w') = cache_url (self w) /\
    (has_result (self w) = true ->
     result (self w') = result (self w) /\ valid (self w') = valid (self w)).
Proof.
  unfold mbind, M_bind, bind. rewrite add_info_run.
  unfold get_self. cbv beta iota.
  set (w7 := if bool_decide _ then w else _).
  assert (H7 : exists l, self w7 = with_info l (self w) /\ outside_filter ∈ l).
  { subst w7. case_bool_decide as Hin.
    - exists (info (self w)). split; [|exact Hin].
      destruct w as [r6 ? ? ? ? ?]; destruct r6; reflexivity.
    - eexists. split; [reflexivity|].
      apply elem_of_app; right. apply list_elem_of_singleton. reflexivity. }
  clearbody w7. destruct H7 as (l & H7 & H8).
  destruct (has_result (self w7)) eqn:Hr; unfold when; cbn [negb].
  - exists w7. split; [reflexivity|]. rewrite H7 in Hr |- *.
    destruct w as [r6 ? ? ? ? ?]; destruct r6; cbn in Hr |- *.
    repeat split; assumption || reflexivity.
  - rewrite set_result_run. eexists. split; [reflexivity|].
    destruct w7 as [r7 ? ? ? ? ?]. cbn in H7, Hr. subst r7.
    destruct w as [r6 ? ? ? ? ?]; destruct r6; cbn in Hr |- *.
    repeat split; try assumption; try reflexivity; intros; congruence.
Qed.

Lemma new_eq (I : Imports)
    (base_url_ : option string) (recursion_level_ : Z)
    (parent_url_ base_ref_ url_encoding : option string)
    (extern_ : option (bool * bool)) :
  new I base_url_ recursion_level_ parent_url_ base_ref_ url_encoding extern_ =
  (modify_self (fun _ => reset_record);;
   init I base_ref_ base_url_ parent_url_ recursion_level_ url_encoding extern_;;
   check_syntax I;;
   when (recursion_level_ =? 0) add_intern_pattern;;
   r ← get_self;
   set_extern (url r);;
   '(is_extern, is_strict) ← the_extern;
   if (is_extern : bool) && (is_strict : bool) then
     add_info outside_filter;;
     r ← get_self;
     when (negb (has_result r)) (set_result "filtered" true false)
   else ret tt).
Proof. reflexivity. Qed.

(** X7.  When the constructor returns, the scope of the record is
    decided; and a record that is extern and strict has a result and
    carries the note that it lies outside of the domain filter. *)
Theorem new_decides_scope (I : Imports) (w : World)
    (base_url_ : option string) (recursion_level_ : Z)
    (parent_url_ base_ref_ url_encoding : option string)
    (extern_ : option (bool * bool)) :
  let c := new I base_url_ recursion_level_ parent_url_ base_ref_
             url_encoding extern_ in
  outcome c w = Return tt ->
  exists is_extern is_strict,
    extern (self (exec c w)) = Some (is_extern, is_strict) /\
    (is_extern = true -> is_strict = true ->
     has_result (self (exec c w)) = true /\
     outside_filter ∈ info (self (exec c w))).
Proof.
  intros c Hret. subst c.
  destruct (new I base_url_ recursion_level_ parent_url_ base_ref_
              url_encoding extern_ w) as [o w'] eqn:E.
  rewrite (outcome_of _ _ _ _ E) in Hret. rewrite (exec_of _ _ _ _ E).
  subst o.
  rewrite new_eq in E.
  apply bind_returns in E as ([] & w1 & _ & E).
  apply bind_returns in E as ([] & w2 & _ & E).
  apply bind_returns in E as ([] & w3 & _ & E).
  apply bind_returns in E as ([] & w4 & _ & E).
  apply bind_returns in E as (r & w5 & _ & E).
  apply bind_returns in E as ([] & w6 & _ & E).
  apply bind_returns in E as ([e s] & w7 & Hx & E).
  apply the_extern_returns in Hx as [-> Hx].
  exists e, s.
  destruct (e && s) eqn:Hes.
  - destruct (filtered_run w6) as (wf & Hrun & He & Hr & Hi & _).
    cbv iota in E. rewrite Hrun in E. injection E as <-.
    rewrite He. split; [exact Hx|]. intros _ _. split; assumption.
  - injection E as <-. split; [exact Hx|].
    intros -> ->. discriminate.
Qed.

Lemma new_decides_scope_witness :
  exists is_extern is_strict,
    let c := new Sample.imports (Some "http://example.com/b"%string) 0
               None None None None in
    let w := Sample.world Sample.config0 in
    extern (self (exec c w)) = Some (is_extern, is_strict) /\
    (is_extern = true -> is_strict = true ->
     has_result (self (exec c w)) = true /\
     outside_filter ∈ info (self (exec c w))).
Proof.
  apply (new_decides_scope Sample.imports (Sample.world Sample.config0)
           (Some "http://example.com/b"%string) 0 None None None None).
  vm_compute. reflexivity.
Defined.

Section Constructor.

Variable I : Imports.

(** [init] returns unless a base reference or a parent URL needs
    quoting, and stores what it is given. *)
Lemma init_returns (w : World) (base_ref_ base_url_ parent_url_ : option string)
    (level : Z) (enc : option string) (ext : option (bool * bool)) :
  truth_opt base_ref_ && url_needs_quoting I (default "" base_ref_) = false ->
  truth_opt parent_url_ && url_needs_quoting I (default "" parent_url_) = false ->
  exists w1,
    init I base_ref_ base_url_ parent_url_ level enc ext w = (Return tt, w1) /\
    base_url (self w1) =
      (if truth_opt base_url_ then strip <$> base_url_ else base_url_) /\
    parent_url (self w1) = parent_url_ /\
    base_ref (self w1) = base_ref_ /\
    recursion_level (self w1) = level /\
    encoding (self w1) = enc /\
    extern (self w1) = ext /\
    scheme (self w1) =
      Some (scheme_of (absolute_url I (base_url (self w1)) base_ref_ parent_url_)) /\
    ignore_errors (self w1) = ignoreerrors (config w) /\
    config w1 = config w.
Proof.
  intros H1 H2. unfold init. run. rewrite H1, H2. cbn.
  match goal with
  | |- context [(if bool_decide _ then _ else add_warning ?s ?t) ?w0] =>
      destruct (add_warning_frame s t w0) as (ws & is_ & Hrun & _ & _);
      set (b := if truth_opt base_url_ then strip <$> base_url_ else base_url_)
        in *;
      destruct (bool_decide (b = base_url_)); [|rewrite Hrun]
  end;
    (eexists; split; [reflexivity|]);
    destruct w as [r ? ? ? ? ?]; destruct r; cbn; repeat split; reflexivity.
Qed.

#[local] Arguments set_result : simpl never.

(** Without a base URL and without a parent URL [check_syntax] stores
    the result [URL is empty] and does nothing else. *)
Lemma check_syntax_empty (w : World) :
  truth_opt (base_url (self w)) || truth_opt (parent_url (self w)) = false ->
  check_syntax I w = set_result "URL is empty" false false (syntax_entered w).
Proof.
  intros Ht. unfold check_syntax, syntax_entered, logged. run.
  destruct (base_url (self w)) as [b|] eqn:Hb; cbn in *.
  - rewrite Hb. cbn. rewrite Ht. reflexivity.
  - rewrite Ht. reflexivity.
Qed.

Lemma truth_opt_stripped (b : option string) :
  truth_opt (if truth_opt b then strip <$> b else b) = truth_opt (strip <$> b).
Proof. destruct b as [[|c s]|]; reflexivity. Qed.

(** [set_extern] on a record without URL. *)
Lemma set_extern_None (w : World) :
  set_extern None w =
    (Return tt,
     match extern (self w) with
     | Some _ => w
     | None => with_self (with_extern (Some (true, true)) (self w)) w
     end).
Proof. unfold set_extern. run. destruct (extern (self w)); reflexivity. Qed.

(** The constructor up to the result of [check_syntax], for an empty
    URL: the world in which [set_result] turns to the ignore rules. *)
Lemma new_empty_stored (w : World) (base_url_ : option string) (level : Z)
    (parent_url_ base_ref_ enc : option string) (ext : option (bool * bool)) :
  truth_opt (strip <$> base_url_) = false ->
  truth_opt parent_url_ = false ->
  truth_opt base_ref_ && url_needs_quoting I (default "" base_ref_) = false ->
  exists w2,
    init I base_ref_ base_url_ parent_url_ level enc ext
      (with_self reset_record w) = (Return tt, w2) /\
    check_syntax I w2 =
      set_result "URL is empty" false false (syntax_entered w2) /\
    url (self w2) = None /\ urlparts (self w2) = None /\
    cache_url (self w2) = None /\
    extern (self w2) = ext /\
    ignore_errors (self w2) = ignoreerrors (config w).
Proof.
  intros Hb Hp Hq.
  destruct (init_returns (with_self reset_record w) base_ref_ base_url_
              parent_url_ level enc ext Hq) as
    (w2 & Hinit & Hbase & Hparent & _ & _ & _ & Hext & _ & Hig & _).
  { rewrite Hp. reflexivity. }
  exists w2. split; [exact Hinit|]. split.
  { apply check_syntax_empty.
    rewrite Hbase, Hparent, truth_opt_stripped, Hb, Hp. reflexivity. }
  assert (HP : preserves
                 (fun r => url r = None /\ urlparts r = None /\ cache_url r = None)
                 (init I base_ref_ base_url_ parent_url_ level enc ext)).
  { keep. }
  specialize (HP (with_self reset_record w)).
  rewrite (exec_of _ _ _ _ Hinit) in HP.
  destruct HP as (Hu & Hparts & Hc); [repeat split|].
  repeat split; assumption.
Qed.

Lemma syntax_entered_self (w : World) :
  exists b, self (syntax_entered w) = with_base_url b (self w).
Proof.
  unfold syntax_entered, logged. cbn. case_bool_decide.
  - exists (base_url (self w)). destruct w as [r ? ? ? ? ?]; destruct r; reflexivity.
  - eexists. reflexivity.
Qed.

(** With an ignore rule and without URL, [set_result] for an invalid
    record raises the [TypeError] of the pattern search, the message and
    the validity stored. *)
Lemma set_result_no_url (msg : string) (o : bool) (w : World)
    (rule : Regex * Regex) (rules : list (Regex * Regex)) :
  url (self w) = None ->
  ignore_errors (self w) = rule :: rules ->
  set_result msg false o w =
    (Raise (type_error "expected string or bytes-like object"),
     stored msg false o w).
Proof.
  intros Hu Hr. rewrite set_result_run. cbv iota. rewrite Hr.
  rewrite for_each_ignore_rule_None; [reflexivity|].
  destruct w as [r ? ? ? ? ?]; destruct r; exact Hu.
Qed.

(** X8.  The constructor for an empty URL, under a configuration without
    ignore rules: without a base URL (absent, empty or white space) and
    without a parent URL it returns a record that is invalid with the
    result [URL is empty], has no URL, no URL parts and no cache key, and
    whose scope is the one given or else extern and strict; an extern
    and strict record carries the note on the domain filter. *)
Theorem new_empty_url (w : World) (base_url_ : option string) (level : Z)
    (parent_url_ base_ref_ enc : option string) (ext : option (bool * bool)) :
  truth_opt (strip <$> base_url_) = false ->
  truth_opt parent_url_ = false ->
  truth_opt base_ref_ && url_needs_quoting I (default "" base_ref_) = false ->
  ignoreerrors (config w) = [] ->
  let c := new I base_url_ level parent_url_ base_ref_ enc ext in
  outcome c w = Return tt /\
  result (self (exec c w)) = "URL is empty"%string /\
  valid (self (exec c w)) = false /\
  has_result (self (exec c w)) = true /\
  url (self (exec c w)) = None /\
  urlparts (self (exec c w)) = None /\
  cache_url (self (exec c w)) = None /\
  extern (self (exec c w)) = Some (default (true, true) ext) /\
  (default (true, true) ext = (true, true) ->
   outside_filter ∈ info (self (exec c w))).
Proof.
  intros Hb Hp Hq Hig c.
  destruct (new_empty_stored w base_url_ level parent_url_ base_ref_ enc ext
              Hb Hp Hq) as (w2 & Hinit & Hcs & Hu & Hparts & Hc & Hext & Hrules).
  destruct (syntax_entered_self w2) as (b & Hself).
  set (w3 := freed (stored "URL is empty" false false (syntax_entered w2))).
  assert (H3 : check_syntax I w2 = (Return tt, w3)).
  { rewrite Hcs, set_result_run. cbv iota.
    replace (ignore_errors (self (syntax_entered w2))) with (@nil (Regex * Regex)).
    - reflexivity.
    - rewrite Hself, <- Hig, <- Hrules.
      destruct w2 as [r ? ? ? ? ?]; destruct r; reflexivity. }
  assert (F3 : result (self w3) = "URL is empty"%string /\
               valid (self w3) = false /\ has_result (self w3) = true /\
               url (self w3) = None /\ urlparts (self w3) = None /\
               cache_url (self w3) = None /\ extern (self w3) = ext).
  { subst w3. unfold freed, stored. cbn. rewrite Hself.
    destruct w2 as [r ? ? ? ? ?]; destruct r; cbn in *.
    repeat split; assumption. }
  clearbody w3. destruct F3 as (Fr & Fv & Fh & Fu & Fp & Fc & Fe).
  set (w4 := match extern (self w3) with
             | Some _ => w3
             | None => with_self (with_extern (Some (true, true)) (self w3)) w3
             end).
  assert (F4 : result (self w4) = "URL is empty"%string /\
               valid (self w4) = false /\ has_result (self w4) = true /\
               url (self w4) = None /\ urlparts (self w4) = None /\
               cache_url (self w4) = None /\
               extern (self w4) = Some (default (true, true) ext)).
  { subst w4. rewrite Fe. destruct ext as [x|]; cbn [default].
    - repeat split; assumption.
    - destruct w3 as [r ? ? ? ? ?]; destruct r; cbn in *.
      repeat split; assumption. }
  assert (H4 : (r ← get_self; set_extern (url r)) w3 = (Return tt, w4)).
  { unfold mbind, M_bind, bind, get_self. cbv beta iota. rewrite Fu.
    apply set_extern_None. }
  clearbody w4. destruct F4 as (Gr & Gv & Gh & Gu & Gp & Gc & Ge).
  assert (H5 : the_extern w4 = (Return (default (true, true) ext), w4)).
  { unfold the_extern. run. rewrite Ge. reflexivity. }
  destruct (filtered_run w4) as (w5 & H6 & Ke & Kh & Ki & Ku & Kp & Kc & Kr).
  destruct (Kr Gh) as [Kres Kv].
  assert (exists wf,
            c w = (Return tt, wf) /\
            (wf = w4 \/ wf = w5 /\ default (true, true) ext = (true, true)) /\
            (default (true, true) ext = (true, true) -> wf = w5))
    as (wf & Hrun & Hwf & Hstrict).
  { subst c. rewrite new_eq.
    rewrite (bind_run _ _ w (with_self reset_record w) tt) by reflexivity.
    rewrite (bind_run _ _ _ _ _ Hinit).
    rewrite (bind_run _ _ _ _ _ H3).
    rewrite (bind_run _ _ w3 w3 tt)
      by (destruct (level =? 0); reflexivity).
    unfold mbind at 1, M_bind at 1, bind at 1, get_self at 1. cbv beta iota.
    pose proof H4 as H4'. unfold mbind, M_bind, bind, get_self in H4'.
    cbv beta iota in H4'.
    rewrite (bind_run _ _ _ _ _ H4').
    rewrite (bind_run _ _ _ _ _ H5).
    destruct (default (true, true) ext) as [[] []]; cbv beta iota;
      cbn [andb];
      try (exists w4; split; [reflexivity|]; split; [left; reflexivity|];
           discriminate).
    exists w5. split; [exact H6|]. split; [right; split; reflexivity|].
    reflexivity. }
  rewrite (outcome_of _ _ _ _ Hrun), (exec_of _ _ _ _ Hrun).
  split; [reflexivity|].
  assert (Hfields : result (self wf) = "URL is empty"%string /\
                    valid (self wf) = false /\ has_result (self wf) = true /\
                    url (self wf) = None /\ urlparts (self wf) = None /\
                    cache_url (self wf) = None /\
                    extern (self wf) = Some (default (true, true) ext)).
  { destruct Hwf as [->|[-> _]].
    - repeat split; assumption.
    - repeat split; congruence. }
  destruct Hfields as (? & ? & ? & ? & ? & ? & ?).
  repeat split; try assumption.
  intros Hs. rewrite (Hstrict Hs). exact Ki.
Qed.

(** X9.  The constructor for an empty URL, under a configuration with at
    least one ignore rule: [set_result] searches the URL pattern of the
    first rule in the URL, which is [None], so that the constructor
    raises [TypeError]; the record is left invalid with the result
    [URL is empty] and without a scope decision of its own. *)
Theorem new_empty_url_ignore_rules (w : World) (base_url_ : option string)
    (level : Z) (parent_url_ base_ref_ enc : option string)
    (ext : option (bool * bool))
    (rule : Regex * Regex) (rules : list (Regex * Regex)) :
  truth_opt (strip <$> base_url_) = false ->
  truth_opt parent_url_ = false ->
  truth_opt base_ref_ && url_needs_quoting I (default "" base_ref_) = false ->
  ignoreerrors (config w) = rule :: rules ->
  let c := new I base_url_ level parent_url_ base_ref_ enc ext in
  outcome c w = Raise (type_error "expected string or bytes-like object") /\
  result (self (exec c w)) = "URL is empty"%string /\
  valid (self (exec c w)) = false /\
  extern (self (exec c w)) = ext.
Proof.
  intros Hb Hp Hq Hcfg c.
  destruct (new_empty_stored w base_url_ level parent_url_ base_ref_ enc ext
              Hb Hp Hq) as (w2 & Hinit & Hcs & Hu & Hparts & Hc & Hext & Hrules).
  destruct (syntax_entered_self w2) as (b & Hself).
  rewrite Hcfg in Hrules.
  set (w3 := stored "URL is empty" false false (syntax_entered w2)).
  assert (H3 : check_syntax I w2 =
               (Raise (type_error "expected string or bytes-like object"), w3)).
  { rewrite Hcs. apply (set_result_no_url _ _ _ rule rules).
    - rewrite Hself. destruct w2 as [r ? ? ? ? ?]; destruct r; exact Hu.
    - rewrite Hself, <- Hrules. destruct w2 as [r ? ? ? ? ?]; destruct r; reflexivity. }
  assert (Hrun : c w =
                 (Raise (type_error "expected string or bytes-like object"), w3)).
  { subst c. rewrite new_eq.
    rewrite (bind_run _ _ w (with_self reset_record w) tt) by reflexivity.
    rewrite (bind_run _ _ _ _ _ Hinit).
    apply bind_raise, H3. }
  rewrite (outcome_of _ _ _ _ Hrun), (exec_of _ _ _ _ Hrun).
  split; [reflexivity|].
  subst w3. unfold stored. cbn. rewrite Hself.
  destruct w2 as [r ? ? ? ? ?]; destruct r; cbn in *.
  repeat split; assumption.
Qed.

End Constructor.

Lemma new_empty_url_witness :
  let c := new Sample.imports (Some "  "%string) 0 None None None None in
  let w := Sample.world Sample.config0 in
  outcome c w = Return tt /\
  result (self (exec c w)) = "URL is empty"%string /\
  valid (self (exec c w)) = false /\
  has_result (self (exec c w)) = true /\
  url (self (exec c w)) = None /\
  urlparts (self (exec c w)) = None /\
  cache_url (self (exec c w)) = None /\
  extern (self (exec c w)) = Some (true, true) /\
  ((true, true) = (true, true) -> outside_filter ∈ info (self (exec c w))).
Proof.
  apply (new_empty_url Sample.imports (Sample.world Sample.config0)
           (Some "  "%string) 0 None None None None); reflexivity.
Defined.

Lemma new_empty_url_ignore_rules_witness :
  let c := new Sample.imports (Some ""%string) 0 None None None None in
  let w := Sample.world
             {| externlinks := []; internlinks := []; checkextern := false;
                recursionlevel := -1;
                maxfilesizedownload := 1000; maxfilesizeparse := 1000;
                ignorewarnings := []; ignoreerrors := Examples.two_rules;
                enabledplugins := []; trace := false |} in
  outcome c w = Raise (type_error "expected string or bytes-like object") /\
  result (self (exec c w)) = "URL is empty"%string /\
  valid (self (exec c w)) = false /\
  extern (self (exec c w)) = None.
Proof.
  apply (new_empty_url_ignore_rules Sample.imports
           (Sample.world
             {| externlinks := []; internlinks := []; checkextern := false;
                recursionlevel := -1;
                maxfilesizedownload := 1000; maxfilesizeparse := 1000;
                ignorewarnings := []; ignoreerrors := Examples.two_rules;
                enabledplugins := []; trace := false |})
           (Some ""%string) 0 None None None None
           (Sample.literal "example", Sample.literal "404")
           [(Sample.literal "http", Sample.literal "Error")]);
    reflexivity.
Defined.

(** ** The scheme *)

Lemma lower_char_idem (c : ascii) : lower_char (lower_char c) = lower_char c.
Proof. destruct c as [[] [] [] [] [] [] [] []]; reflexivity. Qed.

Lemma lower_char_colon (c : ascii) :
  Ascii.eqb (lower_char c) ":" = Ascii.eqb c ":".
Proof. destruct c as [[] [] [] [] [] [] [] []]; reflexivity. Qed.

Lemma lower_idem (s : string) : lower (lower s) = lower s.
Proof.
  induction s as [|c s IH]; [reflexivity|].
  cbn [lower]. now rewrite lower_char_idem, IH.
Qed.

Lemma has_colon_lower (s : string) : has_colon (lower s) = has_colon s.
Proof.
  induction s as [|c s IH]; [reflexivity|].
  cbn [lower has_colon]. now rewrite lower_char_colon, IH.
Qed.

Lemma has_colon_before_colon (s : string) : has_colon (before_colon s) = false.
Proof.
  induction s as [|c s IH]; [reflexivity|].
  cbn [before_colon]. destruct (Ascii.eqb c ":") eqn:Hc; [reflexivity|].
  cbn [has_colon]. now rewrite Hc, IH.
Qed.

Lemma scheme_of_shape (u : string) :
  scheme_of u <> ""%string /\
  has_colon (scheme_of u) = false /\
  lower (scheme_of u) = scheme_of u /\
  (before_colon u = ""%string -> scheme_of u = "file"%string).
Proof.
  unfold scheme_of.
  destruct (lower (before_colon u)) as [|c s] eqn:Hl; cbn [Py.truth_str].
  - repeat split; try reflexivity. discriminate.
  - rewrite <- Hl. split; [rewrite Hl; discriminate|].
    split; [now rewrite has_colon_lower, has_colon_before_colon|].
    split; [apply lower_idem|].
    intros He. rewrite He in Hl. discriminate.
Qed.

(** What stands before the first colon has no colon, and the string is
    it alone or it, a colon and a rest. *)
Lemma before_colon_split (u : string) :
  u = before_colon u \/ exists rest, u = before_colon u +:+ ":" +:+ rest.
Proof.
  induction u as [|c s IH]; [now left|].
  cbn [before_colon]. destruct (Ascii.eqb c ":") eqn:Hc.
  - right. exists s. apply Ascii.eqb_eq in Hc. subst c. reflexivity.
  - destruct IH as [IH|[rest IH]].
    + left. now rewrite <- IH.
    + right. exists rest.
      change (String c s = String c (before_colon s +:+ ":" +:+ rest)).
      now rewrite <- IH.
Qed.

(** X10.  [init] returns unless a base reference or a parent URL needs
    quoting.  It stores the base URL without the white space around it,
    and as scheme the text before the first colon of the absolute URL in
    lower case, or [file] when nothing stands before a colon: with
    [pre] the text in front of the first colon (all of the URL when it
    has no colon), the scheme is [lower pre], and [file] for an empty
    [pre].  So the scheme is never empty, has no colon and has no
    upper-case letter. *)
Theorem init_scheme (I : Imports) (w : World)
    (base_ref_ base_url_ parent_url_ : option string)
    (level : Z) (enc : option string) (ext : option (bool * bool)) :
  truth_opt base_ref_ && url_needs_quoting I (default "" base_ref_) = false ->
  truth_opt parent_url_ && url_needs_quoting I (default "" parent_url_) = false ->
  let c := init I base_ref_ base_url_ parent_url_ level enc ext in
  outcome c w = Return tt /\
  base_url (self (exec c w)) =
    (if truth_opt base_url_ then strip <$> base_url_ else base_url_) /\
  exists pre s : string,
    let u := absolute_url I (base_url (self (exec c w))) base_ref_ parent_url_ in
    has_colon pre = false /\
    (u = pre \/ exists rest, u = pre +:+ ":" +:+ rest) /\
    s = (if Py.truth_str pre then lower pre else "file"%string) /\
    scheme (self (exec c w)) = Some s /\
    s <> ""%string /\ has_colon s = false /\ lower s = s.
Proof.
  intros H1 H2 c.
  destruct (init_returns I w base_ref_ base_url_ parent_url_ level enc ext H1 H2)
    as (w1 & Hrun & Hb & _ & _ & _ & _ & _ & Hs & _).
  subst c. rewrite (outcome_of _ _ _ _ Hrun), (exec_of _ _ _ _ Hrun).
  split; [reflexivity|]. split; [exact Hb|].
  set (u := absolute_url I (base_url (self w1)) base_ref_ parent_url_) in *.
  exists (before_colon u), (scheme_of u). cbv zeta.
  split; [apply has_colon_before_colon|].
  split; [apply before_colon_split|].
  split.
  - unfold scheme_of.
    destruct (before_colon u) as [|a pre]; reflexivity.
  - split; [exact Hs|].
    destruct (scheme_of_shape u) as (Hne & Hc & Hl & _). auto.
Qed.

Lemma init_scheme_witness :
  let c := init Sample.imports None (Some " HTTP://Example.com/ "%string) None
             0 None None in
  let w := Sample.world Sample.config0 in
  outcome c w = Return tt /\
  base_url (self (exec c w)) = Some "HTTP://Example.com/"%string /\
  exists pre s : string,
    let u := absolute_url Sample.imports (base_url (self (exec c w))) None None in
    has_colon pre = false /\
    (u = pre \/ exists rest, u = pre +:+ ":" +:+ rest) /\
    s = (if Py.truth_str pre then lower pre else "file"%string) /\
    scheme (self (exec c w)) = Some s /\
    s <> ""%string /\ has_colon s = false /\ lower s = s.
Proof.
  apply (init_scheme Sample.imports (Sample.world Sample.config0)
           None (Some " HTTP://Example.com/ "%string) None 0 None None);
    reflexivity.
Defined.

(** ** Content *)

(** Reading moves the connection and leaves the rest of the world. *)
Lemma read_while_frame (conn : Connection) (buf data : bytes) (w w' : World)
    (o : Outcome bytes) :
  read_while conn buf data w = (o, w') ->
  w' = w \/ exists rest, w' = unread rest w.
Proof.
  revert buf data w. induction conn as [|ev conn IH]; intros buf data w.
  - cbn [read_while]. destruct (truth_bytes data); run.
    + destruct (_ >? _); intros [= <- <-]; now left.
    + intros [= <- <-]. now left.
  - cbn [read_while]. destruct (truth_bytes data); run.
    + destruct (_ >? _); [intros [= <- <-]; now left|].
      destruct ev as [d|e]; cbn.
      * intros Hrun. apply IH in Hrun as [->|[rest ->]]; right.
        -- now exists conn.
        -- exists rest. apply unread_unread.
      * intros [= <- <-]. right. now exists conn.
    + intros [= <- <-]. now left.
Qed.

Lemma read_content_frame (w w' : World) (o : Outcome bytes) :
  read_content w = (o, w') ->
  w' = w \/ exists rest, w' = unread rest w.
Proof.
  unfold read_content, read_content_chunk, connection_read, the_connection. run.
  destruct (url_connection (self w)) as [[|[d|e] rest]|] eqn:Hc; cbn.
  - rewrite Hc. cbn. intros Hrun. now apply (read_while_frame [] [] []) in Hrun.
  - intros Hrun. apply (read_while_frame rest [] d) in Hrun as [->|[rest' ->]]; right.
    + now exists rest.
    + exists rest'. apply unread_unread.
  - intros [= <- <-]. right. now exists rest.
  - intros [= <- <-]. now left.
Qed.

Lemma add_warning_present (s : string) (tag : option string) (w : World) :
  exists ws is_,
    add_warning s tag w =
      (Return tt, with_self (with_warnings ws (with_info is_ (self w))) w) /\
    ((tag, s) ∈ ws \/ s ∈ is_).
Proof.
  rewrite add_warning_run. case_bool_decide as Hin.
  - exists (warnings (self w)), (info (self w)). split; [|now left].
    destruct w as [r ? ? ? ? ?]; destruct r; reflexivity.
  - destruct (tag_in tag (ignorewarnings (config w))).
    + rewrite add_info_run. case_bool_decide as Hi.
      * exists (warnings (self w)), (info (self w)). split; [|now right].
        destruct w as [r ? ? ? ? ?]; destruct r; reflexivity.
      * exists (warnings (self w)), (info (self w) ++ [s]). split.
        -- destruct w as [r ? ? ? ? ?]; destruct r; reflexivity.
        -- right. apply elem_of_app. right. now apply list_elem_of_singleton.
    + exists (warnings (self w) ++ [(tag, s)]), (info (self w)). split.
      * destruct w as [r ? ? ? ? ?]; destruct r; reflexivity.
      * left. apply elem_of_app. right. now apply list_elem_of_singleton.
Qed.

Section Content.

Variable I : Imports.

(** X11.  The accounts of a download that returns: the size is the
    length of the content, the download time is the difference of the
    two clock readings, and the crawl-wide byte counter grows by the
    length of the content.  Content that is not empty adds no warning and
    no info; empty content adds the warning that the content size is
    zero (to the infos if its tag is ignored). *)
Theorem download_content_accounting (w w' : World) (content : bytes) :
  download_content I w = (Return content, w') ->
  size (self w') = len content /\
  dltime (self w') = clock w (S (ticks w)) - clock w (ticks w) /\
  ticks w' = S (S (ticks w)) /\
  downloaded_bytes w' = downloaded_bytes w + len content /\
  (content <> [] ->
   warnings (self w') = warnings (self w) /\ info (self w') = info (self w)) /\
  (content = [] ->
   (Some (WARN_URL_CONTENT_SIZE_ZERO I), "Content size is zero."%string)
     ∈ warnings (self w') \/
   "Content size is zero."%string ∈ info (self w')).
Proof.
  unfold download_content, time_time. run.
  change (read_content _) with (read_content (started w)).
  destruct (read_content (started w)) as [[c|e] w1] eqn:Hread; cbn;
    [|discriminate].
  apply read_content_frame in Hread.
  assert (exists conn, w1 = with_self (with_url_connection conn (self w))
                              (started w)) as [conn ->].
  { destruct Hread as [->|[rest ->]].
    - exists (url_connection (self w)).
      destruct w as [r ? ? ? ? ?]; destruct r; reflexivity.
    - exists (Some rest). destruct w as [r ? ? ? ? ?]; destruct r; reflexivity. }
  clear Hread.
  destruct (len c =? 0) eqn:Hz.
  - match goal with |- context [add_warning ?s ?t ?w0] =>
      destruct (add_warning_present s t w0) as (ws & is_ & -> & Hpres) end.
    cbn. intros [= <- <-]. apply Z.eqb_eq in Hz.
    destruct w as [r ? ? ? ? ?]; destruct r; cbn in *.
    repeat split; try reflexivity; try lia.
    + destruct c; [congruence|]. unfold len in Hz. cbn in Hz. lia.
    + destruct c; [congruence|]. unfold len in Hz. cbn in Hz. lia.
    + intros _. exact Hpres.
  - unfold add_downloaded_bytes. cbn. intros [= <- <-]. apply Z.eqb_neq in Hz.
    destruct w as [r ? ? ? ? ?]; destruct r; cbn in *.
    repeat split; try reflexivity.
    intros ->. now contradiction Hz.
Qed.

(** X12.  The content is downloaded once: when [get_raw_content] has
    returned, the record holds the data, and the next call returns the
    same data and changes nothing (no read, no clock reading, no log
    line).  [set_result] frees the data, so that the call after it
    downloads again. *)
Theorem get_raw_content_cached (w w' : World) (d : bytes) :
  get_raw_content I w = (Return d, w') ->
  data (self w') = Some d /\
  get_raw_content I w' = (Return d, w') /\
  (forall (msg : string) (v o : bool) (w'' : World),
     set_result msg v o w' = (Return tt, w'') ->
     data (self w'') = None /\
     get_raw_content I w'' =
       (d' ← download_content I; modify_self (with_data (Some d'));; ret d') w'').
Proof.
  intros Hrun.
  assert (Hd : data (self w') = Some d).
  { revert Hrun. unfold get_raw_content. run.
    destruct (data (self w)) as [d0|] eqn:Hd0; cbn.
    - intros [= <- <-]. exact Hd0.
    - destruct (download_content I w) as [[c|e] w1]; cbn; [|discriminate].
      intros [= <- <-]. destruct w1 as [r ? ? ? ? ?]; destruct r; reflexivity. }
  split; [exact Hd|]. split.
  - unfold get_raw_content. run. rewrite Hd. reflexivity.
  - intros msg v o w'' Hset.
    assert (Hn : data (self w'') = None).
    { rewrite set_result_run in Hset. destruct v.
      - injection Hset as <-. unfold freed.
        destruct (stored _ _ _ _) as [r ? ? ? ? ?]; destruct r; reflexivity.
      - destruct (for_each _ _ _) as [[[]|e] w1]; [|discriminate].
        injection Hset as <-. unfold freed.
        destruct w1 as [r ? ? ? ? ?]; destruct r; reflexivity. }
    split; [exact Hn|]. unfold get_raw_content at 1.
    unfold mbind at 1, M_bind at 1, bind at 1, get_self at 1. cbv beta iota.
    rewrite Hn. reflexivity.
Qed.

End Content.

Lemma download_content_accounting_witness :
  let w := Cases.w_small in
  let w' := exec (download_content Sample.imports) w in
  size (self w') = len Examples.three /\
  dltime (self w') = clock w (S (ticks w)) - clock w (ticks w) /\
  ticks w' = S (S (ticks w)) /\
  downloaded_bytes w' = downloaded_bytes w + len Examples.three /\
  (Examples.three <> [] ->
   warnings (self w') = warnings (self w) /\ info (self w') = info (self w)) /\
  (Examples.three = [] ->
   (Some (WARN_URL_CONTENT_SIZE_ZERO Sample.imports),
    "Content size is zero."%string) ∈ warnings (self w') \/
   "Content size is zero."%string ∈ info (self w')).
Proof.
  apply (download_content_accounting Sample.imports Cases.w_small
           (exec (download_content Sample.imports) Cases.w_small)
           Examples.three).
  vm_compute. reflexivity.
Defined.

Lemma get_raw_content_cached_witness :
  let w' := exec (get_raw_content Sample.imports) Cases.w_small in
  data (self w') = Some Examples.three /\
  get_raw_content Sample.imports w' = (Return Examples.three, w') /\
  (forall (msg : string) (v o : bool) (w'' : World),
     set_result msg v o w' = (Return tt, w'') ->
     data (self w'') = None /\
     get_raw_content Sample.imports w'' =
       (d' ← download_content Sample.imports;
        modify_self (with_data (Some d'));; ret d') w'').
Proof.
  apply (get_raw_content_cached Sample.imports Cases.w_small
           (exec (get_raw_content Sample.imports) Cases.w_small)
           Examples.three).
  vm_compute. reflexivity.
Defined.

(** ** Connection close *)

(** X13.  [close_connection] swallows what [close] raises when it is an
    [Exception], and then the record has no connection: a read raises
    [AttributeError], and a second close does nothing.  Without a
    connection it does nothing.  An exception of [close] that is not an
    [Exception], such as [KeyboardInterrupt], passes through, and the
    record keeps the connection. *)
Theorem close_connection_closes (close_ : Connection -> Result unit) (w : World) :
  (url_connection (self w) = None ->
   close_connection close_ w = (Return tt, w)) /\
  (forall conn,
     url_connection (self w) = Some conn ->
     (forall e, close_ conn = inl e ->
                Py.issubclass (Py.etype e) Py.Exception = true) ->
     close_connection close_ w = (Return tt, closed w)) /\
  (forall conn e,
     url_connection (self w) = Some conn ->
     close_ conn = inl e ->
     Py.issubclass (Py.etype e) Py.Exception = false ->
     close_connection close_ w = (Raise e, w)) /\
  close_connection close_ (closed w) = (Return tt, closed w) /\
  outcome read_content (closed w) =
    Raise (attribute_error "'NoneType' object has no attribute 'read'").
Proof.
  unfold close_connection, try_except. run.
  split; [intros ->; reflexivity|]. split; [|split; [|split]].
  - intros conn -> Hexc. destruct (close_ conn) as [e|[]] eqn:Hc; cbn.
    + rewrite (Hexc e eq_refl). reflexivity.
    + reflexivity.
  - intros conn e -> -> Hexc. cbn. rewrite Hexc. reflexivity.
  - destruct w as [r ? ? ? ? ?]; destruct r; reflexivity.
  - destruct w as [r ? ? ? ? ?]; destruct r; reflexivity.
Qed.

(** ** Content type tests *)

Lemma ContentMimetypes_lookup (mime kind : string) :
  ContentMimetypes !! mime = Some kind <->
  (mime, kind) ∈
    [ ("text/html", "html"); ("application/xhtml+xml", "html");
      ("application/x-httpd-php", "html"); ("text/css", "css");
      ("application/vnd.adobe.flash.movie", "swf");
      ("application/x-shockwave-flash", "swf");
      ("application/msword", "word"); ("text/plain+linkchecker", "text");
      ("text/plain+opera", "opera"); ("text/plain+chromium", "chromium");
      ("application/x-plist+safari", "safari"); ("text/vnd.wap.wml", "wml");
      ("application/xml+sitemap", "sitemap");
      ("application/xml+sitemapindex", "sitemapindex");
      ("application/pdf", "pdf"); ("application/x-pdf", "pdf") ]%string.
Proof.
  unfold ContentMimetypes. symmetry. apply elem_of_list_to_map.
  refine (bool_decide_unpack _ _). vm_compute. exact Logic.I.
Qed.

Lemma ContentMimetypes_html (mime : string) :
  ContentMimetypes !! mime = Some "html"%string <-> mime ∈ html_types.
Proof.
  rewrite ContentMimetypes_lookup. unfold html_types.
  rewrite !elem_of_cons, !elem_of_nil. split.
  - intros H. repeat (destruct H as [H|H]; [try discriminate H|]);
      try contradiction; injection H as ->; auto.
  - intros [->|[->|[->|[]]]]; auto 20.
Qed.

Lemma ContentMimetypes_css (mime : string) :
  ContentMimetypes !! mime = Some "css"%string <-> mime = "text/css"%string.
Proof.
  rewrite ContentMimetypes_lookup.
  rewrite !elem_of_cons, !elem_of_nil. split.
  - intros H. repeat (destruct H as [H|H]; [try discriminate H|]);
      try contradiction; injection H as ->; auto.
  - intros ->; auto 20.
Qed.

Lemma _is_ctype_run (ctype : string) (w : World) :
  _is_ctype ctype w =
    (Return (valid (self w) &&
             bool_decide (ContentMimetypes !! content_type (self w) = Some ctype)),
     w).
Proof. unfold _is_ctype. run. destruct (valid (self w)); reflexivity. Qed.

(** X14.  [is_html] holds exactly of a valid record whose content type
    is one of the three that [ContentMimetypes] gives as [html], and
    [is_css] exactly of a valid record of type [text/css]; an invalid
    record is neither, a content type that is not in [ContentMimetypes]
    is neither, no record is both, and what is one of the two has a
    content type that [is_content_type_parseable] accepts without a
    warning.  The tests change nothing. *)
Theorem content_type_tests (I : Imports) (w : World) :
  (is_html w = (Return true, w) <->
   valid (self w) = true /\ content_type (self w) ∈ html_types) /\
  (is_css w = (Return true, w) <->
   valid (self w) = true /\ content_type (self w) = "text/css"%string) /\
  exec is_html w = w /\ exec is_css w = w /\
  (valid (self w) = false \/ ContentMimetypes !! content_type (self w) = None ->
   outcome is_html w = Return false /\ outcome is_css w = Return false) /\
  (outcome is_html w = Return true -> outcome is_css w = Return false) /\
  (outcome is_html w = Return true \/ outcome is_css w = Return true ->
   is_content_type_parseable I w = (Return true, w)).
Proof.
  unfold is_html, is_css, outcome, exec. rewrite !_is_ctype_run. cbn [fst snd].
  rewrite is_content_type_parseable_true.
  pose proof (ContentMimetypes_html (content_type (self w))) as Hh.
  pose proof (ContentMimetypes_css (content_type (self w))) as Hc.
  rewrite <- (bool_decide_eq_true (_ = Some "html"%string)) in Hh.
  rewrite <- (bool_decide_eq_true (_ = Some "css"%string)) in Hc.
  assert (Hx : bool_decide (ContentMimetypes !! content_type (self w)
                            = Some "html"%string) = true ->
               bool_decide (ContentMimetypes !! content_type (self w)
                            = Some "css"%string) = false).
  { intros H%bool_decide_eq_true. apply bool_decide_eq_false. congruence. }
  assert (Hn : ContentMimetypes !! content_type (self w) = None ->
               bool_decide (ContentMimetypes !! content_type (self w)
                            = Some "html"%string) = false /\
               bool_decide (ContentMimetypes !! content_type (self w)
                            = Some "css"%string) = false).
  { intros H. split; apply bool_decide_eq_false; congruence. }
  assert (Hp : bool_decide (ContentMimetypes !! content_type (self w)
                            = Some "html"%string) = true \/
               bool_decide (ContentMimetypes !! content_type (self w)
                            = Some "css"%string) = true ->
               is_Some (ContentMimetypes !! content_type (self w))).
  { intros [H%bool_decide_eq_true|H%bool_decide_eq_true]; rewrite H; eauto. }
  generalize dependent (bool_decide (ContentMimetypes !! content_type (self w)
                                     = Some "html"%string)).
  generalize dependent (bool_decide (ContentMimetypes !! content_type (self w)
                                     = Some "css"%string)).
  generalize dependent (valid (self w)).
  intros v c Hc h Hh Hx Hn Hp.
  assert (Hret : forall b : bool,
            (Return b, w) = (Return true, w) <-> b = true).
  { intros b. split; [intros [= ->]; reflexivity|intros ->; reflexivity]. }
  rewrite !Hret, !andb_true_iff, Hh, Hc.
  split; [reflexivity|]. split; [reflexivity|].
  split; [reflexivity|]. split; [reflexivity|].
  split; [|split].
  - intros [->|H]; [split; reflexivity|].
    destruct (Hn H) as [-> ->]. rewrite andb_false_r. split; reflexivity.
  - destruct v, h; cbn [andb]; try discriminate.
    intros _. rewrite (Hx eq_refl). reflexivity.
  - intros H. split; [reflexivity|]. apply Hp.
    destruct v, h, c; cbn [andb] in H; auto;
      destruct H as [H|H]; discriminate H.
Qed.

(** ** Faults while checking *)

Section Checks.

Variable I : Imports.

(** [handle_exception] returns unless it is given a [socket.error]
    without arguments outside of the no-cache list. *)
Lemma handle_exception_returns (exc : Py.Instance) (w : World) :
  Py.etype exc ∈ ExcNoCacheList I \/ Py.etype exc <> Py.socket_error \/
  Py.args exc <> [] ->
  handle_exception I exc w = (Return (fault_message I exc), handled I exc w).
Proof.
  intros Hc. rewrite handle_exception_run. unfold handled. cbn zeta.
  case_bool_decide as Hno; [reflexivity|].
  case_bool_decide as Hsock; cbn [orb andb].
  - destruct (Py.args exc) as [|a rest] eqn:Ha.
    + destruct Hc as [?|[?|?]]; contradiction.
    + reflexivity.
  - reflexivity.
Qed.

Variable V : Variant.

Lemma check_content_run (w : World) :
  check_content I V w =
    if do_check_content (self w) && valid (self w) then
      match content_steps I V w with
      | (Return b, w1) => (Return b, w1)
      | (Raise exc, w1) =>
          if caught_by (ExcList I) exc then
            (value ← handle_exception I exc;
             add_warning (could_not_get_content value)
               (Some (WARN_URL_ERROR_GETTING_CONTENT I));;
             ret false) w1
          else (Raise exc, w1)
      end
    else (Return false, w).
Proof.
  unfold check_content, try_except.
  unfold mbind at 1, M_bind at 1, bind at 1, get_self at 1. cbv beta iota.
  destruct (do_check_content (self w) && valid (self w)); [|reflexivity].
  destruct (content_steps I V w) as [[b|exc] w1]; [reflexivity|].
  destruct (caught_by (ExcList I) exc); reflexivity.
Qed.

Lemma content_steps_true (w : World) :
  outcome (content_steps I V) w = Return true <->
  exists b w1 w2,
    do_can_get_content V w = (Return b, w1) /\
    when b (run_content_plugins I) w1 = (Return tt, w2) /\
    outcome (allows_recursion V) w2 = Return true.
Proof.
  unfold outcome, content_steps. unfold mbind, M_bind, bind. split.
  - destruct (do_can_get_content V w) as [[b|e] w1] eqn:Hg; cbv beta iota;
      [|discriminate].
    destruct (when b (run_content_plugins I) w1) as [[[]|e] w2] eqn:Hp;
      cbv beta iota; [|discriminate].
    destruct (allows_recursion V w2) as [[[]|e] w3] eqn:Ha; cbv beta iota;
      try discriminate.
    intros _. exists b, w1, w2. rewrite Ha. repeat split. exact Hp.
  - intros (b & w1 & w2 & -> & -> & Ha). cbv beta iota.
    destruct (allows_recursion V w2) as [[[]|e] w3]; cbn [fst] in Ha;
      cbv beta iota; try discriminate Ha. reflexivity.
Qed.

(** X15.  [check_content] returns [True] exactly when content checking
    is on, the record is valid, and [allows_recursion] returns [True]
    after [can_get_content] and, where that holds, the content plugins.
    With content checking off or an invalid record it returns [False]
    and does nothing.  A fault of [ExcList] raised on the way does not
    leave the method: it returns [False] and the record carries the
    warning that the content could not be got, with the message of
    [handle_exception] (among the infos if the tag is ignored).  Any
    other exception passes through. *)
Theorem check_content_outcomes (w : World) :
  (do_check_content (self w) && valid (self w) = false ->
   check_content I V w = (Return false, w)) /\
  (outcome (check_content I V) w = Return true <->
   do_check_content (self w) = true /\ valid (self w) = true /\
   exists b w1 w2,
     do_can_get_content V w = (Return b, w1) /\
     when b (run_content_plugins I) w1 = (Return tt, w2) /\
     outcome (allows_recursion V) w2 = Return true) /\
  (forall exc w1,
     do_check_content (self w) && valid (self w) = true ->
     content_steps I V w = (Raise exc, w1) ->
     (caught_by (ExcList I) exc = false ->
      check_content I V w = (Raise exc, w1)) /\
     (caught_by (ExcList I) exc = true ->
      Py.etype exc ∈ ExcNoCacheList I \/ Py.etype exc <> Py.socket_error \/
      Py.args exc <> [] ->
      outcome (check_content I V) w = Return false /\
      let w' := exec (check_content I V) w in
      (Some (WARN_URL_ERROR_GETTING_CONTENT I),
       could_not_get_content (fault_message I exc)) ∈ warnings (self w') \/
      could_not_get_content (fault_message I exc) ∈ info (self w'))).
Proof.
  split; [|split].
  - intros Hf. rewrite check_content_run, Hf. reflexivity.
  - rewrite <- content_steps_true. unfold outcome. rewrite check_content_run.
    destruct (do_check_content (self w)), (valid (self w)); cbn [andb fst];
      try (split; [discriminate|intros (? & ? & ?); discriminate]).
    destruct (content_steps I V w) as [[b|exc] w1]; cbn [fst].
    + split; [intros [= ->]; auto|intros (_ & _ & H); exact H].
    + split; [|intros (_ & _ & H); discriminate].
      destruct (caught_by (ExcList I) exc); cbn [fst]; [|discriminate].
      unfold mbind, M_bind, bind.
      destruct (handle_exception I exc w1) as [[v|e] w2]; cbn;
        [|discriminate].
      destruct (add_warning_present (could_not_get_content v)
                  (Some (WARN_URL_ERROR_GETTING_CONTENT I)) w2)
        as (ws & is_ & -> & _).
      discriminate.
  - intros exc w1 Hf Hsteps. split.
    + intros Hc. rewrite check_content_run, Hf, Hsteps, Hc. reflexivity.
    + intros Hc Hret. unfold outcome, exec.
      rewrite check_content_run, Hf, Hsteps, Hc.
      unfold mbind, M_bind, bind. rewrite (handle_exception_returns exc w1 Hret).
      destruct (add_warning_present (could_not_get_content (fault_message I exc))
                  (Some (WARN_URL_ERROR_GETTING_CONTENT I)) (handled I exc w1))
        as (ws & is_ & -> & Hpres).
      cbn. split; [reflexivity|].
      destruct (handled I exc w1) as [r ? ? ? ? ?]; destruct r; exact Hpres.
Qed.





End Checks.

(** ** Syntax faults *)

Section Syntax.

Variable I : Imports.




End Syntax.


(** ** The parts of a URL *)

Section Parts.

Variable I : Imports.



End Parts.


(** ** The title *)




(** ** The transport object *)

(** The transport dict for given values. *)
Lemma wire_dict_slots
    (v1 v2 v3 v4 v5 v6 v7 v8 v9 v10 v11 v12 v13 v14 v15 v16 v17 v18 v19 v20
       v21 v22 : WireValue) :
  let d : gmap string WireValue :=
    list_to_map
      [ ("valid", v1); ("extern", v2); ("result", v3); ("warnings", v4);
        ("name", v5); ("title", v6); ("parent_url", v7); ("base_ref", v8);
        ("base_url", v9); ("url", v10); ("domain", v11); ("checktime", v12);
        ("dltime", v13); ("size", v14); ("info", v15); ("line", v16);
        ("column", v17); ("page", v18); ("cache_url", v19);
        ("content_type", v20); ("level", v21); ("modified", v22) ]%string in
  CompactUrlData d = inr d /\
  dom d = list_to_set urlDataAttr.
Proof.
  cbv zeta. split.
  - vm_compute. reflexivity.
  - vm_compute. reflexivity.
Qed.

(** [get_title] returns a title and touches nothing but the title. *)
Lemma get_title_returns (o : Object) :
  exists t,
    get_title o =
      (Return (Some t), mkObject (with_title (Some t) (attrs o)) (world o)).
Proof.
  unfold get_title, get_attrs, on_record, get_self, modify_attrs.
  unfold mbind, O_bind, O_then, mret, O_ret, O_return. cbv beta iota.
  destruct o as [a w]. cbn [attrs world].
  destruct (title a) as [t|] eqn:Ht.
  - exists t. cbn. rewrite Ht. destruct a; cbn in *. now subst.
  - cbn.
    match goal with
    | |- context [has_slash ?u] => set (src := u)
    end.
    destruct (has_slash src); cbn.
    + destruct (Py.truth_str (Urllib.after_last "/" src)); cbn;
        eexists; destruct a; reflexivity.
    + eexists; destruct a; reflexivity.
Qed.

(** X20.  The transport object.  Without a scope decision
    [to_wire_dict] raises [TypeError] and changes nothing, not even the
    title.  With one it returns a dict whose keys are exactly the names
    in [urlDataAttr], so that [CompactUrlData] finds every attribute:
    [to_wire] raises no [KeyError] and its slots hold the items of the
    dict.  The record is not changed, and of the other attributes only
    the title, which is computed.  The entries for name, parent URL, base
    reference, base URL, URL and title are strings, never [None]; the
    cache key is [None] when the record has none. *)
Theorem to_wire_slots (o : Object) :
  let r := self (world o) in
  (extern r = None ->
   to_wire_dict o =
     (Raise (type_error "'NoneType' object is not subscriptable"), o) /\
   to_wire o =
     (Raise (type_error "'NoneType' object is not subscriptable"), o)) /\
  (forall e s,
     extern r = Some (e, s) ->
     exists d t,
       let o' := mkObject (with_title (Some t) (attrs o)) (world o) in
       get_title o = (Return (Some t), o') /\
       to_wire_dict o = (Return d, o') /\
       to_wire o = (Return d, o') /\
       dom d = list_to_set urlDataAttr /\
       d !! "extern"%string = Some (WBool e) /\
       d !! "title"%string = Some (WStr t) /\
       d !! "name"%string = Some (WStr (name (attrs o))) /\
       d !! "parent_url"%string = Some (WStr (default "" (parent_url r))) /\
       d !! "base_ref"%string = Some (WStr (default "" (base_ref r))) /\
       d !! "base_url"%string = Some (WStr (default "" (base_url r))) /\
       d !! "url"%string = Some (WStr (default "" (url r))) /\
       d !! "cache_url"%string = Some (of_opt (cache_url r))).
Proof.
  cbv zeta. destruct o as [a w]. cbn [attrs world]. split.
  - intros He. unfold to_wire, to_wire_dict, on_record, get_attrs, get_self,
      the_extern.
    unfold mbind, O_bind, O_then, M_bind, bind, get_self. cbv beta iota.
    cbn [attrs world]. rewrite He. split; reflexivity.
  - intros e s He. destruct (get_title_returns (mkObject a w)) as (t & Ht).
    cbn [attrs world] in Ht.
    assert (Hempty : forall x : option string, or_empty x = default "" x).
    { intros [[|c x]|]; reflexivity. }
    assert (Hdict : exists d, to_wire_dict (mkObject a w) =
              (Return d, mkObject (with_title (Some t) a) w) /\
              CompactUrlData d = inr d /\
              dom d = list_to_set urlDataAttr /\
              d !! "extern"%string = Some (WBool e) /\
              d !! "title"%string = Some (WStr t) /\
              d !! "name"%string = Some (WStr (name a)) /\
              d !! "parent_url"%string =
                Some (WStr (default "" (parent_url (self w)))) /\
              d !! "base_ref"%string =
                Some (WStr (default "" (base_ref (self w)))) /\
              d !! "base_url"%string =
                Some (WStr (default "" (base_url (self w)))) /\
              d !! "url"%string = Some (WStr (default "" (url (self w)))) /\
              d !! "cache_url"%string = Some (of_opt (cache_url (self w)))).
    { unfold to_wire_dict, on_record, get_attrs, get_self, the_extern.
      unfold mbind at 1 2 3, O_bind at 1 2 3, O_then at 1 2 3.
      unfold mbind at 1, M_bind at 1, bind at 1, get_self at 1.
      cbv beta iota. cbn [attrs world]. rewrite He. unfold ret at 1.
      cbv beta iota.
      unfold mbind at 1, O_bind at 1, O_then at 1.
      rewrite Ht. unfold mret, O_ret, O_return.
      eexists. split; [reflexivity|].
      match goal with
      | |- CompactUrlData (list_to_map
             [ (_, ?v1); (_, ?v2); (_, ?v3); (_, ?v4); (_, ?v5); (_, ?v6);
               (_, ?v7); (_, ?v8); (_, ?v9); (_, ?v10); (_, ?v11); (_, ?v12);
               (_, ?v13); (_, ?v14); (_, ?v15); (_, ?v16); (_, ?v17);
               (_, ?v18); (_, ?v19); (_, ?v20); (_, ?v21); (_, ?v22) ]) = _ /\ _ =>
          destruct (wire_dict_slots v1 v2 v3 v4 v5 v6 v7 v8 v9 v10 v11 v12 v13
                      v14 v15 v16 v17 v18 v19 v20 v21 v22) as [Hc Hd]
      end.
      split; [exact Hc|]. split; [exact Hd|].
      rewrite !Hempty. repeat split; reflexivity. }
    destruct Hdict as (d & Hrun & Hc & Hrest).
    exists d, t. cbv zeta. split; [exact Ht|]. split; [exact Hrun|].
    split; [|exact Hrest].
    unfold to_wire. unfold mbind, O_bind, O_then. rewrite Hrun, Hc.
    reflexivity.
Qed.

(** ** Decoded content *)

Lemma O_bind_run {A B} (c : O A) (k : A -> O B) (o o1 : Object) (a : A) :
  c o = (Return a, o1) -> (c ≫= k) o = k a o1.
Proof. intros H. unfold mbind, O_bind, O_then. rewrite H. reflexivity. Qed.

Lemma O_bind_raise {A B} (c : O A) (k : A -> O B) (o o1 : Object)
    (e : Py.Instance) :
  c o = (Raise e, o1) -> (c ≫= k) o = (Raise e, o1).
Proof. intros H. unfold mbind, O_bind, O_then. rewrite H. reflexivity. Qed.

Lemma get_raw_content_stores (I : Imports) (w w' : World) (d : bytes) :
  get_raw_content I w = (Return d, w') -> data (self w') = Some d.
Proof.
  unfold get_raw_content. run.
  destruct (data (self w)) as [d0|] eqn:Hd0; cbn.
  - intros [= <- <-]. exact Hd0.
  - destruct (download_content I w) as [[c|e] w1]; cbn; [|discriminate].
    intros [= <- <-]. destruct w1 as [r ? ? ? ? ?]; destruct r; reflexivity.
Qed.

Lemma encoding_of_shape (s : Soup) :
  encoding_of s <> ""%string /\
  (truth_opt (original_encoding s) = false ->
   encoding_of s = "ISO-8859-1"%string) /\
  (truth_opt (original_encoding s) = true ->
   original_encoding s = Some (encoding_of s)).
Proof.
  unfold encoding_of. destruct (original_encoding s) as [[|c x]|]; cbn;
    repeat split; try discriminate; auto.
Qed.

Section Decoded.

Variable H : Html.
Variable I : Imports.

(** [get_content] up to the decoding. *)
Lemma get_content_run (enc : option string) (o : Object) (d : bytes)
    (w1 : World) (s : Soup) :
  text (attrs o) = None ->
  get_raw_content I (world o) = (Return d, w1) ->
  make_soup H (Some d) enc = inr s ->
  let a1 := with_content_encoding (Some (encoding_of s))
              (with_soup (Some s) (attrs o)) in
  get_content H I enc o =
    match decode H d (encoding_of s) with
    | inr tx =>
        (Return (Some tx), mkObject (with_text (Some tx) a1) (decoded_log s w1))
    | inl e => (Raise e, mkObject a1 (decoded_log s w1))
    end.
Proof.
  intros Ht Hraw Hsoup a1. subst a1.
  pose proof (get_raw_content_stores I _ _ _ Hraw) as Hd.
  destruct o as [a w]. cbn [attrs world] in *.
  unfold get_content.
  rewrite (O_bind_run get_attrs _ (mkObject a w) (mkObject a w) a eq_refl).
  rewrite (bool_decide_eq_true_2 _ Ht).
  assert (Hinner :
    (on_record (get_raw_content I);;
     r ← on_record get_self;
     s ← O_lift (make_soup H (data r) enc);
     modify_attrs (with_soup (Some s));;
     O_debug "Beautiful Soup detected %s" [or_None (original_encoding s)];;
     modify_attrs (with_content_encoding (Some (encoding_of s)));;
     O_debug "Content encoding %s" [encoding_of s];;
     r ← on_record get_self;
     t ← decode_data H (data r) (encoding_of s);
     modify_attrs (with_text (Some t))) (mkObject a w) =
    match decode H d (encoding_of s) with
    | inr tx =>
        (Return tt,
         mkObject (with_text (Some tx)
                     (with_content_encoding (Some (encoding_of s))
                        (with_soup (Some s) a))) (decoded_log s w1))
    | inl e =>
        (Raise e,
         mkObject (with_content_encoding (Some (encoding_of s))
                     (with_soup (Some s) a)) (decoded_log s w1))
    end).
  { rewrite (O_bind_run _ _ _ (mkObject a w1) d)
      by (unfold on_record; cbn [world attrs]; rewrite Hraw; reflexivity).
    rewrite (O_bind_run _ _ _ (mkObject a w1) (self w1)) by reflexivity.
    rewrite Hd, Hsoup.
    rewrite (O_bind_run _ _ _ (mkObject a w1) s) by reflexivity.
    rewrite (O_bind_run _ _ _ (mkObject (with_soup (Some s) a) w1) tt)
      by reflexivity.
    rewrite (O_bind_run _ _ _
               (mkObject (with_soup (Some s) a)
                  (logged "Beautiful Soup detected %s"
                     [or_None (original_encoding s)] w1)) tt) by reflexivity.
    rewrite (O_bind_run _ _ _
               (mkObject (with_content_encoding (Some (encoding_of s))
                            (with_soup (Some s) a))
                  (logged "Beautiful Soup detected %s"
                     [or_None (original_encoding s)] w1)) tt) by reflexivity.
    rewrite (O_bind_run _ _ _
               (mkObject (with_content_encoding (Some (encoding_of s))
                            (with_soup (Some s) a)) (decoded_log s w1)) tt)
      by reflexivity.
    rewrite (O_bind_run _ _ _
               (mkObject (with_content_encoding (Some (encoding_of s))
                            (with_soup (Some s) a)) (decoded_log s w1))
               (self (decoded_log s w1))) by reflexivity.
    replace (data (self (decoded_log s w1))) with (Some d)
      by (rewrite <- Hd; destruct w1 as [r ? ? ? ? ?]; reflexivity).
    unfold decode_data.
    destruct (decode H d (encoding_of s)) as [e|tx].
    - apply O_bind_raise. reflexivity.
    - rewrite (O_bind_run _ _ _
                 (mkObject (with_content_encoding (Some (encoding_of s))
                              (with_soup (Some s) a)) (decoded_log s w1)) tx)
        by reflexivity.
      reflexivity. }
  cbv iota.
  destruct (decode H d (encoding_of s)) as [e|tx].
  - apply O_bind_raise. exact Hinner.
  - rewrite (O_bind_run _ _ _ _ _ Hinner).
    unfold get_attrs. unfold mbind, O_bind, O_then, mret, O_ret, O_return.
    cbn [attrs]. destruct a; reflexivity.
Qed.

Lemma get_content_cached (enc : option string) (o : Object) (t : string) :
  text (attrs o) = Some t -> get_content H I enc o = (Return (Some t), o).
Proof.
  intros Ht. unfold get_content, get_attrs.
  unfold mbind, O_bind, O_then, mret, O_ret, O_return. cbv beta iota.
  rewrite Ht. rewrite bool_decide_eq_false_2 by discriminate.
  cbv beta iota. rewrite Ht. reflexivity.
Qed.

Lemma get_soup_cached (o : Object) (s : Soup) :
  soup (attrs o) = Some s -> get_soup H I o = (Return (Some s), o).
Proof.
  intros Hs. unfold get_soup, get_attrs.
  unfold mbind, O_bind, O_then, mret, O_ret, O_return. cbv beta iota.
  rewrite Hs. rewrite bool_decide_eq_false_2 by discriminate.
  cbv beta iota. rewrite Hs. reflexivity.
Qed.

(** X21.  [get_content] on an object without text, when the download
    and [make_soup] succeed.  The content encoding is never empty: it is
    the encoding the soup detected, and [ISO-8859-1] when it detected
    none.  If the data decodes, the text is returned and kept: a further
    call, with any encoding, returns it and does nothing, and [get_soup]
    returns the soup and does nothing.  If decoding raises, the
    exception passes through with the soup and the encoding set and the
    text unset: [get_soup] then returns the soup without a new attempt,
    and the data is still there for the next [get_content]. *)
Theorem get_content_once (enc : option string) (o : Object) (d : bytes)
    (w1 : World) (s : Soup) :
  text (attrs o) = None ->
  get_raw_content I (world o) = (Return d, w1) ->
  make_soup H (Some d) enc = inr s ->
  let a1 := with_content_encoding (Some (encoding_of s))
              (with_soup (Some s) (attrs o)) in
  encoding_of s <> ""%string /\
  (truth_opt (original_encoding s) = false ->
   encoding_of s = "ISO-8859-1"%string) /\
  (forall tx,
     decode H d (encoding_of s) = inr tx ->
     let o' := mkObject (with_text (Some tx) a1) (decoded_log s w1) in
     get_content H I enc o = (Return (Some tx), o') /\
     (forall enc', get_content H I enc' o' = (Return (Some tx), o')) /\
     get_soup H I o' = (Return (Some s), o')) /\
  (forall e,
     decode H d (encoding_of s) = inl e ->
     let o' := mkObject a1 (decoded_log s w1) in
     get_content H I enc o = (Raise e, o') /\
     text (attrs o') = None /\
     get_soup H I o' = (Return (Some s), o') /\
     data (self (world o')) = Some d).
Proof.
  intros Ht Hraw Hsoup a1.
  pose proof (get_content_run enc o d w1 s Ht Hraw Hsoup) as Hrun.
  cbv zeta in Hrun. fold a1 in Hrun.
  destruct (encoding_of_shape s) as (Hne & Hiso & _).
  split; [exact Hne|]. split; [exact Hiso|]. split.
  - intros tx Hdec o'. rewrite Hdec in Hrun. split; [exact Hrun|]. split.
    + intros enc'. apply get_content_cached.
      subst o' a1. destruct (attrs o); reflexivity.
    + apply get_soup_cached. subst o' a1. destruct (attrs o); reflexivity.
  - intros e Hdec o'. rewrite Hdec in Hrun. split; [exact Hrun|]. split.
    + subst o' a1. destruct (attrs o); cbn in *. exact Ht.
    + split.
      * apply get_soup_cached. subst o' a1. destruct (attrs o); reflexivity.
      * subst o'. cbn [world]. rewrite <- (get_raw_content_stores I _ _ _ Hraw).
        destruct w1 as [r ? ? ? ? ?]; reflexivity.
Qed.

End Decoded.

Lemma get_content_once_witness :
  let o := mkObject reset_attrs Cases.w_small in
  let w1 := exec (get_raw_content Sample.imports) Cases.w_small in
  let s := mkSoup None in
  let a1 := with_content_encoding (Some "ISO-8859-1"%string)
              (with_soup (Some s) reset_attrs) in
  let o' := mkObject (with_text (Some "???"%string) a1) (decoded_log s w1) in
  get_content sample_html Sample.imports None o = (Return (Some "???"%string), o') /\
  (forall enc', get_content sample_html Sample.imports enc' o'
                = (Return (Some "???"%string), o')) /\
  get_soup sample_html Sample.imports o' = (Return (Some s), o').
Proof.
  refine (proj1 (proj2 (proj2
            (get_content_once sample_html Sample.imports None
               (mkObject reset_attrs Cases.w_small) Examples.three
               (exec (get_raw_content Sample.imports) Cases.w_small)
               (mkSoup None) _ _ _))) "???"%string _).
  - reflexivity.
  - vm_compute. reflexivity.
  - reflexivity.
  - reflexivity.
Defined.

(** ** Normalized URLs *)






Section Normal.

Variable I : Imports.





(** *** What the constructor leaves *)











End Normal.


